(** * The VizSpec schema and the spec-to-figure compiler

    A shallow embedding of the two Python modules of [src/more_stuff.md]:
    [pydantic_viz_spec.py] (the schema of a chart request and its validators)
    and [viz_engine.py] (parser, compiler and payload builder), and of the
    default resolvers of [viz_compile.py] in [src/stuff.md].

    The modules rest on three libraries.  What the development takes from them
    is written once, next to the definition that stands for it:
    - pydantic (v1 API: [validator], [root_validator], [parse_raw], [parse_obj]):
      a root validator also runs when a field failed, on the values that
      remain, and only its [ValueError], [TypeError] and [AssertionError] become
      error entries; [parse_raw] reports a text that does not decode as a
      [ValidationError];
    - pandas ([DataFrame.__getitem__], [copy], [groupby], [duplicated], [pivot]):
      [groupby] iterates its groups in ascending key order and drops missing
      keys; [pivot] returns both axes sorted;
    - plotly ([go.Figure], the trace constructors, [update_layout]);
    - [json.dumps] raises a [TypeError] on a value it cannot encode. *)

From Stdlib Require Import String Ascii List ZArith Bool Lia Floats DecimalString.
From Stdlib Require Import Sorting.Sorted.
Import ListNotations.
Open Scope string_scope.
Open Scope Z_scope.

Set Implicit Arguments.

(** ** Exceptions

    [viz_engine.py] declares three error classes under [VizEngineError].  Every
    other exception that can leave a call (a [KeyError] of pandas, a
    [TypeError] of the interpreter or of [json.dumps], an [AttributeError]) is
    a [PyRaise]. *)

(** One entry of pydantic's [ValidationError.json()]: the field path and the
    message. *)
Definition ErrorEntry : Type := (list string * string)%type.

Inductive PyExn : Type :=
| KeyError
| TypeError
| ValueError
| AttributeError
| IndexError
| ValidationError (errors : list ErrorEntry).   (* pydantic's own error *)

(** The messages of [CompileError], one constructor per [raise] site. *)
Inductive CompileKind : Type :=
| MissingColumns (missing : list string)   (* "columns not found in dataframe: ..." *)
| AmbiguousAggregation                     (* "heatmap long-form requires unique (x,y) pairs; ..." *)
| MissingBinding                           (* "pie requires x (labels) and y (values)" *)
| TooManyTraces (count : nat)              (* "trace count ... exceeds limit ..." *)
| UnsupportedChart.                        (* "Unsupported chart type: ..." *)

Inductive Exn : Type :=
| SpecParseError
| SpecValidationError (errors : list ErrorEntry)
| CompileError (kind : CompileKind)
| PyRaise (e : PyExn).

Inductive result (A : Type) : Type :=
| Ok (a : A)
| Err (e : Exn).

Arguments Ok {A} a.
Arguments Err {A} e.

Definition bind {A B : Type} (r : result A) (k : A -> result B) : result B :=
  match r with
  | Ok a => k a
  | Err e => Err e
  end.

Notation "x <- r ;; k" := (bind r (fun x => k))
  (at level 61, r at next level, right associativity).

(** ** Python truthiness *)

Definition truthy_str (s : string) : bool := negb (s =? "")%string.

Definition truthy_opt_str (o : option string) : bool :=
  match o with
  | Some s => truthy_str s
  | None => false
  end.

Definition truthy_list {A : Type} (l : list A) : bool :=
  match l with
  | [] => false
  | _ :: _ => true
  end.

Definition truthy_opt_list {A : Type} (o : option (list A)) : bool :=
  match o with
  | Some l => truthy_list l
  | None => false
  end.

(** ** JSON values: the structured data a spec arrives as *)

#[local] Set Warnings "-register-all".

Inductive json : Type :=
| JNull
| JBool (b : bool)
| JInt (z : Z)
| JFloat (f : float)
| JStr (s : string)
| JArr (items : list json)
| JObj (members : list (string * json)).

(** [dict.get]: a Python dict holds a key once; the first binding is read. *)
Fixpoint assoc {A : Type} (k : string) (m : list (string * A)) : option A :=
  match m with
  | [] => None
  | (k', v) :: m' => if (k =? k')%string then Some v else assoc k m'
  end.

Definition mem_str (s : string) (l : list string) : bool :=
  existsb (String.eqb s) l.

(** [len(set(v)) != len(v)] *)
Fixpoint has_dup (l : list string) : bool :=
  match l with
  | [] => false
  | s :: l' => mem_str s l' || has_dup l'
  end.

(** ** pydantic_viz_spec.py: enums

    Each enum is a module, as in [ChartType.line] and [Mode.lines.value]. *)

(** An enum member is found by its value. *)
Definition enum_of {E : Type} (value : E -> string) (members : list E)
    (s : string) : option E :=
  find (fun e => (value e =? s)%string) members.

Module ChartType.
Inductive t : Type :=
| line | scatter | bar | histogram | box | heatmap | pie | area.
Definition value (c : t) : string :=
  match c with
  | line => "line" | scatter => "scatter" | bar => "bar"
  | histogram => "histogram" | box => "box" | heatmap => "heatmap"
  | pie => "pie" | area => "area"
  end.
Definition members : list t :=
  [line; scatter; bar; histogram; box; heatmap; pie; area].
Definition eqb (a b : t) : bool :=
  match a, b with
  | line, line | scatter, scatter | bar, bar | histogram, histogram
  | box, box | heatmap, heatmap | pie, pie | area, area => true
  | _, _ => false
  end.
End ChartType.

Module Mode.
Inductive t : Type := lines | markers | lines_markers.
Definition value (m : t) : string :=
  match m with
  | lines => "lines" | markers => "markers" | lines_markers => "lines+markers"
  end.
Definition members : list t := [lines; markers; lines_markers].
End Mode.

Module Orientation.
Inductive t : Type := v | h.
Definition value (o : t) : string :=
  match o with
  | v => "v" | h => "h"
  end.
Definition members : list t := [v; h].
End Orientation.

Module BarMode.
Inductive t : Type := group | stack | relative.
Definition value (b : t) : string :=
  match b with
  | group => "group" | stack => "stack" | relative => "relative"
  end.
Definition members : list t := [group; stack; relative].
End BarMode.

Module HistNorm.
Inductive t : Type := none | percent | probability | density.
Definition value (n : t) : string :=
  match n with
  | none => "none" | percent => "percent"
  | probability => "probability" | density => "density"
  end.
Definition members : list t := [none; percent; probability; density].
End HistNorm.

Module HoverMode.
Inductive t : Type := x | y | closest | x_unified | y_unified.
Definition value (m : t) : string :=
  match m with
  | x => "x" | y => "y" | closest => "closest"
  | x_unified => "x unified" | y_unified => "y unified"
  end.
Definition members : list t := [x; y; closest; x_unified; y_unified].
End HoverMode.

Module LineShape.
Inductive t : Type := linear | spline.
Definition value (s : t) : string :=
  match s with
  | linear => "linear" | spline => "spline"
  end.
Definition members : list t := [linear; spline].
End LineShape.

(** ** Small validators *)

Definition is_hex_digit (c : ascii) : bool :=
  let n := N_of_ascii c in
  ((48 <=? n) && (n <=? 57) || (65 <=? n) && (n <=? 70)
   || (97 <=? n) && (n <=? 102))%N.

(** [_HEX.match(s)] for [^#(?:[0-9a-fA-F]{6}|[0-9a-fA-F]{8})$]: a hash sign,
    six or eight hex digits, then the end of the text; Python's [$] also
    matches just before one final newline. *)
Definition _HEX_match (s : string) : bool :=
  match s with
  | String "#" rest =>
      let cs := list_ascii_of_string rest in
      let bodies :=
        match rev cs with
        | "010"%char :: before => [rev before; cs]
        | _ => [cs]
        end in
      existsb (fun ds => forallb is_hex_digit ds
                         && ((length ds =? 6)%nat || (length ds =? 8)%nat)) bodies
  | _ => false
  end.

(** [bool(_HEX.match(s)) or isinstance(s, str)]; the argument is an entry of a
    field typed [Dict[str, str]] or [List[str]], a [str] by then. *)
Definition _valid_color (s : string) : bool :=
  _HEX_match s || true.

(** ** pydantic: fields and their validation

    A field's validation gives the value or the error entries found.  The
    errors of all fields of a model are collected, in field order.

    Values are taken at the JSON type the field declares.  pydantic's lax
    conversions between scalar types (a number where [str] is declared, a
    numeric text where [int] is declared) are outside the model: such a value
    is reported as a type error here. *)

Inductive field (A : Type) : Type :=
| Valid (a : A)
| Invalid (errors : list ErrorEntry).

Arguments Valid {A} a.
Arguments Invalid {A} errors.

Definition errors_of {A : Type} (f : field A) : list ErrorEntry :=
  match f with
  | Valid _ => []
  | Invalid es => es
  end.

(** [values.get(name)] in a root validator: [None] for a field that failed. *)
Definition value_of {A : Type} (f : field A) : option A :=
  match f with
  | Valid a => Some a
  | Invalid _ => None
  end.

Definition fail {A : Type} (msg : string) : field A := Invalid [([], msg)].

(** Errors of a field are reported under the field's name. *)
Definition at_loc {A : Type} (name : string) (f : field A) : field A :=
  match f with
  | Valid a => Valid a
  | Invalid es => Invalid (map (fun e => (name :: fst e, snd e)) es)
  end.

Definition ap {A B : Type} (ff : field (A -> B)) (fa : field A) : field B :=
  match ff, fa with
  | Valid f, Valid a => Valid (f a)
  | _, _ => Invalid (errors_of ff ++ errors_of fa)
  end.

Notation "ff <*> fa" := (ap ff fa) (at level 52, left associativity).

Definition and_then {A B : Type} (f : field A) (k : A -> field B) : field B :=
  match f with
  | Valid a => k a
  | Invalid es => Invalid es
  end.

(** [Optional[T] = default]: an absent key takes the default unvalidated,
    [null] is [None], anything else goes through [T]'s validation. *)
Definition optional {A : Type} (default : option A) (validate : json -> field A)
    (raw : option json) : field (option A) :=
  match raw with
  | None => Valid default
  | Some JNull => Valid None
  | Some j => and_then (validate j) (fun a => Valid (Some a))
  end.

(** A field with no [Optional]: [null] is not allowed. *)
Definition with_default {A : Type} (default : A) (validate : json -> field A)
    (raw : option json) : field A :=
  match raw with
  | None => Valid default
  | Some j => validate j
  end.

Definition required {A : Type} (validate : json -> field A)
    (raw : option json) : field A :=
  match raw with
  | None => fail "field required"
  | Some j => validate j
  end.

Definition str_validator (j : json) : field string :=
  match j with
  | JStr s => Valid s
  | JNull => fail "none is not an allowed value"
  | _ => fail "str type expected"
  end.

Definition int_validator (j : json) : field Z :=
  match j with
  | JInt z => Valid z
  | JNull => fail "none is not an allowed value"
  | _ => fail "value is not a valid integer"
  end.

(** [float(z)]; from 2^63 on the result stands for a float above every bound
    of the schema. *)
Definition float_of_int (z : Z) : float :=
  if 9223372036854775807 <? Z.abs z
  then (if z <? 0 then neg_infinity else infinity)
  else if z <? 0
       then PrimFloat.opp (PrimFloat.of_uint63 (Uint63.of_Z (- z)))
       else PrimFloat.of_uint63 (Uint63.of_Z z).

Definition float_validator (j : json) : field float :=
  match j with
  | JFloat f => Valid f
  | JInt z => Valid (float_of_int z)
  | JNull => fail "none is not an allowed value"
  | _ => fail "value is not a valid float"
  end.

Definition bool_validator (j : json) : field bool :=
  match j with
  | JBool b => Valid b
  | JNull => fail "none is not an allowed value"
  | _ => fail "value could not be parsed to a boolean"
  end.

Definition enum_validator {E : Type} (value : E -> string) (members : list E)
    (j : json) : field E :=
  match j with
  | JStr s =>
      match enum_of value members s with
      | Some e => Valid e
      | None => fail "value is not a valid enumeration member"
      end
  | JNull => fail "none is not an allowed value"
  | _ => fail "value is not a valid enumeration member"
  end.

(** [Field(ge=lo, le=hi)] on an [int]. *)
Definition int_between (lo hi : Z) (j : json) : field Z :=
  and_then (int_validator j) (fun z =>
    if z <? lo then fail "ensure this value is greater than or equal to the bound"
    else if hi <? z then fail "ensure this value is less than or equal to the bound"
    else Valid z).

(** [Field(ge=lo, le=hi)] on a [float]; a NaN fails the first comparison. *)
Definition float_between (lo hi : float) (j : json) : field float :=
  and_then (float_validator j) (fun f =>
    if negb (PrimFloat.leb lo f)
    then fail "ensure this value is greater than or equal to the bound"
    else if negb (PrimFloat.leb f hi)
    then fail "ensure this value is less than or equal to the bound"
    else Valid f).

Definition index_loc (i : nat) : string :=
  NilZero.string_of_uint (Nat.to_uint i).

(** The items of a [List[T]], each reported under its index. *)
Fixpoint items_validator {A : Type} (validate : json -> field A) (i : nat)
    (items : list json) : field (list A) :=
  match items with
  | [] => Valid []
  | j :: rest =>
      Valid cons <*> at_loc (index_loc i) (validate j)
                 <*> items_validator validate (S i) rest
  end.

Definition list_validator {A : Type} (validate : json -> field A)
    (j : json) : field (list A) :=
  match j with
  | JArr items => items_validator validate 0 items
  | JNull => fail "none is not an allowed value"
  | _ => fail "value is not a valid list"
  end.

(** The values of a [Dict[str, T]], each reported under its key. *)
Fixpoint members_validator {A : Type} (validate : json -> field A)
    (members : list (string * json)) : field (list (string * A)) :=
  match members with
  | [] => Valid []
  | (k, j) :: rest =>
      Valid (fun a l => (k, a) :: l) <*> at_loc k (validate j)
                                     <*> members_validator validate rest
  end.

Definition dict_validator {A : Type} (validate : json -> field A)
    (j : json) : field (list (string * A)) :=
  match j with
  | JObj members => members_validator validate members
  | JNull => fail "none is not an allowed value"
  | _ => fail "value is not a valid dict"
  end.

(** [Dict[str, Any]]: the values are kept as they are. *)
Definition any_validator (j : json) : field json := Valid j.

(** A nested model: the value must be a dict, validated by the model. *)
Definition model_validator {M : Type}
    (validate : list (string * json) -> field M) (j : json) : field M :=
  match j with
  | JObj members => validate members
  | JNull => fail "none is not an allowed value"
  | _ => fail "value is not a valid dict"
  end.

(** [.json()] of an optional value. *)
Definition opt_json {A : Type} (to_json : A -> json) (o : option A) : json :=
  match o with
  | Some a => to_json a
  | None => JNull
  end.

Definition strs_json (l : list string) : json := JArr (map JStr l).

Definition dict_json {A : Type} (to_json : A -> json)
    (m : list (string * A)) : json :=
  JObj (map (fun kv => (fst kv, to_json (snd kv))) m).

(** ** pydantic_viz_spec.py: nested leaf models

    Every model is a module: the record [t] of its validated fields, the
    class's validators under their names, [validate] (what constructing the
    model from a dict of raw values does) and [to_json] (the model's
    [.json()]). *)

Module EncodingsSpec.
Record t : Type := Build {
  marker_size : option Z;
  opacity : option float;
  line_shape : option LineShape.t
}.

Definition validate (raw : list (string * json)) : field t :=
  Valid Build
    <*> at_loc "marker_size"
          (optional (Some 6) (int_between 1 64) (assoc "marker_size" raw))
    <*> at_loc "opacity"
          (optional (Some 0x1.ccccccccccccdp-1%float)
             (float_between 0%float 1%float) (assoc "opacity" raw))
    <*> at_loc "line_shape"
          (optional None (enum_validator LineShape.value LineShape.members)
             (assoc "line_shape" raw)).

Definition to_json (e : t) : json :=
  JObj [("marker_size", opt_json JInt (marker_size e));
        ("opacity", opt_json JFloat (opacity e));
        ("line_shape", opt_json (fun s => JStr (LineShape.value s)) (line_shape e))].
End EncodingsSpec.

Module SeriesSpec.
Record t : Type := Build {
  by_ : option string      (* [by] *)
}.

Definition validate (raw : list (string * json)) : field t :=
  Valid Build
    <*> at_loc "by" (optional None str_validator (assoc "by" raw)).

Definition to_json (s : t) : json :=
  JObj [("by", opt_json JStr (by_ s))].
End SeriesSpec.

Module AxisSpec.
Record t : Type := Build {
  y2_for : option (list string);
  area_stackgroup : option string
}.

Definition validate (raw : list (string * json)) : field t :=
  Valid Build
    <*> at_loc "y2_for"
          (optional None (list_validator str_validator) (assoc "y2_for" raw))
    <*> at_loc "area_stackgroup"
          (optional None str_validator (assoc "area_stackgroup" raw)).

Definition to_json (a : t) : json :=
  JObj [("y2_for", opt_json strs_json (y2_for a));
        ("area_stackgroup", opt_json JStr (area_stackgroup a))].
End AxisSpec.

Module LabelsSpec.
Record t : Type := Build {
  y : option (list (string * string));
  series : option (list (string * string))
}.

Definition validate (raw : list (string * json)) : field t :=
  Valid Build
    <*> at_loc "y" (optional None (dict_validator str_validator) (assoc "y" raw))
    <*> at_loc "series"
          (optional None (dict_validator str_validator) (assoc "series" raw)).

Definition to_json (l : t) : json :=
  JObj [("y", opt_json (dict_json JStr) (y l));
        ("series", opt_json (dict_json JStr) (series l))].
End LabelsSpec.

Module ColorsSpec.
Record t : Type := Build {
  color_map : option (list (string * string))
}.

(** The loop of [_validate_colors] over [v.items()]. *)
Fixpoint first_invalid_color (items : list (string * string)) : option string :=
  match items with
  | [] => None
  | (k, c) :: rest =>
      if negb (_valid_color c) then Some k else first_invalid_color rest
  end.

Definition _validate_colors (v : list (string * string))
    : field (list (string * string)) :=
  if negb (truthy_list v) then Valid v
  else match first_invalid_color v with
       | Some k => fail ("Invalid color for key '" ++ k ++ "'")
       | None => Valid v
       end.

Definition validate (raw : list (string * json)) : field t :=
  Valid Build
    <*> at_loc "color_map"
          (optional None
             (fun j => and_then (dict_validator str_validator j) _validate_colors)
             (assoc "color_map" raw)).

Definition to_json (c : t) : json :=
  JObj [("color_map", opt_json (dict_json JStr) (color_map c))].
End ColorsSpec.

(** ** pydantic_viz_spec.py: core sections *)

Module ChartSpec.
Record t : Type := Build {
  type : ChartType.t;
  mode : option Mode.t;
  orientation : option Orientation.t;
  barmode : option BarMode.t;
  histnorm : option HistNorm.t
}.

(** The root validator, on the values of a chart whose fields validated.
    (pydantic also runs it when a field failed; the model is rejected with
    that field's errors whatever it returns then, and it never raises.) *)
Definition _defaults_and_semantics (values : t) : t :=
  let t_ := type values in
  {| type := t_;
     mode :=
       match mode values with
       | None =>
           if ChartType.eqb t_ ChartType.line || ChartType.eqb t_ ChartType.area
           then Some Mode.lines else None
       | Some m => Some m
       end;
     orientation :=
       if negb (ChartType.eqb t_ ChartType.bar) then None else orientation values;
     barmode := barmode values;
     histnorm :=
       if negb (ChartType.eqb t_ ChartType.histogram) then None
       else histnorm values |}.

Definition validate (raw : list (string * json)) : field t :=
  and_then
    (Valid Build
       <*> at_loc "type"
             (required (enum_validator ChartType.value ChartType.members)
                (assoc "type" raw))
       <*> at_loc "mode"
             (optional None (enum_validator Mode.value Mode.members)
                (assoc "mode" raw))
       <*> at_loc "orientation"
             (optional None (enum_validator Orientation.value Orientation.members)
                (assoc "orientation" raw))
       <*> at_loc "barmode"
             (optional None (enum_validator BarMode.value BarMode.members)
                (assoc "barmode" raw))
       <*> at_loc "histnorm"
             (optional None (enum_validator HistNorm.value HistNorm.members)
                (assoc "histnorm" raw)))
    (fun values => Valid (_defaults_and_semantics values)).

Definition to_json (c : t) : json :=
  JObj [("type", JStr (ChartType.value (type c)));
        ("mode", opt_json (fun m => JStr (Mode.value m)) (mode c));
        ("orientation",
          opt_json (fun o => JStr (Orientation.value o)) (orientation c));
        ("barmode", opt_json (fun b => JStr (BarMode.value b)) (barmode c));
        ("histnorm", opt_json (fun n => JStr (HistNorm.value n)) (histnorm c))].
End ChartSpec.

(** [Union[str, List[str]]]: one column name or an ordered list of them. *)
Inductive YSpec : Type :=
| YCol (col : string)
| YList (cols : list string).

Module DataSpec.
Record t : Type := Build {
  frame_name : option string;
  x : option string;
  y : option YSpec;
  z : option string;
  text : option string;
  name : option string;
  series : option SeriesSpec.t;
  axis : option AxisSpec.t;
  encodings : option EncodingsSpec.t;
  labels : option LabelsSpec.t;
  colors : option ColorsSpec.t
}.

(** The members of the [Union] are tried in order: [str], then [List[str]]. *)
Definition y_validator (j : json) : field YSpec :=
  match j with
  | JStr s => Valid (YCol s)
  | JArr _ => and_then (list_validator str_validator j) (fun l => Valid (YList l))
  | JNull => fail "none is not an allowed value"
  | _ => fail "str type expected; value is not a valid list"
  end.

Definition _unique_y_list (v : YSpec) : field YSpec :=
  match v with
  | YList l =>
      if negb (truthy_list l) then fail "y list cannot be empty"
      else if has_dup l then fail "y list contains duplicates"
      else Valid v
  | YCol _ => Valid v
  end.

Definition validate (raw : list (string * json)) : field t :=
  Valid Build
    <*> at_loc "frame_name" (optional None str_validator (assoc "frame_name" raw))
    <*> at_loc "x" (optional None str_validator (assoc "x" raw))
    <*> at_loc "y"
          (optional None (fun j => and_then (y_validator j) _unique_y_list)
             (assoc "y" raw))
    <*> at_loc "z" (optional None str_validator (assoc "z" raw))
    <*> at_loc "text" (optional None str_validator (assoc "text" raw))
    <*> at_loc "name" (optional None str_validator (assoc "name" raw))
    <*> at_loc "series"
          (optional None (model_validator SeriesSpec.validate) (assoc "series" raw))
    <*> at_loc "axis"
          (optional None (model_validator AxisSpec.validate) (assoc "axis" raw))
    <*> at_loc "encodings"
          (optional None (model_validator EncodingsSpec.validate)
             (assoc "encodings" raw))
    <*> at_loc "labels"
          (optional None (model_validator LabelsSpec.validate) (assoc "labels" raw))
    <*> at_loc "colors"
          (optional None (model_validator ColorsSpec.validate) (assoc "colors" raw)).

Definition y_json (v : YSpec) : json :=
  match v with
  | YCol s => JStr s
  | YList l => strs_json l
  end.

Definition to_json (d : t) : json :=
  JObj [("frame_name", opt_json JStr (frame_name d));
        ("x", opt_json JStr (x d));
        ("y", opt_json y_json (y d));
        ("z", opt_json JStr (z d));
        ("text", opt_json JStr (text d));
        ("name", opt_json JStr (name d));
        ("series", opt_json SeriesSpec.to_json (series d));
        ("axis", opt_json AxisSpec.to_json (axis d));
        ("encodings", opt_json EncodingsSpec.to_json (encodings d));
        ("labels", opt_json LabelsSpec.to_json (labels d));
        ("colors", opt_json ColorsSpec.to_json (colors d))].
End DataSpec.

Module LayoutSpec.
Record t : Type := Build {
  title : option string;
  xaxis_title : option string;
  yaxis_title : option string;
  yaxis2_title : option string;
  hovermode : option HoverMode.t;
  template : option string;
  colorway : option (list string);
  legend : option (list (string * json));
  height : option Z;
  width : option Z
}.

Definition _validate_colorway (v : list string) : field (list string) :=
  if truthy_list v
  then match find (fun c => negb (_valid_color c)) v with
       | Some c => fail ("Invalid color in colorway: " ++ c)
       | None => Valid v
       end
  else Valid v.

Definition validate (raw : list (string * json)) : field t :=
  Valid Build
    <*> at_loc "title" (optional None str_validator (assoc "title" raw))
    <*> at_loc "xaxis_title"
          (optional None str_validator (assoc "xaxis_title" raw))
    <*> at_loc "yaxis_title"
          (optional None str_validator (assoc "yaxis_title" raw))
    <*> at_loc "yaxis2_title"
          (optional None str_validator (assoc "yaxis2_title" raw))
    <*> at_loc "hovermode"
          (optional None (enum_validator HoverMode.value HoverMode.members)
             (assoc "hovermode" raw))
    <*> at_loc "template" (optional None str_validator (assoc "template" raw))
    <*> at_loc "colorway"
          (optional None
             (fun j => and_then (list_validator str_validator j) _validate_colorway)
             (assoc "colorway" raw))
    <*> at_loc "legend"
          (optional None (dict_validator any_validator) (assoc "legend" raw))
    <*> at_loc "height"
          (optional (Some 450) (int_between 200 2000) (assoc "height" raw))
    <*> at_loc "width"
          (optional None (int_between 200 4000) (assoc "width" raw)).

Definition to_json (l : t) : json :=
  JObj [("title", opt_json JStr (title l));
        ("xaxis_title", opt_json JStr (xaxis_title l));
        ("yaxis_title", opt_json JStr (yaxis_title l));
        ("yaxis2_title", opt_json JStr (yaxis2_title l));
        ("hovermode", opt_json (fun m => JStr (HoverMode.value m)) (hovermode l));
        ("template", opt_json JStr (template l));
        ("colorway", opt_json strs_json (colorway l));
        ("legend", opt_json JObj (legend l));
        ("height", opt_json JInt (height l));
        ("width", opt_json JInt (width l))].
End LayoutSpec.

Module PlotlyJSConfig.
Record t : Type := Build {
  responsive : bool;
  displayModeBar : bool;
  displaylogo : bool;
  scrollZoom : bool;
  modeBarButtonsToRemove : option (list string)
}.

(** [extra = "ignore"]: keys that are no field are dropped. *)
Definition validate (raw : list (string * json)) : field t :=
  Valid Build
    <*> at_loc "responsive"
          (with_default true bool_validator (assoc "responsive" raw))
    <*> at_loc "displayModeBar"
          (with_default true bool_validator (assoc "displayModeBar" raw))
    <*> at_loc "displaylogo"
          (with_default false bool_validator (assoc "displaylogo" raw))
    <*> at_loc "scrollZoom"
          (with_default false bool_validator (assoc "scrollZoom" raw))
    <*> at_loc "modeBarButtonsToRemove"
          (optional None (list_validator str_validator)
             (assoc "modeBarButtonsToRemove" raw)).

(** [.dict(by_alias=True)] and [.json()] list the same members. *)
Definition to_json (c : t) : json :=
  JObj [("responsive", JBool (responsive c));
        ("displayModeBar", JBool (displayModeBar c));
        ("displaylogo", JBool (displaylogo c));
        ("scrollZoom", JBool (scrollZoom c));
        ("modeBarButtonsToRemove",
          opt_json strs_json (modeBarButtonsToRemove c))].
End PlotlyJSConfig.

(** [set(a) - set(b)] as the members of [a] that [b] lacks. *)
Definition set_minus (a b : list string) : list string :=
  filter (fun s => negb (mem_str s b)) a.

Definition is_y_list (y : option YSpec) : bool :=
  match y with
  | Some (YList _) => true
  | _ => false
  end.

(** Truthiness of [data.y]: a non-empty text or a non-empty list. *)
Definition truthy_y (y : option YSpec) : bool :=
  match y with
  | Some (YCol s) => truthy_str s
  | Some (YList l) => truthy_list l
  | None => false
  end.

(** [data.axis.y2_for if (data.axis and data.axis.y2_for) else None] *)
Definition y2_for_of (d : DataSpec.t) : option (list string) :=
  match DataSpec.axis d with
  | Some a => if truthy_opt_list (AxisSpec.y2_for a) then AxisSpec.y2_for a else None
  | None => None
  end.

(** [data.series.by] when [data.series and data.series.by], else nothing. *)
Definition series_by (d : DataSpec.t) : option string :=
  match DataSpec.series d with
  | Some s => if truthy_opt_str (SeriesSpec.by_ s) then SeriesSpec.by_ s else None
  | None => None
  end.

Module VizSpec.
Record t : Type := Build {
  version : string;
  chart : ChartSpec.t;
  data : DataSpec.t;
  layout : option LayoutSpec.t;
  plotly_config : option PlotlyJSConfig.t
}.

(** What a root validator does: return, raise a [ValueError] (which pydantic
    turns into an error entry under "__root__"), or raise something pydantic
    does not catch. *)
Inductive check : Type :=
| Passed
| Rejected (msg : string)
| Crashed (e : PyExn).

Definition next (c1 c2 : check) : check :=
  match c1 with
  | Passed => c2
  | _ => c1
  end.

(** [[k for k in ("x", "y", "z") if getattr(data, k) is None]] *)
Definition heatmap_missing (d : DataSpec.t) : list string :=
  let missing {A : Type} (k : string) (value : option A) : list string :=
    match value with
    | None => [k]
    | Some _ => []
    end in
  (missing "x" (DataSpec.x d) ++ missing "y" (DataSpec.y d)
     ++ missing "z" (DataSpec.z d))%list.

(** The root validator runs on [values], which lacks every field that
    failed its own validation: [chart] and [data] may be [None] here.  The
    heatmap check reads [data] without the guard the other checks have. *)
Definition _semantic_checks (chart : option ChartSpec.t)
    (data : option DataSpec.t) : check :=
  let is_type ty :=
    match chart with
    | Some c => ChartType.eqb (ChartSpec.type c) ty
    | None => false
    end in
  next
    (if is_type ChartType.heatmap then
       match data with
       | None => Crashed AttributeError
       | Some d =>
           if truthy_list (heatmap_missing d)
           then Rejected "heatmap requires x, y, z; missing"
           else Passed
       end
     else Passed)
  (next
    (match data with
     | Some d =>
         match y2_for_of d, DataSpec.y d with
         | Some y2, Some (YList ys) =>
             if truthy_list (set_minus y2 ys)
             then Rejected "y2_for contains columns not in y"
             else Passed
         | _, _ => Passed
         end
     | None => Passed
     end)
  (next
    (match data with
     | Some d =>
         if is_y_list (DataSpec.y d) && truthy_opt_str (series_by d)
         then Rejected
                "cannot use list(y) together with series.by; choose one strategy"
         else Passed
     | None => Passed
     end)
  (next
    (if is_type ChartType.histogram then
       match data with
       | Some d =>
           if negb (truthy_opt_str (DataSpec.x d) || truthy_y (DataSpec.y d))
           then Rejected "histogram requires one of x or y"
           else Passed
       | None => Rejected "histogram requires one of x or y"
       end
     else Passed)
    (match chart with
     | Some c =>
         match ChartSpec.type c, ChartSpec.mode c with
         | ChartType.area, Some Mode.markers =>
             Rejected "area charts require 'lines' or 'lines+markers' mode"
         | _, _ => Passed
         end
     | None => Passed
     end)))).

(** [version: str = Field("1.0", const=True)] *)
Definition version_validator (j : json) : field string :=
  and_then (str_validator j) (fun s =>
    if (s =? "1.0")%string then Valid s else fail "unexpected value; permitted: '1.0'").

Definition field_names : list string :=
  ["version"; "chart"; "data"; "layout"; "plotly_config"].

(** [extra = "forbid"] *)
Definition extra_errors (raw : list (string * json)) : list ErrorEntry :=
  map (fun k => ([k], "extra fields not permitted"))
      (filter (fun k => negb (mem_str k field_names)) (map fst raw)).

Definition field_chart (raw : list (string * json)) : field ChartSpec.t :=
  at_loc "chart" (required (model_validator ChartSpec.validate) (assoc "chart" raw)).

Definition field_data (raw : list (string * json)) : field DataSpec.t :=
  at_loc "data" (required (model_validator DataSpec.validate) (assoc "data" raw)).

(** Constructing [VizSpec] from the raw values: the fields in declaration
    order, the check for extra keys, then the root validator; the model is
    built when no error was collected, a [ValidationError] with all of them
    is raised otherwise, and an exception of the root validator that is no
    [ValueError], [TypeError] or [AssertionError] leaves the constructor as
    it is. *)
Definition validate (raw : list (string * json)) : result t :=
  let fields :=
    Valid Build
      <*> at_loc "version"
            (with_default "1.0" version_validator (assoc "version" raw))
      <*> field_chart raw
      <*> field_data raw
      <*> at_loc "layout"
            (optional None (model_validator LayoutSpec.validate)
               (assoc "layout" raw))
      <*> at_loc "plotly_config"
            (optional None (model_validator PlotlyJSConfig.validate)
               (assoc "plotly_config" raw)) in
  let errors := (errors_of fields ++ extra_errors raw)%list in
  match _semantic_checks (value_of (field_chart raw)) (value_of (field_data raw)) with
  | Crashed e => Err (PyRaise e)
  | Rejected msg =>
      Err (PyRaise (ValidationError (errors ++ [(["__root__"], msg)])%list))
  | Passed =>
      match fields, errors with
      | Valid model, [] => Ok model
      | _, _ => Err (PyRaise (ValidationError errors))
      end
  end.

(** [VizSpec.parse_obj]: a value that is no dict is a [ValidationError]
    (pydantic first tries [dict(obj)]; an array of key-value pairs, which
    that call would accept, is not modelled as a dict). *)
Definition parse_obj (obj : json) : result t :=
  match obj with
  | JObj raw => validate raw
  | _ => Err (PyRaise (ValidationError [(["__root__"], "VizSpec expected dict")]))
  end.

(** [VizSpec.parse_raw]: the text is decoded first, and pydantic v1 wraps
    the decoder's [ValueError] in a [ValidationError] of its own.  The text
    is given by what [json.loads] makes of it: [None] when it is not
    well-formed JSON. *)
Definition parse_raw (decoded : option json) : result t :=
  match decoded with
  | None => Err (PyRaise (ValidationError [(["__root__"], "Expecting value")]))
  | Some obj => parse_obj obj
  end.

Definition to_json (s : t) : json :=
  JObj [("version", JStr (version s));
        ("chart", ChartSpec.to_json (chart s));
        ("data", DataSpec.to_json (data s));
        ("layout", opt_json LayoutSpec.to_json (layout s));
        ("plotly_config", opt_json PlotlyJSConfig.to_json (plotly_config s))].
End VizSpec.

(** ** viz_engine.py: the parser *)

(** The argument of [parse_viz_spec], typed
    [Union[str, Dict[str, Any], VizSpec]]. *)
Inductive SpecInput : Type :=
| Text (decoded : option json)            (* a [str], by its decoding *)
| Dict (raw : list (string * json))
| Model (model : VizSpec.t).

(** The [try] block of [parse_viz_spec] with its two [except] clauses. *)
Definition translate_errors (attempt : result VizSpec.t) : result VizSpec.t :=
  match attempt with
  | Ok model => Ok model
  | Err (PyRaise (ValidationError ve)) => Err (SpecValidationError ve)
  | Err _ => Err SpecParseError
  end.

Definition parse_viz_spec (spec : SpecInput) : result VizSpec.t :=
  match spec with
  | Model model => Ok model
  | Text decoded => translate_errors (VizSpec.parse_raw decoded)
  | Dict raw => translate_errors (VizSpec.parse_obj (JObj raw))
  end.

(** ** pandas: the table the compiler is given

    A frame is its columns in order, each a label and a series; a series is a
    dtype and its cells.  All columns of a frame have one length and their
    labels are distinct. *)

Module Pandas.
(** A cell: missing, an integer, a text, or a native timestamp (given by
    its ISO text, whose order is the order of time). *)
Inductive Cell : Type :=
| NaN
| Int (z : Z)
| Str (s : string)
| Timestamp (iso : string).

Inductive Dtype : Type :=
| object_ | int64 | float64 | bool_ | datetime64.

Record Series : Type := mkSeries {
  dtype : Dtype;
  values : list Cell
}.

Definition DataFrame : Type := list (string * Series).

(** [np.issubdtype(dtype, np.datetime64)] *)
Definition is_datetime64 (d : Dtype) : bool :=
  match d with
  | datetime64 => true
  | _ => false
  end.

(** The order pandas sorts labels by: numbers before texts (as its
    [safe_sort] orders mixed labels), missing values last. *)
Definition rank (c : Cell) : nat :=
  match c with
  | Int _ => 0
  | Str _ => 1
  | Timestamp _ => 2
  | NaN => 3
  end.

Definition compare (a b : Cell) : comparison :=
  match a, b with
  | Int p, Int q => Z.compare p q
  | Str s, Str t => String.compare s t
  | Timestamp s, Timestamp t => String.compare s t
  | _, _ => Nat.compare (rank a) (rank b)
  end.

Definition eqb (a b : Cell) : bool :=
  match compare a b with
  | Eq => true
  | _ => false
  end.

Definition isna (c : Cell) : bool :=
  match c with
  | NaN => true
  | _ => false
  end.

(** [str(c)] *)
Definition str (c : Cell) : string :=
  match c with
  | NaN => "nan"
  | Int z => NilZero.string_of_int (Z.to_int z)
  | Str s => s
  | Timestamp iso => iso
  end.

(** Sorted labels without repeats, by insertion. *)
Fixpoint insert (k : Cell) (l : list Cell) : list Cell :=
  match l with
  | [] => [k]
  | c :: l' =>
      match compare k c with
      | Lt => k :: l
      | Eq => l
      | Gt => c :: insert k l'
      end
  end.

Definition sort_unique (l : list Cell) : list Cell :=
  fold_right insert [] l.

(** [df.columns] *)
Definition columns (df : DataFrame) : list string := map fst df.

(** [df[col]]: [KeyError] when no column has the label. *)
Definition getitem (df : DataFrame) (col : string) : result Series :=
  match assoc col df with
  | Some s => Ok s
  | None => Err (PyRaise KeyError)
  end.

Definition nrows (df : DataFrame) : nat :=
  match df with
  | [] => 0%nat
  | (_, s) :: _ => length (values s)
  end.

(** [df[col] = s]: replaces the column in place, or appends a new one;
    [ValueError] when the length does not fit. *)
Fixpoint replace_column (df : DataFrame) (col : string) (s : Series) : DataFrame :=
  match df with
  | [] => [(col, s)]
  | (c, old) :: rest =>
      if (col =? c)%string then (c, s) :: rest
      else (c, old) :: replace_column rest col s
  end.

Definition setitem (df : DataFrame) (col : string) (s : Series)
    : result DataFrame :=
  match df with
  | [] => Ok [(col, s)]
  | _ :: _ =>
      if (length (values s) =? nrows df)%nat then Ok (replace_column df col s)
      else Err (PyRaise ValueError)
  end.

(** The items of [l] at the positions where [mask] holds. *)
Fixpoint select {A : Type} (mask : list bool) (l : list A) : list A :=
  match mask, l with
  | b :: mask', a :: l' =>
      if b then a :: select mask' l' else select mask' l'
  | _, _ => []
  end.

(** [df[mask]]: the rows where [mask] holds, in their order. *)
Definition take_rows (mask : list bool) (df : DataFrame) : DataFrame :=
  map (fun c => (fst c, mkSeries (dtype (snd c)) (select mask (values (snd c))))) df.

(** [df.groupby(col)] as iterated by [for key, g in ...]: with the defaults
    [sort=True] and [dropna=True], one group per distinct non-missing key,
    in ascending key order; a group holds the rows of its key in their
    original order.  [KeyError] when the frame has no such column. *)
Definition groupby (df : DataFrame) (col : string)
    : result (list (Cell * DataFrame)) :=
  s <- getitem df col ;;
  Ok (map (fun key => (key, take_rows (map (eqb key) (values s)) df))
          (sort_unique (filter (fun c => negb (isna c)) (values s)))).

(** [df.duplicated(subset=[a, b], keep=False).any()]: some two rows agree on
    both columns (missing values agree with each other). *)
Fixpoint any_duplicated (pairs : list (Cell * Cell)) : bool :=
  match pairs with
  | [] => false
  | p :: rest =>
      existsb (fun q => eqb (fst p) (fst q) && eqb (snd p) (snd q)) rest
      || any_duplicated rest
  end.

Definition duplicated_any (df : DataFrame) (a b : string) : result bool :=
  sa <- getitem df a ;;
  sb <- getitem df b ;;
  Ok (any_duplicated (combine (values sa) (values sb))).

(** The result of [df.pivot]: row labels, column labels and the matrix. *)
Record Pivot : Type := mkPivot {
  index : list Cell;
  pivot_columns : list Cell;
  matrix : list (list Cell)
}.

Definition cell_at (rows : list (Cell * Cell * Cell)) (r c : Cell) : Cell :=
  match find (fun t => eqb (fst (fst t)) r && eqb (snd (fst t)) c) rows with
  | Some t => snd t
  | None => NaN
  end.

(** [df.pivot(index=i, columns=c, values=v)]: pandas reshapes by unstacking,
    which sorts the labels of both axes; a cell no row gives is missing.
    [ValueError] when two rows share an (index, column) pair. *)
Definition pivot (df : DataFrame) (i c v : string) : result Pivot :=
  si <- getitem df i ;;
  sc <- getitem df c ;;
  sv <- getitem df v ;;
  if any_duplicated (combine (values si) (values sc))
  then Err (PyRaise ValueError)
  else
    let rows := combine (combine (values si) (values sc)) (values sv) in
    let rlabels := sort_unique (values si) in
    let clabels := sort_unique (values sc) in
    Ok (mkPivot rlabels clabels
          (map (fun r => map (fun c => cell_at rows r c) clabels) rlabels)).

(** [df.values]: the rows of the frame. *)
Definition frame_values (df : DataFrame) : list (list Cell) :=
  map (fun i => map (fun c => nth i (values (snd c)) NaN) df)
      (seq 0 (nrows df)).
End Pandas.

(** The distinct items of a list in first-seen order: the order the
    specification states for series keys and heatmap axes. *)
Fixpoint first_seen (l : list Pandas.Cell) : list Pandas.Cell :=
  match l with
  | [] => []
  | c :: l' => c :: filter (fun d => negb (Pandas.eqb c d)) (first_seen l')
  end.

(** ** plotly: traces, layout and figure

    Only what the compiler sets is kept.  plotly checks property names and
    values when a trace or the layout is updated (a template name, the keys of
    a legend dict); that check is not modelled, an update is taken to succeed. *)

Module Plotly.
Inductive TraceType : Type :=
| Scatter | Bar | Histogram | Box | Heatmap | Pie.

(** An array-valued property: the cells of one column, or the columns of a
    sub-frame (what [df[[a, b]]] gives). *)
Inductive Array : Type :=
| Column (cells : list Pandas.Cell)
| Frame (columns : list (list Pandas.Cell)).

Record Trace : Type := mkTrace {
  type_ : TraceType;
  x : option Array;
  y : option Array;
  z : option (list (list Pandas.Cell));
  labels : option Array;
  values : option Array;
  mode : option string;
  name : option string;
  text : option Array;
  fill : option string;
  stackgroup : option string;
  boxpoints : option string;
  histnorm : option string;
  opacity : option float;
  marker_size : option Z;
  marker_color : option string;
  line_shape : option string;
  line_color : option string;
  yaxis : option string
}.

(** [hasattr(trace, "marker")] and [hasattr(trace, "line")] *)
Definition has_marker (t : TraceType) : bool :=
  match t with
  | Heatmap => false
  | _ => true
  end.

Definition has_line (t : TraceType) : bool :=
  match t with
  | Scatter | Box => true
  | _ => false
  end.

Definition update_opacity (tr : Trace) (o : float) : Trace :=
  mkTrace (type_ tr) (x tr) (y tr) (z tr) (labels tr) (values tr) (mode tr)
          (name tr) (text tr) (fill tr) (stackgroup tr) (boxpoints tr)
          (histnorm tr) (Some o) (marker_size tr) (marker_color tr)
          (line_shape tr) (line_color tr) (yaxis tr).

(** [trace.update(marker={"size": s, **current})]: a size already set is
    kept by the merge. *)
Definition update_marker_size (tr : Trace) (s : Z) : Trace :=
  mkTrace (type_ tr) (x tr) (y tr) (z tr) (labels tr) (values tr) (mode tr)
          (name tr) (text tr) (fill tr) (stackgroup tr) (boxpoints tr)
          (histnorm tr) (opacity tr)
          (match marker_size tr with Some s' => Some s' | None => Some s end)
          (marker_color tr) (line_shape tr) (line_color tr) (yaxis tr).

Definition update_marker_color (tr : Trace) (c : string) : Trace :=
  mkTrace (type_ tr) (x tr) (y tr) (z tr) (labels tr) (values tr) (mode tr)
          (name tr) (text tr) (fill tr) (stackgroup tr) (boxpoints tr)
          (histnorm tr) (opacity tr) (marker_size tr)
          (match marker_color tr with Some c' => Some c' | None => Some c end)
          (line_shape tr) (line_color tr) (yaxis tr).

Definition update_line_shape (tr : Trace) (s : string) : Trace :=
  mkTrace (type_ tr) (x tr) (y tr) (z tr) (labels tr) (values tr) (mode tr)
          (name tr) (text tr) (fill tr) (stackgroup tr) (boxpoints tr)
          (histnorm tr) (opacity tr) (marker_size tr) (marker_color tr)
          (match line_shape tr with Some s' => Some s' | None => Some s end)
          (line_color tr) (yaxis tr).

Definition update_line_color (tr : Trace) (c : string) : Trace :=
  mkTrace (type_ tr) (x tr) (y tr) (z tr) (labels tr) (values tr) (mode tr)
          (name tr) (text tr) (fill tr) (stackgroup tr) (boxpoints tr)
          (histnorm tr) (opacity tr) (marker_size tr) (marker_color tr)
          (line_shape tr)
          (match line_color tr with Some c' => Some c' | None => Some c end)
          (yaxis tr).

Definition update_yaxis (tr : Trace) (a : string) : Trace :=
  mkTrace (type_ tr) (x tr) (y tr) (z tr) (labels tr) (values tr) (mode tr)
          (name tr) (text tr) (fill tr) (stackgroup tr) (boxpoints tr)
          (histnorm tr) (opacity tr) (marker_size tr) (marker_color tr)
          (line_shape tr) (line_color tr) (Some a).

(** The secondary axis written by [update_layout(yaxis2=dict(...))]. *)
Record YAxis2 : Type := mkYAxis2 {
  axis_title : option string;
  overlaying : string;
  side : string
}.

Record Layout : Type := mkLayout {
  title : option string;
  xaxis_title : option string;
  yaxis_title : option string;
  hovermode : option string;
  template : option string;
  colorway : option (list string);
  legend : option (list (string * json));
  height : option Z;
  width : option Z;
  yaxis2 : option YAxis2;
  barmode : option string
}.

Record Figure : Type := mkFigure {
  data : list Trace;
  layout : Layout
}.

(** [go.Figure()] *)
Definition empty_figure : Figure :=
  mkFigure [] (mkLayout None None None None None None None None None None None).

(** [fig.add_trace(tr)] *)
Definition add_trace (fig : Figure) (tr : Trace) : Figure :=
  mkFigure (data fig ++ [tr])%list (layout fig).

(** Whether [json.dumps] can encode the value: a native timestamp is not
    representable in JSON. *)
Definition cell_serializable (c : Pandas.Cell) : bool :=
  match c with
  | Pandas.Timestamp _ => false
  | _ => true
  end.

Definition array_serializable (a : option Array) : bool :=
  match a with
  | None => true
  | Some (Column cells) => forallb cell_serializable cells
  | Some (Frame columns) => forallb (forallb cell_serializable) columns
  end.

Definition trace_serializable (tr : Trace) : bool :=
  array_serializable (x tr) && array_serializable (y tr)
  && match z tr with
     | Some rows => forallb (forallb cell_serializable) rows
     | None => true
     end
  && array_serializable (labels tr) && array_serializable (values tr)
  && array_serializable (text tr).
End Plotly.

(** ** The store: frames as objects

    A [pd.DataFrame] is a mutable object and the compiler is handed a
    reference to the caller's.  The store holds every frame object alive;
    [copy] makes a new object, item assignment writes the object the
    reference points to. *)

Definition ref : Type := nat.
Definition Store : Type := list Pandas.DataFrame.

Definition deref (st : Store) (r : ref) : Pandas.DataFrame := nth r st [].

(** [df.copy()] *)
Definition copy (st : Store) (r : ref) : Store * ref :=
  ((st ++ [deref st r])%list, length st).

Fixpoint write (st : Store) (r : ref) (d : Pandas.DataFrame) : Store :=
  match st, r with
  | [], _ => []
  | _ :: rest, O => d :: rest
  | o :: rest, S r' => o :: write rest r' d
  end.

(** ** viz_engine.py: helpers *)

Definition _listify (v : option YSpec) : list string :=
  match v with
  | None => []
  | Some (YList l) => l
  | Some (YCol c) => [c]
  end.

Definition _ensure_columns (df : Pandas.DataFrame) (cols : list string)
    : result unit :=
  let missing := filter (fun c => negb (mem_str c (Pandas.columns df))) cols in
  if truthy_list missing then Err (CompileError (MissingColumns missing))
  else Ok tt.

Definition _label_y (spec : VizSpec.t) (ycol : option string) : string :=
  match ycol with
  | None => ""
  | Some c =>
      let labels :=
        match DataSpec.labels (VizSpec.data spec) with
        | Some l =>
            match LabelsSpec.y l with
            | Some m => m
            | None => []
            end
        | None => []
        end in
      match assoc c labels with
      | Some label => label
      | None => c
      end
  end.

Definition _label_series (spec : VizSpec.t) (key : option Pandas.Cell)
    (fallback : string) : string :=
  match key with
  | None => fallback
  | Some k =>
      let labels :=
        match DataSpec.labels (VizSpec.data spec) with
        | Some l =>
            match LabelsSpec.series l with
            | Some m => m
            | None => []
            end
        | None => []
        end in
      match assoc (Pandas.str k) labels with
      | Some label => label
      | None => Pandas.str k
      end
  end.

Definition _apply_common (trace : Plotly.Trace) (name_key : string)
    (spec : VizSpec.t) : Plotly.Trace :=
  let enc := DataSpec.encodings (VizSpec.data spec) in
  let colors :=
    match DataSpec.colors (VizSpec.data spec) with
    | Some c =>
        if truthy_opt_list (ColorsSpec.color_map c) then ColorsSpec.color_map c
        else None
    | None => None
    end in
  let trace :=
    match enc with
    | Some e =>
        let trace :=
          match EncodingsSpec.opacity e with
          | Some o => Plotly.update_opacity trace o
          | None => trace
          end in
        let trace :=
          match EncodingsSpec.marker_size e with
          | Some s =>
              if Plotly.has_marker (Plotly.type_ trace)
              then Plotly.update_marker_size trace s else trace
          | None => trace
          end in
        match EncodingsSpec.line_shape e with
        | Some s =>
            if Plotly.has_line (Plotly.type_ trace)
            then Plotly.update_line_shape trace (LineShape.value s) else trace
        | None => trace
        end
    | None => trace
    end in
  match colors with
  | Some m =>
      if truthy_str name_key then
        match assoc name_key m with
        | Some col =>
            if truthy_str col then
              let trace :=
                if Plotly.has_marker (Plotly.type_ trace)
                then Plotly.update_marker_color trace col else trace in
              if Plotly.has_line (Plotly.type_ trace)
              then Plotly.update_line_color trace col else trace
            else trace
        | None => trace
        end
      else trace
  | None => trace
  end.

Definition _route_axis (trace : Plotly.Trace) (ycol : option string)
    (spec : VizSpec.t) : Plotly.Trace :=
  match y2_for_of (VizSpec.data spec), ycol with
  | Some y2_for, Some c =>
      if mem_str c y2_for then Plotly.update_yaxis trace "y2" else trace
  | _, _ => trace
  end.

Definition _guard_traces (fig : Plotly.Figure) (max_traces : nat) : result unit :=
  let count := length (Plotly.data fig) in
  if (max_traces <? count)%nat then Err (CompileError (TooManyTraces count))
  else Ok tt.

(** [df[c] if c else None] *)
Definition column_if (df : Pandas.DataFrame) (c : option string)
    : result (option Plotly.Array) :=
  match c with
  | Some col =>
      if truthy_str col
      then s <- Pandas.getitem df col ;; Ok (Some (Plotly.Column (Pandas.values s)))
      else Ok None
  | None => Ok None
  end.

(** [df[c]] for a key that may be a label, a list of labels, or [None]. *)
Fixpoint getitems (df : Pandas.DataFrame) (cols : list string)
    : result (list (list Pandas.Cell)) :=
  match cols with
  | [] => Ok []
  | c :: rest =>
      s <- Pandas.getitem df c ;;
      more <- getitems df rest ;;
      Ok (Pandas.values s :: more)
  end.

Definition getitem_key (df : Pandas.DataFrame) (key : option YSpec)
    : result Plotly.Array :=
  match key with
  | None => Err (PyRaise KeyError)
  | Some (YCol c) => s <- Pandas.getitem df c ;; Ok (Plotly.Column (Pandas.values s))
  | Some (YList cs) => columns <- getitems df cs ;; Ok (Plotly.Frame columns)
  end.

(** [data.y if isinstance(data.y, str) or data.y is None else data.y[0]], and
    [data.y if isinstance(data.y, str) else
     (data.y[0] if isinstance(data.y, list) else None)] *)
Definition first_y_or_none (y : option YSpec) : result (option string) :=
  match y with
  | None => Ok None
  | Some (YCol c) => Ok (Some c)
  | Some (YList (c :: _)) => Ok (Some c)
  | Some (YList []) => Err (PyRaise IndexError)
  end.

(** [data.y if isinstance(data.y, str) else data.y[0]]: subscripting [None]
    is a [TypeError]. *)
Definition first_y (y : option YSpec) : result string :=
  match y with
  | None => Err (PyRaise TypeError)
  | Some (YCol c) => Ok c
  | Some (YList (c :: _)) => Ok c
  | Some (YList []) => Err (PyRaise IndexError)
  end.

(** A [for] loop that adds to the figure; an exception ends it. *)
Fixpoint for_each {A : Type} (items : list A)
    (body : Plotly.Figure -> A -> result Plotly.Figure)
    (fig : Plotly.Figure) : result Plotly.Figure :=
  match items with
  | [] => Ok fig
  | a :: rest => fig' <- body fig a ;; for_each rest body fig'
  end.

Definition some_if_truthy (s : option string) : option string :=
  if truthy_opt_str s then s else None.

(** ** viz_engine.py: trace builders and the public API *)

Section Engine.

(** [pd.to_datetime(s, errors="ignore")]: the series converted when its
    values parse as dates, the series as it is when they do not; [None]
    when the call raises.  Which texts parse as dates is pandas'. *)
Variable to_datetime : Pandas.Series -> option Pandas.Series.

(** The block "Normalize x dtype" of [_add_scatter_family]: when [x] is set
    and its column is no datetime column, [df] is rebound to a copy whose
    [x] column is assigned the converted series; any exception inside the
    [try] is swallowed. *)
Definition normalize_x_dtype (st : Store) (df : ref) (x : option string)
    : Store * result ref :=
  match x with
  | Some xc =>
      if truthy_str xc then
        match Pandas.getitem (deref st df) xc with
        | Err e => (st, Err e)
        | Ok s =>
            if negb (Pandas.is_datetime64 (Pandas.dtype s)) then
              let (st, df) := copy st df in
              match to_datetime s with
              | Some converted =>
                  match Pandas.setitem (deref st df) xc converted with
                  | Ok updated => (write st df updated, Ok df)
                  | Err _ => (st, Ok df)
                  end
              | None => (st, Ok df)
              end
            else (st, Ok df)
        end
      else (st, Ok df)
  | None => (st, Ok df)
  end.

Definition is_line_or_area (t : ChartType.t) : bool :=
  ChartType.eqb t ChartType.line || ChartType.eqb t ChartType.area.

Definition go_Scatter (x y : option Plotly.Array) (mode name : string)
    (text : option Plotly.Array) (fill stackgroup : option string)
    : Plotly.Trace :=
  Plotly.mkTrace Plotly.Scatter x y None None None (Some mode) (Some name)
    text fill stackgroup None None None None None None None None.

(** [_add_scatter_family] after the dtype block, on the working frame. *)
Definition scatter_traces (fig : Plotly.Figure) (df : Pandas.DataFrame)
    (spec : VizSpec.t) : result Plotly.Figure :=
  let data := VizSpec.data spec in
  let chart := VizSpec.chart spec in
  let mode :=
    match ChartSpec.mode chart with
    | Some m => Mode.value m
    | None =>
        if is_line_or_area (ChartSpec.type chart) then Mode.value Mode.lines
        else Mode.value Mode.markers
    end in
  let is_area := ChartType.eqb (ChartSpec.type chart) ChartType.area in
  let fill := if is_area then Some "tozeroy" else None in
  let stackgroup :=
    if is_area then
      match DataSpec.axis data with
      | Some a => some_if_truthy (AxisSpec.area_stackgroup a)
      | None => None
      end
    else None in
  let x := DataSpec.x data in
  textvals <- column_if df (DataSpec.text data) ;;
  match DataSpec.y data, series_by data with
  | Some (YList ys), None =>
      for_each ys (fun fig yc =>
        xs <- column_if df x ;;
        s <- Pandas.getitem df yc ;;
        let tr := go_Scatter xs (Some (Plotly.Column (Pandas.values s))) mode
                    (_label_y spec (Some yc)) textvals fill stackgroup in
        let tr := _apply_common tr yc spec in
        let tr := _route_axis tr (Some yc) spec in
        Ok (Plotly.add_trace fig tr)) fig
  | y, Some group_col =>
      groups <- Pandas.groupby df group_col ;;
      for_each groups (fun fig kg =>
        let (key, g) := kg : Pandas.Cell * Pandas.DataFrame in
        ycol <- first_y_or_none y ;;
        xs <- column_if g x ;;
        ys <- column_if g ycol ;;
        let name := _label_series spec (Some key) (_label_y spec ycol) in
        text <- column_if g (DataSpec.text data) ;;
        let tr := go_Scatter xs ys mode name text fill stackgroup in
        let tr := _apply_common tr (Pandas.str key) spec in
        let tr := _route_axis tr ycol spec in
        Ok (Plotly.add_trace fig tr)) fig
  | y, None =>
      ycol <- first_y_or_none y ;;
      xs <- column_if df x ;;
      ys <- column_if df ycol ;;
      let tr := go_Scatter xs ys mode (_label_y spec ycol) textvals
                  fill stackgroup in
      let tr :=
        _apply_common tr (match some_if_truthy ycol with
                          | Some c => c
                          | None => ""
                          end) spec in
      let tr := _route_axis tr ycol spec in
      Ok (Plotly.add_trace fig tr)
  end.

Definition _add_scatter_family (st : Store) (fig : Plotly.Figure) (df : ref)
    (spec : VizSpec.t) : Store * result Plotly.Figure :=
  match normalize_x_dtype st df (DataSpec.x (VizSpec.data spec)) with
  | (st, Ok df) => (st, scatter_traces fig (deref st df) spec)
  | (st, Err e) => (st, Err e)
  end.

Definition go_Bar (x y : Plotly.Array) (name : string)
    (text : option Plotly.Array) : Plotly.Trace :=
  Plotly.mkTrace Plotly.Bar (Some x) (Some y) None None None None (Some name)
    text None None None None None None None None None None.

Definition _add_bar (fig : Plotly.Figure) (df : Pandas.DataFrame)
    (spec : VizSpec.t) : result Plotly.Figure :=
  let data := VizSpec.data spec in
  let vertical :=
    match ChartSpec.orientation (VizSpec.chart spec) with
    | Some Orientation.h => false
    | _ => true
    end in
  (* X, Y = (data.x, data.y) if orient == "v" else (data.y, data.x) *)
  let X := if vertical then option_map YCol (DataSpec.x data) else DataSpec.y data in
  let bar (frame : Pandas.DataFrame) (yc name : string)
      (text : option Plotly.Array) : result Plotly.Trace :=
    if vertical then
      xs <- getitem_key frame X ;;
      s <- Pandas.getitem frame yc ;;
      Ok (go_Bar xs (Plotly.Column (Pandas.values s)) name text)
    else
      s <- Pandas.getitem frame yc ;;
      ys <- getitem_key frame X ;;
      Ok (go_Bar (Plotly.Column (Pandas.values s)) ys name text) in
  textvals <- column_if df (DataSpec.text data) ;;
  match DataSpec.y data, series_by data with
  | Some (YList ys), None =>
      for_each ys (fun fig yc =>
        tr <- bar df yc (_label_y spec (Some yc)) textvals ;;
        let tr := _apply_common tr yc spec in
        let tr := _route_axis tr (Some yc) spec in
        Ok (Plotly.add_trace fig tr)) fig
  | y, Some group_col =>
      ycol <- first_y y ;;
      groups <- Pandas.groupby df group_col ;;
      for_each groups (fun fig kg =>
        let (key, g) := kg : Pandas.Cell * Pandas.DataFrame in
        xy <- (if vertical then
                 xs <- getitem_key g X ;;
                 s <- Pandas.getitem g ycol ;;
                 Ok (xs, Plotly.Column (Pandas.values s))
               else
                 s <- Pandas.getitem g ycol ;;
                 ys <- getitem_key g X ;;
                 Ok (Plotly.Column (Pandas.values s), ys)) ;;
        let name := _label_series spec (Some key) (_label_y spec (Some ycol)) in
        text <- column_if g (DataSpec.text data) ;;
        let tr := go_Bar (fst xy) (snd xy) name text in
        let tr := _apply_common tr (Pandas.str key) spec in
        let tr := _route_axis tr (Some ycol) spec in
        Ok (Plotly.add_trace fig tr)) fig
  | y, None =>
      ycol <- first_y y ;;
      tr <- bar df ycol (_label_y spec (Some ycol)) textvals ;;
      let tr := _apply_common tr ycol spec in
      let tr := _route_axis tr (Some ycol) spec in
      Ok (Plotly.add_trace fig tr)
  end.

Definition _add_histogram (fig : Plotly.Figure) (df : Pandas.DataFrame)
    (spec : VizSpec.t) : result Plotly.Figure :=
  let data := VizSpec.data spec in
  (* col = data.x or (...) *)
  col <- (if truthy_opt_str (DataSpec.x data) then Ok (DataSpec.x data)
          else first_y_or_none (DataSpec.y data)) ;;
  xs <- getitem_key df (option_map YCol col) ;;
  let tr :=
    Plotly.mkTrace Plotly.Histogram (Some xs) None None None None None None
      None None None None
      (option_map HistNorm.value (ChartSpec.histnorm (VizSpec.chart spec)))
      None None None None None None in
  let tr :=
    _apply_common tr (match some_if_truthy col with
                      | Some c => c
                      | None => ""
                      end) spec in
  Ok (Plotly.add_trace fig tr).

Definition go_Box (x : option Plotly.Array) (y : Plotly.Array) (name : string)
    (text : option Plotly.Array) : Plotly.Trace :=
  Plotly.mkTrace Plotly.Box x (Some y) None None None None (Some name) text
    None None (Some "outliers") None None None None None None None.

Definition _add_box (fig : Plotly.Figure) (df : Pandas.DataFrame)
    (spec : VizSpec.t) : result Plotly.Figure :=
  let data := VizSpec.data spec in
  match truthy_opt_str (DataSpec.x data), DataSpec.x data, DataSpec.y data with
  | true, Some xc, Some (YCol yc) =>
      sx <- Pandas.getitem df xc ;;
      sy <- Pandas.getitem df yc ;;
      text <- column_if df (DataSpec.text data) ;;
      let tr := go_Box (Some (Plotly.Column (Pandas.values sx)))
                  (Plotly.Column (Pandas.values sy))
                  (_label_y spec (Some yc)) text in
      let tr := _apply_common tr yc spec in
      Ok (Plotly.add_trace fig tr)
  | _, _, y =>
      ycol <- first_y_or_none y ;;
      ys <- getitem_key df (option_map YCol ycol) ;;
      text <- column_if df (DataSpec.text data) ;;
      let tr := go_Box None ys (_label_y spec ycol) text in
      let tr :=
        _apply_common tr (match some_if_truthy ycol with
                          | Some c => c
                          | None => ""
                          end) spec in
      Ok (Plotly.add_trace fig tr)
  end.

Definition go_Heatmap (x y : option Plotly.Array) (z : list (list Pandas.Cell))
    : Plotly.Trace :=
  Plotly.mkTrace Plotly.Heatmap x y (Some z) None None None None None None None
    None None None None None None None None.

(** [labels.astype(str)] *)
Definition astype_str (labels : list Pandas.Cell) : Plotly.Array :=
  Plotly.Column (map (fun c => Pandas.Str (Pandas.str c)) labels).

(** The long-form branch of [_add_heatmap], for named [x], [y], [z]. *)
Definition heatmap_long_form (fig : Plotly.Figure) (df : Pandas.DataFrame)
    (x : string) (y : YSpec) (z : string) : result Plotly.Figure :=
  match y with
  | YList _ =>
      (* subset=[x, y] with a list inside: pandas cannot hash it *)
      Err (PyRaise TypeError)
  | YCol yc =>
      dupe_any <- Pandas.duplicated_any df x yc ;;
      if dupe_any then Err (CompileError AmbiguousAggregation)
      else
        mat <- Pandas.pivot df yc x z ;;
        let tr :=
          go_Heatmap (Some (astype_str (Pandas.pivot_columns mat)))
            (Some (astype_str (Pandas.index mat))) (Pandas.matrix mat) in
        Ok (Plotly.add_trace fig tr)
  end.

(** The fallback branch of [_add_heatmap]: the frame as a matrix. *)
Definition heatmap_fallback (fig : Plotly.Figure) (df : Pandas.DataFrame)
    : result Plotly.Figure :=
  let tr := go_Heatmap None None (Pandas.frame_values df) in
  Ok (Plotly.add_trace fig tr).

Definition _add_heatmap (fig : Plotly.Figure) (df : Pandas.DataFrame)
    (spec : VizSpec.t) : result Plotly.Figure :=
  let data := VizSpec.data spec in
  match DataSpec.x data, DataSpec.y data, DataSpec.z data with
  | Some x, Some y, Some z =>
      if truthy_str x && truthy_y (Some y) && truthy_str z
      then heatmap_long_form fig df x y z
      else heatmap_fallback fig df
  | _, _, _ => heatmap_fallback fig df
  end.

Definition _add_pie (fig : Plotly.Figure) (df : Pandas.DataFrame)
    (spec : VizSpec.t) : result Plotly.Figure :=
  let data := VizSpec.data spec in
  val_col <- first_y_or_none (DataSpec.y data) ;;
  match some_if_truthy (DataSpec.x data), some_if_truthy val_col with
  | Some xc, Some vc =>
      sl <- Pandas.getitem df xc ;;
      sv <- Pandas.getitem df vc ;;
      text <- column_if df (DataSpec.text data) ;;
      let name :=
        match some_if_truthy (DataSpec.name data) with
        | Some n => n
        | None => _label_y spec (Some vc)
        end in
      let tr :=
        Plotly.mkTrace Plotly.Pie None None None
          (Some (Plotly.Column (Pandas.values sl)))
          (Some (Plotly.Column (Pandas.values sv)))
          None (Some name) text None None None None None None None None None
          None in
      let tr := _apply_common tr vc spec in
      Ok (Plotly.add_trace fig tr)
  | _, _ => Err (CompileError MissingBinding)
  end.

(** [fig.update_layout(...)] with the fields of the [LayoutSpec], then the
    secondary axis when [data.axis.y2_for] is set. *)
Definition apply_layout (fig : Plotly.Figure) (layout : LayoutSpec.t)
    (data : DataSpec.t) : Plotly.Figure :=
  let old := Plotly.layout fig in
  Plotly.mkFigure (Plotly.data fig)
    (Plotly.mkLayout
       (LayoutSpec.title layout)
       (LayoutSpec.xaxis_title layout)
       (LayoutSpec.yaxis_title layout)
       (option_map HoverMode.value (LayoutSpec.hovermode layout))
       (LayoutSpec.template layout)
       (LayoutSpec.colorway layout)
       (LayoutSpec.legend layout)
       (LayoutSpec.height layout)
       (LayoutSpec.width layout)
       (match y2_for_of data with
        | Some _ =>
            Some (Plotly.mkYAxis2 (LayoutSpec.yaxis2_title layout) "y" "right")
        | None => Plotly.yaxis2 old
        end)
       (Plotly.barmode old)).

(** [fig.update_layout(barmode=...)] *)
Definition apply_barmode (fig : Plotly.Figure) (mode : string) : Plotly.Figure :=
  let old := Plotly.layout fig in
  Plotly.mkFigure (Plotly.data fig)
    (Plotly.mkLayout (Plotly.title old) (Plotly.xaxis_title old)
       (Plotly.yaxis_title old) (Plotly.hovermode old) (Plotly.template old)
       (Plotly.colorway old) (Plotly.legend old) (Plotly.height old)
       (Plotly.width old) (Plotly.yaxis2 old) (Some mode)).

(** [[c for c in [data.x] + _listify(data.y) + [data.z, data.text] if c]] *)
Definition bound_columns (data : DataSpec.t) : list string :=
  filter truthy_str
    (_listify (option_map YCol (DataSpec.x data))
     ++ _listify (DataSpec.y data)
     ++ _listify (option_map YCol (DataSpec.z data))
     ++ _listify (option_map YCol (DataSpec.text data)))%list.

(** The [if]/[elif] chain over [chart.type], on a fresh [go.Figure()]; the
    final [else] cannot be reached, every member has its branch. *)
Definition add_traces (st : Store) (df : ref) (model : VizSpec.t)
    : Store * result Plotly.Figure :=
  let fig := Plotly.empty_figure in
  match ChartSpec.type (VizSpec.chart model) with
  | ChartType.line | ChartType.scatter | ChartType.area =>
      _add_scatter_family st fig df model
  | ChartType.bar => (st, _add_bar fig (deref st df) model)
  | ChartType.histogram => (st, _add_histogram fig (deref st df) model)
  | ChartType.box => (st, _add_box fig (deref st df) model)
  | ChartType.heatmap => (st, _add_heatmap fig (deref st df) model)
  | ChartType.pie => (st, _add_pie fig (deref st df) model)
  end.

Definition compile_figure (st : Store) (df : ref) (spec : SpecInput)
    : Store * result Plotly.Figure :=
  match parse_viz_spec spec with
  | Err e => (st, Err e)
  | Ok model =>
      let chart := VizSpec.chart model in
      let data := VizSpec.data model in
      let layout := VizSpec.layout model in
      match _ensure_columns (deref st df) (bound_columns data) with
      | Err e => (st, Err e)
      | Ok _ =>
          let (st', traced) := add_traces st df model in
          (st',
           fig <- traced ;;
           (* Layout (presentation only) *)
           let fig :=
             match layout with
             | Some l => apply_layout fig l data
             | None => fig
             end in
           (* Bar mode lives on layout *)
           let fig :=
             match ChartSpec.type chart, ChartSpec.barmode chart with
             | ChartType.bar, Some b => apply_barmode fig (BarMode.value b)
             | _, _ => fig
             end in
           (* Defensive limits *)
           _ <- _guard_traces fig 64 ;;
           Ok fig)
      end
  end.

(** The dict [compile_payload] returns. *)
Record Payload : Type := mkPayload {
  figure : Plotly.Figure;            (* [fig.to_plotly_json()] *)
  plotly_config : json;
  viz_spec_version : string
}.

(** Whether [json.dumps(payload)] succeeds. *)
Definition serializable (p : Payload) : bool :=
  forallb Plotly.trace_serializable (Plotly.data (figure p)).

Definition compile_payload (st : Store) (df : ref) (spec : SpecInput)
    : Store * result Payload :=
  match parse_viz_spec spec with
  | Err e => (st, Err e)
  | Ok model =>
      match compile_figure st df (Model model) with
      | (st', Err e) => (st', Err e)
      | (st', Ok fig) =>
          let payload :=
            mkPayload fig
              (match VizSpec.plotly_config model with
               | Some c => PlotlyJSConfig.to_json c
               | None => JObj []
               end)
              (VizSpec.version model) in
          (* json.dumps raises TypeError if something is off *)
          if serializable payload then (st', Ok payload)
          else (st', Err (PyRaise TypeError))
      end
  end.

End Engine.

(** ** viz_compile.py: the injected resolvers

    [src/stuff.md] gives the compiler a second shape, [compile_viz], whose
    naming, colouring and axis routing go through three small objects that a
    caller may replace; [_deps_from_spec] builds the default ones. *)

Module viz_compile.
Module DefaultNameResolver.
Record t : Type := Build {
  labels_y : list (string * string);
  labels_series : list (string * string)
}.

Definition trace_name (self : t) (base_y : option string)
    (series_key : option Pandas.Cell) : string :=
  match series_key with
  | Some k =>
      match assoc (Pandas.str k) (labels_series self) with
      | Some label => label
      | None => Pandas.str k
      end
  | None =>
      match base_y with
      | None => ""
      | Some c =>
          match assoc c (labels_y self) with
          | Some label => label
          | None => c
          end
      end
  end.
End DefaultNameResolver.

Module DefaultColorResolver.
Record t : Type := Build {
  color_map : list (string * string)
}.

Definition color_for (self : t) (name : string) : option string :=
  assoc name (color_map self).
End DefaultColorResolver.

Module DefaultAxisRouter.
Record t : Type := Build {
  y2_for : option (list string)
}.

Definition route_yaxis (self : t) (ycol : option string) : option string :=
  match y2_for self, ycol with
  | Some l, Some c => if truthy_list l && mem_str c l then Some "y2" else None
  | _, _ => None
  end.
End DefaultAxisRouter.

Record CompilerDeps : Type := mkCompilerDeps {
  names : DefaultNameResolver.t;
  colors : DefaultColorResolver.t;
  axis : DefaultAxisRouter.t
}.

Definition _deps_from_spec (spec : VizSpec.t) : CompilerDeps :=
  let data := VizSpec.data spec in
  let or_empty (m : option (list (string * string))) :=
    if truthy_opt_list m then
      match m with
      | Some l => l
      | None => []
      end
    else [] in
  let labels_y :=
    match DataSpec.labels data with
    | Some l => or_empty (LabelsSpec.y l)
    | None => []
    end in
  let labels_series :=
    match DataSpec.labels data with
    | Some l => or_empty (LabelsSpec.series l)
    | None => []
    end in
  let color_map :=
    match DataSpec.colors data with
    | Some c => or_empty (ColorsSpec.color_map c)
    | None => []
    end in
  let y2_for :=
    match DataSpec.axis data with
    | Some a =>
        if truthy_opt_list (AxisSpec.y2_for a) then AxisSpec.y2_for a else None
    | None => None
    end in
  mkCompilerDeps (DefaultNameResolver.Build labels_y labels_series)
    (DefaultColorResolver.Build color_map)
    (DefaultAxisRouter.Build y2_for).

Definition _route_axis (trace : Plotly.Trace) (ycol : option string)
    (deps : CompilerDeps) : Plotly.Trace :=
  match DefaultAxisRouter.route_yaxis (axis deps) ycol with
  | Some a => if (a =? "y2")%string then Plotly.update_yaxis trace "y2" else trace
  | None => trace
  end.
End viz_compile.

(** ** Reading results *)

Definition ok_map {A B : Type} (f : A -> B) (r : result A) : option B :=
  match r with
  | Ok a => Some (f a)
  | Err _ => None
  end.

(** The colour rule as the specification words it: a hash sign with six or
    eight hex digits, or any non-empty text. *)
Definition spec_valid_color (s : string) : bool :=
  _HEX_match s || truthy_str s.

(** ** Vocabulary of the statements *)

(** The strict order of [Pandas.compare]. *)
Definition Cell_lt (a b : Pandas.Cell) : Prop := Pandas.compare a b = Lt.




(** A spec that arrives as text or as a dict, to be validated; a [VizSpec]
    instance is handed through as it is. *)
Definition is_raw_input (spec : SpecInput) : bool :=
  match spec with
  | Model _ => false
  | _ => true
  end.

(** The families that split their traces by [series.by]. *)
Definition series_family (t : ChartType.t) : bool :=
  match t with
  | ChartType.line | ChartType.scatter | ChartType.area | ChartType.bar => true
  | _ => false
  end.

(** Two rows, the earlier at [i] and the later at [j], carry the same pair. *)
Definition shares_pair (pairs : list (Pandas.Cell * Pandas.Cell)) : Prop :=
  exists i j p,
    (i < j)%nat /\ nth_error pairs i = Some p /\ nth_error pairs j = Some p.

(** The data of a trace, without its cosmetic properties. *)
Definition trace_core (tr : Plotly.Trace) :=
  (Plotly.type_ tr, Plotly.x tr, Plotly.y tr, Plotly.z tr, Plotly.text tr,
   Plotly.name tr, Plotly.labels tr, Plotly.values tr).

(** A column the frame cannot give: [df[c]] raises. *)
Definition unreadable (df : Pandas.DataFrame) (c : string) : bool :=
  match Pandas.getitem df c with
  | Ok _ => false
  | Err _ => true
  end.

(** The array of a trace that carries the values of its [y] column: [y],
    or [x] for a horizontal bar. *)
Definition value_array (chart : ChartSpec.t) (tr : Plotly.Trace)
    : option Plotly.Array :=
  match ChartSpec.type chart, ChartSpec.orientation chart with
  | ChartType.bar, Some Orientation.h => Plotly.x tr
  | _, _ => Plotly.y tr
  end.

(** The trace [tr] shows the column [yc] of [df]: it is named by the label
    of the column, carries all its cells, and sits on the secondary axis
    exactly when the column is listed in [y2_for]. *)
Definition shows_column (spec : VizSpec.t) (df : Pandas.DataFrame)
    (yc : string) (tr : Plotly.Trace) : Prop :=
  Plotly.name tr = Some (_label_y spec (Some yc))
  /\ (exists s, Pandas.getitem df yc = Ok s
                /\ value_array (VizSpec.chart spec) tr
                   = Some (Plotly.Column (Pandas.values s)))
  /\ Plotly.yaxis tr
     = match y2_for_of (VizSpec.data spec) with
       | Some y2 => if mem_str yc y2 then Some "y2" else None
       | None => None
       end.

(** The drawing style of a trace that its constructor fixes. *)
Definition trace_style (tr : Plotly.Trace) :=
  (Plotly.mode tr, Plotly.fill tr, Plotly.stackgroup tr, Plotly.boxpoints tr,
   Plotly.histnorm tr).

(** The trace [tr] carries the encodings of the spec: its opacity, its
    marker size when the trace type has markers, and its line shape when the
    trace type has a line, are those of [data.encodings]. *)
Definition encoded (spec : VizSpec.t) (tr : Plotly.Trace) : Prop :=
  let enc := DataSpec.encodings (VizSpec.data spec) in
  Plotly.opacity tr
  = match enc with
    | Some e => EncodingsSpec.opacity e
    | None => None
    end
  /\ Plotly.marker_size tr
     = (if Plotly.has_marker (Plotly.type_ tr)
        then match enc with
             | Some e => EncodingsSpec.marker_size e
             | None => None
             end
        else None)
  /\ Plotly.line_shape tr
     = (if Plotly.has_line (Plotly.type_ tr)
        then match enc with
             | Some e => option_map LineShape.value (EncodingsSpec.line_shape e)
             | None => None
             end
        else None).

(** ** Example inputs *)

Module Examples.
Import Pandas.

(** The converter on a frame none of whose texts parses as a date: every
    series comes back as it is. *)
Definition to_datetime_unchanged (s : Series) : option Series := Some s.

(** The converter on a frame whose texts are all dates. *)
Definition to_datetime_all (s : Series) : option Series :=
  Some (mkSeries datetime64
          (map (fun c => match c with
                         | Str t => Timestamp t
                         | other => other
                         end) (values s))).

Definition obj (cells : list Cell) : Series := mkSeries object_ cells.

(** Stores A to D, regions West and East alternating, West first. *)
Definition sales : DataFrame :=
  [("store", obj [Str "A"; Str "B"; Str "C"; Str "D"]);
   ("sales", mkSeries int64 [Int 1; Int 2; Int 3; Int 4]);
   ("region", obj [Str "West"; Str "East"; Str "West"; Str "East"])].

Definition bar_by_region : list (string * json) :=
  [("chart", JObj [("type", JStr "bar")]);
   ("data", JObj [("x", JStr "store"); ("y", JStr "sales");
                  ("series", JObj [("by", JStr "region")])])].

Definition line_by_region : list (string * json) :=
  [("chart", JObj [("type", JStr "line")]);
   ("data", JObj [("x", JStr "store"); ("y", JStr "sales");
                  ("series", JObj [("by", JStr "region")])])].



(** Long-form heatmap data whose first row carries the greater labels. *)
Definition counts : DataFrame :=
  [("week", obj [Str "w2"; Str "w1"]);
   ("store", obj [Str "q"; Str "p"]);
   ("count", mkSeries int64 [Int 1; Int 2])].

Definition counts_twice : DataFrame :=
  [("week", obj [Str "w1"; Str "w1"]);
   ("store", obj [Str "p"; Str "p"]);
   ("count", mkSeries int64 [Int 1; Int 2])].

Definition heatmap_spec : list (string * json) :=
  [("chart", JObj [("type", JStr "heatmap")]);
   ("data", JObj [("x", JStr "week"); ("y", JStr "store");
                  ("z", JStr "count")])].


(** A heatmap request that lacks its [data] section. *)
Definition heatmap_no_data : list (string * json) :=
  [("chart", JObj [("type", JStr "heatmap")])].

Definition readings : DataFrame :=
  [("a", mkSeries int64 [Int 1; Int 2]);
   ("b", mkSeries int64 [Int 3; Int 4])].

(** [a] routed to the secondary axis, no layout section. *)
Definition y2_without_layout : list (string * json) :=
  [("chart", JObj [("type", JStr "scatter")]);
   ("data", JObj [("y", JStr "a");
                  ("axis", JObj [("y2_for", JArr [JStr "a"])])])].

(** A layout section, and [y2_for] naming a column that is not plotted. *)
Definition y2_unused_with_layout : list (string * json) :=
  [("chart", JObj [("type", JStr "scatter")]);
   ("data", JObj [("y", JStr "a");
                  ("axis", JObj [("y2_for", JArr [JStr "b"])])]);
   ("layout", JObj [])].



Definition full_spec : list (string * json) :=
  [("version", JStr "1.0");
   ("chart", JObj [("type", JStr "area"); ("orientation", JStr "h");
                   ("histnorm", JStr "percent")]);
   ("data", JObj [("x", JStr "store"); ("y", JArr [JStr "sales"]);
                  ("encodings", JObj [("opacity", JInt 1)]);
                  ("colors", JObj [("color_map", JObj [("sales", JStr "#00ff00")])])]);
   ("layout", JObj [("title", JStr "Sales"); ("width", JInt 800)]);
   ("plotly_config", JObj [("scrollZoom", JBool true)])].



(** [heatmap_spec] as validated. *)
Definition heatmap_model : VizSpec.t :=
  VizSpec.Build "1.0"
    (ChartSpec.Build ChartType.heatmap None None None None)
    (DataSpec.Build None (Some "week") (Some (YCol "store")) (Some "count")
       None None None None None None None)
    None None.
(** Two columns as two lines, the second on the secondary axis. *)
Definition two_lines : list (string * json) :=
  [("chart", JObj [("type", JStr "line")]);
   ("data", JObj [("y", JArr [JStr "a"; JStr "b"]);
                  ("axis", JObj [("y2_for", JArr [JStr "b"])])])].

(** [two_lines] as validated. *)
Definition two_lines_model : VizSpec.t :=
  VizSpec.Build "1.0"
    (ChartSpec.Build ChartType.line (Some Mode.lines) None None None)
    (DataSpec.Build None None (Some (YList ["a"; "b"])) None None None None
       (Some (AxisSpec.Build (Some ["b"]) None)) None None None)
    None None.

(** A histogram of one column, normalised to percent. *)
Definition histogram_model : VizSpec.t :=
  VizSpec.Build "1.0"
    (ChartSpec.Build ChartType.histogram None None None (Some HistNorm.percent))
    (DataSpec.Build None None (Some (YCol "a")) None None None None None None
       None None)
    None None.

(** A pie chart that names its labels but no values. *)
Definition pie_without_values : list (string * json) :=
  [("chart", JObj [("type", JStr "pie")]);
   ("data", JObj [("x", JStr "store")])].

Definition pie_without_values_model : VizSpec.t :=
  VizSpec.Build "1.0"
    (ChartSpec.Build ChartType.pie None None None None)
    (DataSpec.Build None (Some "store") None None None None None None None
       None None)
    None None.

(** A line chart bound to a column the table does not have. *)
Definition line_of_missing : list (string * json) :=
  [("chart", JObj [("type", JStr "line")]);
   ("data", JObj [("x", JStr "store"); ("y", JStr "profit")])].

Definition line_of_missing_model : VizSpec.t :=
  VizSpec.Build "1.0"
    (ChartSpec.Build ChartType.line (Some Mode.lines) None None None)
    (DataSpec.Build None (Some "store") (Some (YCol "profit")) None None None
       None None None None None)
    None None.


(** A horizontal bar chart. *)
Definition horizontal_bar_model : VizSpec.t :=
  VizSpec.Build "1.0"
    (ChartSpec.Build ChartType.bar None (Some Orientation.h)
       (Some BarMode.stack) None)
    (DataSpec.Build None (Some "store") (Some (YCol "sales")) None None None
       None None None None None)
    None None.




(** A bar chart that names its categories but no values. *)
Definition bar_without_y : list (string * json) :=
  [("chart", JObj [("type", JStr "bar")]);
   ("data", JObj [("x", JStr "store")])].

Definition bar_without_y_model : VizSpec.t :=
  VizSpec.Build "1.0"
    (ChartSpec.Build ChartType.bar None None None None)
    (DataSpec.Build None (Some "store") None None None None None None None
       None None)
    None None.

(** A box plot and a pie chart of a list of columns. *)
Definition box_of_two_model : VizSpec.t :=
  VizSpec.Build "1.0"
    (ChartSpec.Build ChartType.box None None None None)
    (DataSpec.Build None None (Some (YList ["a"; "b"])) None None None None
       None None None None)
    None None.
(** A scatter chart with an empty encodings section. *)
Definition encoded_scatter : list (string * json) :=
  [("chart", JObj [("type", JStr "scatter")]);
   ("data", JObj [("x", JStr "a"); ("y", JStr "b"); ("encodings", JObj [])])].

(** [encoded_scatter] as validated: the defaults of the section are in. *)
Definition encoded_scatter_model : VizSpec.t :=
  VizSpec.Build "1.0"
    (ChartSpec.Build ChartType.scatter None None None None)
    (DataSpec.Build None (Some "a") (Some (YCol "b")) None None None None None
       (Some (EncodingsSpec.Build (Some 6) (Some 0x1.ccccccccccccdp-1%float)
                None))
       None None)
    None None.

(** A front-end config with a key the model does not know. *)
Definition config_with_unknown_key : list (string * json) :=
  [("chart", JObj [("type", JStr "bar")]);
   ("data", JObj [("x", JStr "store"); ("y", JStr "sales")]);
   ("plotly_config", JObj [("editable", JBool true); ("scrollZoom", JBool true)])].

(** The same request without that key. *)
Definition config_plain : list (string * json) :=
  [("chart", JObj [("type", JStr "bar")]);
   ("data", JObj [("x", JStr "store"); ("y", JStr "sales")]);
   ("plotly_config", JObj [("scrollZoom", JBool true)])].
End Examples.

(** * Properties *)

Open Scope list_scope.

(** ** Fields *)

Lemma ap_Valid {A B : Type} (ff : field (A -> B)) (fa : field A) (b : B) :
  ff <*> fa = Valid b ->
  exists f a, ff = Valid f /\ fa = Valid a /\ b = f a.
Proof.
  destruct ff as [f | ef], fa as [a | ea]; simpl; try discriminate.
  intros H; injection H as <-. now exists f, a.
Qed.

Lemma at_loc_Valid {A : Type} (k : string) (f : field A) (a : A) :
  at_loc k f = Valid a <-> f = Valid a.
Proof.
  destruct f; simpl; split; congruence.
Qed.

Lemma and_then_Valid {A B : Type} (f : field A) (k : A -> field B) (b : B) :
  and_then f k = Valid b -> exists a, f = Valid a /\ k a = Valid b.
Proof.
  destruct f as [a | es]; simpl; [ | discriminate ].
  intros H. now exists a.
Qed.

Ltac split_fields H :=
  repeat match type of H with
         | _ <*> _ = Valid _ =>
             let f := fresh "f" in
             let a := fresh "a" in
             let Ha := fresh "Ha" in
             let Hm := fresh "Hm" in
             apply ap_Valid in H;
             destruct H as (f & a & H & Ha & Hm);
             lazymatch type of Ha with
             | at_loc _ _ = _ => apply at_loc_Valid in Ha
             | _ => idtac
             end
         | Valid _ = Valid _ => injection H as H
         end.

Section Roundtrip.
Context {A : Type} (validate : json -> field A) (to_json : A -> json).

Hypothesis not_null : forall a, to_json a <> JNull.
Hypothesis stable : forall j a, validate j = Valid a -> validate (to_json a) = Valid a.

Lemma optional_roundtrip (default : option A) (raw : option json) (o : option A) :
  (forall a, default = Some a -> validate (to_json a) = Valid a) ->
  optional default validate raw = Valid o ->
  optional default validate (Some (opt_json to_json o)) = Valid o.
Proof.
  intros Hd H.
  assert (Hsome : forall a, validate (to_json a) = Valid a ->
            optional default validate (Some (to_json a)) = Valid (Some a)).
  { intros a Ha. unfold optional. pose proof (@not_null a) as Hn.
    destruct (to_json a); try congruence; rewrite Ha; reflexivity. }
  destruct raw as [j | ].
  - destruct o as [a | ].
    + simpl opt_json. apply Hsome.
      unfold optional in H. destruct j; try discriminate;
        apply and_then_Valid in H; destruct H as (a' & Hv & Ha');
        injection Ha' as <-; eauto.
    + unfold optional in H. destruct j; try discriminate; try reflexivity;
        apply and_then_Valid in H; destruct H as (a' & Hv & Ha'); discriminate.
  - simpl in H. injection H as <-. destruct default as [a | ]; simpl.
    + apply Hsome. now apply Hd.
    + reflexivity.
Qed.
End Roundtrip.

Lemma int_between_stable lo hi j z :
  int_between lo hi j = Valid z -> int_between lo hi (JInt z) = Valid z.
Proof.
  unfold int_between. intros H. apply and_then_Valid in H.
  destruct H as (z' & Hz & H). simpl.
  destruct (z' <? lo) eqn:E1; [ discriminate | ].
  destruct (hi <? z') eqn:E2; [ discriminate | ].
  injection H as <-. now rewrite E1, E2.
Qed.

Lemma float_between_stable lo hi j f :
  float_between lo hi j = Valid f -> float_between lo hi (JFloat f) = Valid f.
Proof.
  unfold float_between. intros H. apply and_then_Valid in H.
  destruct H as (f' & Hf & H). simpl.
  destruct (negb (PrimFloat.leb lo f')) eqn:E1; [ discriminate | ].
  destruct (negb (PrimFloat.leb f' hi)) eqn:E2; [ discriminate | ].
  injection H as <-. now rewrite E1, E2.
Qed.

Lemma enum_stable {E : Type} (value : E -> string) (members : list E) j e :
  (forall e', enum_of value members (value e') = Some e') ->
  enum_validator value members j = Valid e ->
  enum_validator value members (JStr (value e)) = Valid e.
Proof.
  intros Hall _. simpl. now rewrite Hall.
Qed.

Lemma opt_str_roundtrip {raw o} :
  optional None str_validator raw = Valid o ->
  optional None str_validator (Some (opt_json JStr o)) = Valid o.
Proof.
  apply optional_roundtrip; try discriminate. reflexivity.
Qed.

Lemma opt_int_roundtrip {lo hi default raw o} :
  optional default (int_between lo hi) raw = Valid o ->
  (forall z, default = Some z -> (z <? lo) = false /\ (hi <? z) = false) ->
  optional default (int_between lo hi) (Some (opt_json JInt o)) = Valid o.
Proof.
  intros H Hd. revert H. apply optional_roundtrip; try discriminate.
  - apply int_between_stable.
  - intros z Hz. destruct (Hd z Hz) as [E1 E2].
    unfold int_between. simpl. now rewrite E1, E2.
Qed.

Lemma opt_float_roundtrip {lo hi default raw o} :
  optional default (float_between lo hi) raw = Valid o ->
  (forall f, default = Some f ->
     PrimFloat.leb lo f = true /\ PrimFloat.leb f hi = true) ->
  optional default (float_between lo hi) (Some (opt_json JFloat o)) = Valid o.
Proof.
  intros H Hd. revert H. apply optional_roundtrip; try discriminate.
  - apply float_between_stable.
  - intros f Hf. destruct (Hd f Hf) as [E1 E2].
    unfold float_between. simpl. now rewrite E1, E2.
Qed.

Lemma opt_enum_roundtrip {E : Type} {value : E -> string} {members : list E} {raw o} :
  optional None (enum_validator value members) raw = Valid o ->
  (forall e, enum_of value members (value e) = Some e) ->
  optional None (enum_validator value members)
    (Some (opt_json (fun e => JStr (value e)) o)) = Valid o.
Proof.
  intros H Hall. revert H.
  apply (optional_roundtrip (enum_validator value members) (fun e => JStr (value e)));
    try discriminate.
  intros j e. now apply enum_stable.
Qed.

Ltac default_ok :=
  first [ discriminate
        | intros ? [= <-]; split; reflexivity
        | intros e; destruct e; reflexivity ].

Lemma items_str_roundtrip (l : list string) (i : nat) :
  items_validator str_validator i (map JStr l) = Valid l.
Proof.
  revert i. induction l as [ | s l IH ]; intros i; simpl.
  - reflexivity.
  - now rewrite IH.
Qed.

Lemma members_str_roundtrip (m : list (string * string)) :
  members_validator str_validator
    (map (fun kv => (fst kv, JStr (snd kv))) m) = Valid m.
Proof.
  induction m as [ | [k s] m IH ]; simpl.
  - reflexivity.
  - now rewrite IH.
Qed.

Lemma members_any_roundtrip (m : list (string * json)) :
  members_validator any_validator m = Valid m.
Proof.
  induction m as [ | [k j] m IH ]; simpl.
  - reflexivity.
  - now rewrite IH.
Qed.

Lemma opt_strs_roundtrip {raw o} :
  optional None (list_validator str_validator) raw = Valid o ->
  optional None (list_validator str_validator) (Some (opt_json strs_json o))
  = Valid o.
Proof.
  apply optional_roundtrip; try discriminate.
  intros j l _. apply items_str_roundtrip.
Qed.

Lemma opt_dict_str_roundtrip {raw o} :
  optional None (dict_validator str_validator) raw = Valid o ->
  optional None (dict_validator str_validator)
    (Some (opt_json (dict_json JStr) o)) = Valid o.
Proof.
  apply optional_roundtrip; try discriminate.
  intros j m _. apply members_str_roundtrip.
Qed.

Lemma opt_legend_roundtrip {raw o} :
  optional None (dict_validator any_validator) raw = Valid o ->
  optional None (dict_validator any_validator) (Some (opt_json JObj o)) = Valid o.
Proof.
  apply optional_roundtrip; try discriminate.
  intros j m _. apply members_any_roundtrip.
Qed.

(** A nested model that survives its own serialization does so as a field. *)
Lemma opt_model_roundtrip {M : Type} {validate : list (string * json) -> field M}
    {to_json : M -> json} {raw o} :
  optional None (model_validator validate) raw = Valid o ->
  (forall a, to_json a <> JNull) ->
  (forall members a, validate members = Valid a ->
     model_validator validate (to_json a) = Valid a) ->
  optional None (model_validator validate) (Some (opt_json to_json o)) = Valid o.
Proof.
  intros H Hnull Hstable. revert H.
  apply optional_roundtrip; try discriminate; try assumption.
  intros j a Hj. destruct j; try discriminate. simpl in Hj. eauto.
Qed.

Lemma with_default_bool_roundtrip {default raw b} :
  with_default default bool_validator raw = Valid b ->
  with_default default bool_validator (Some (JBool b)) = Valid b.
Proof.
  reflexivity.
Qed.

(** Rewrites the re-validation of every scalar or container field whose
    first validation is among the hypotheses. *)
Ltac leaf_roundtrips :=
  repeat match goal with
    | H : optional None str_validator _ = Valid _ |- _ =>
        rewrite (opt_str_roundtrip H); clear H
    | H : optional _ (int_between _ _) _ = Valid _ |- _ =>
        rewrite (opt_int_roundtrip H ltac:(default_ok)); clear H
    | H : optional _ (float_between _ _) _ = Valid _ |- _ =>
        rewrite (opt_float_roundtrip H ltac:(default_ok)); clear H
    | H : optional None (enum_validator _ _) _ = Valid _ |- _ =>
        rewrite (opt_enum_roundtrip H ltac:(default_ok)); clear H
    | H : optional None (list_validator str_validator) _ = Valid _ |- _ =>
        rewrite (opt_strs_roundtrip H); clear H
    | H : optional None (dict_validator str_validator) _ = Valid _ |- _ =>
        rewrite (opt_dict_str_roundtrip H); clear H
    | H : optional None (dict_validator any_validator) _ = Valid _ |- _ =>
        rewrite (opt_legend_roundtrip H); clear H
    | H : with_default _ bool_validator _ = Valid _ |- _ =>
        rewrite (with_default_bool_roundtrip H); clear H
    end.

(** ** Every model survives its own serialization *)

Lemma EncodingsSpec_roundtrip raw e :
  EncodingsSpec.validate raw = Valid e ->
  model_validator EncodingsSpec.validate (EncodingsSpec.to_json e) = Valid e.
Proof.
  unfold EncodingsSpec.validate. intros H. split_fields H. subst.
  cbn [model_validator EncodingsSpec.to_json EncodingsSpec.validate].
  simpl assoc.
  cbn [EncodingsSpec.marker_size EncodingsSpec.opacity EncodingsSpec.line_shape].
  leaf_roundtrips. reflexivity.
Qed.

Lemma SeriesSpec_roundtrip raw s :
  SeriesSpec.validate raw = Valid s ->
  model_validator SeriesSpec.validate (SeriesSpec.to_json s) = Valid s.
Proof.
  unfold SeriesSpec.validate. intros H. split_fields H. subst.
  cbn [model_validator SeriesSpec.to_json SeriesSpec.validate].
  simpl assoc. cbn [SeriesSpec.by_].
  leaf_roundtrips. reflexivity.
Qed.

Lemma AxisSpec_roundtrip raw a :
  AxisSpec.validate raw = Valid a ->
  model_validator AxisSpec.validate (AxisSpec.to_json a) = Valid a.
Proof.
  unfold AxisSpec.validate. intros H. split_fields H. subst.
  cbn [model_validator AxisSpec.to_json AxisSpec.validate].
  simpl assoc. cbn [AxisSpec.y2_for AxisSpec.area_stackgroup].
  leaf_roundtrips. reflexivity.
Qed.

Lemma LabelsSpec_roundtrip raw l :
  LabelsSpec.validate raw = Valid l ->
  model_validator LabelsSpec.validate (LabelsSpec.to_json l) = Valid l.
Proof.
  unfold LabelsSpec.validate. intros H. split_fields H. subst.
  cbn [model_validator LabelsSpec.to_json LabelsSpec.validate].
  simpl assoc. cbn [LabelsSpec.y LabelsSpec.series].
  leaf_roundtrips. reflexivity.
Qed.

(** [_valid_color] accepts every text, so neither colour validator rejects. *)
Lemma _valid_color_true (s : string) : _valid_color s = true.
Proof.
  unfold _valid_color. apply orb_true_r.
Qed.

Lemma first_invalid_color_none (items : list (string * string)) :
  ColorsSpec.first_invalid_color items = None.
Proof.
  induction items as [ | [k c] items IH ]; simpl.
  - reflexivity.
  - now rewrite _valid_color_true.
Qed.

Lemma _validate_colors_accepts (v : list (string * string)) :
  ColorsSpec._validate_colors v = Valid v.
Proof.
  unfold ColorsSpec._validate_colors.
  rewrite first_invalid_color_none. now destruct (negb (truthy_list v)).
Qed.

Lemma find_invalid_color_none (v : list string) :
  find (fun c => negb (_valid_color c)) v = None.
Proof.
  induction v as [ | c v IH ]; simpl.
  - reflexivity.
  - now rewrite _valid_color_true.
Qed.

Lemma _validate_colorway_accepts (v : list string) :
  LayoutSpec._validate_colorway v = Valid v.
Proof.
  unfold LayoutSpec._validate_colorway.
  rewrite find_invalid_color_none. now destruct (truthy_list v).
Qed.

Lemma opt_color_map_roundtrip {raw o} :
  optional None
    (fun j => and_then (dict_validator str_validator j) ColorsSpec._validate_colors)
    raw = Valid o ->
  optional None
    (fun j => and_then (dict_validator str_validator j) ColorsSpec._validate_colors)
    (Some (opt_json (dict_json JStr) o)) = Valid o.
Proof.
  apply optional_roundtrip; try discriminate.
  intros j m _. simpl. rewrite members_str_roundtrip. simpl.
  apply _validate_colors_accepts.
Qed.

Lemma opt_colorway_roundtrip {raw o} :
  optional None
    (fun j => and_then (list_validator str_validator j) LayoutSpec._validate_colorway)
    raw = Valid o ->
  optional None
    (fun j => and_then (list_validator str_validator j) LayoutSpec._validate_colorway)
    (Some (opt_json strs_json o)) = Valid o.
Proof.
  apply optional_roundtrip; try discriminate.
  intros j l _. simpl. rewrite items_str_roundtrip. simpl.
  apply _validate_colorway_accepts.
Qed.

Lemma ColorsSpec_roundtrip raw c :
  ColorsSpec.validate raw = Valid c ->
  model_validator ColorsSpec.validate (ColorsSpec.to_json c) = Valid c.
Proof.
  unfold ColorsSpec.validate. intros H. split_fields H. subst.
  cbn [model_validator ColorsSpec.to_json ColorsSpec.validate].
  simpl assoc. cbn [ColorsSpec.color_map].
  match goal with
  | H : optional None _ _ = Valid _ |- _ => rewrite (opt_color_map_roundtrip H)
  end.
  reflexivity.
Qed.

(** A [y] that passed [_unique_y_list] passes it again. *)
Lemma opt_y_roundtrip {raw o} :
  optional None (fun j => and_then (DataSpec.y_validator j) DataSpec._unique_y_list)
    raw = Valid o ->
  optional None (fun j => and_then (DataSpec.y_validator j) DataSpec._unique_y_list)
    (Some (opt_json DataSpec.y_json o)) = Valid o.
Proof.
  apply optional_roundtrip; try discriminate.
  - intros [c | l]; discriminate.
  - intros j y H. apply and_then_Valid in H. destruct H as (y0 & _ & Hu).
    assert (y0 = y) as ->.
    { destruct y0 as [c | l]; simpl in Hu.
      - now injection Hu.
      - destruct (negb (truthy_list l)); [ discriminate | ].
        destruct (has_dup l); [ discriminate | ]. now injection Hu. }
    destruct y as [c | l]; simpl.
    + reflexivity.
    + unfold strs_json. rewrite items_str_roundtrip. simpl. exact Hu.
Qed.

Lemma PlotlyJSConfig_roundtrip raw c :
  PlotlyJSConfig.validate raw = Valid c ->
  model_validator PlotlyJSConfig.validate (PlotlyJSConfig.to_json c) = Valid c.
Proof.
  unfold PlotlyJSConfig.validate. intros H. split_fields H. subst.
  cbn [model_validator PlotlyJSConfig.to_json PlotlyJSConfig.validate].
  simpl assoc.
  cbn [PlotlyJSConfig.responsive PlotlyJSConfig.displayModeBar
       PlotlyJSConfig.displaylogo PlotlyJSConfig.scrollZoom
       PlotlyJSConfig.modeBarButtonsToRemove].
  leaf_roundtrips. reflexivity.
Qed.

Lemma LayoutSpec_roundtrip raw l :
  LayoutSpec.validate raw = Valid l ->
  model_validator LayoutSpec.validate (LayoutSpec.to_json l) = Valid l.
Proof.
  unfold LayoutSpec.validate. intros H. split_fields H. subst.
  cbn [model_validator LayoutSpec.to_json LayoutSpec.validate].
  simpl assoc.
  cbn [LayoutSpec.title LayoutSpec.xaxis_title LayoutSpec.yaxis_title
       LayoutSpec.yaxis2_title LayoutSpec.hovermode LayoutSpec.template
       LayoutSpec.colorway LayoutSpec.legend LayoutSpec.height LayoutSpec.width].
  match goal with
  | H : optional None (fun j => and_then _ LayoutSpec._validate_colorway) _
        = Valid _ |- _ => rewrite (opt_colorway_roundtrip H); clear H
  end.
  leaf_roundtrips. reflexivity.
Qed.

(** The root validator of [ChartSpec] is idempotent. *)
Lemma _defaults_and_semantics_idempotent (values : ChartSpec.t) :
  ChartSpec._defaults_and_semantics (ChartSpec._defaults_and_semantics values)
  = ChartSpec._defaults_and_semantics values.
Proof.
  destruct values as [t m o b n].
  destruct t, m as [ [ | | ] | ]; reflexivity.
Qed.

Lemma required_type_roundtrip (t : ChartType.t) :
  required (enum_validator ChartType.value ChartType.members)
    (Some (JStr (ChartType.value t))) = Valid t.
Proof.
  destruct t; reflexivity.
Qed.

Lemma optional_Some_roundtrip {E : Type} (value : E -> string) (members : list E)
    (o : option E) :
  (forall e, enum_of value members (value e) = Some e) ->
  optional None (enum_validator value members)
    (Some (opt_json (fun e => JStr (value e)) o)) = Valid o.
Proof.
  intros Hall. destruct o as [e | ]; simpl.
  - now rewrite Hall.
  - reflexivity.
Qed.

Lemma ChartSpec_roundtrip raw c :
  ChartSpec.validate raw = Valid c ->
  model_validator ChartSpec.validate (ChartSpec.to_json c) = Valid c.
Proof.
  unfold ChartSpec.validate. intros H.
  apply and_then_Valid in H. destruct H as (values & _ & Hc).
  injection Hc as Hc.
  assert (Hfix : ChartSpec._defaults_and_semantics c = c).
  { subst c. apply _defaults_and_semantics_idempotent. }
  clear Hc. destruct c as [t m o b n].
  cbn [model_validator ChartSpec.to_json]. simpl assoc.
  cbn [ChartSpec.type ChartSpec.mode ChartSpec.orientation ChartSpec.barmode
       ChartSpec.histnorm].
  rewrite required_type_roundtrip.
  rewrite !optional_Some_roundtrip by default_ok.
  cbn [at_loc ap and_then]. now rewrite Hfix.
Qed.

(** Rewrites the re-validation of every nested model found among the
    hypotheses. *)
Ltac model_roundtrips :=
  repeat match goal with
    | H : optional None (model_validator SeriesSpec.validate) _ = Valid _ |- _ =>
        rewrite (opt_model_roundtrip (to_json := SeriesSpec.to_json) H
                   ltac:(discriminate) SeriesSpec_roundtrip); clear H
    | H : optional None (model_validator AxisSpec.validate) _ = Valid _ |- _ =>
        rewrite (opt_model_roundtrip (to_json := AxisSpec.to_json) H
                   ltac:(discriminate) AxisSpec_roundtrip); clear H
    | H : optional None (model_validator EncodingsSpec.validate) _ = Valid _ |- _ =>
        rewrite (opt_model_roundtrip (to_json := EncodingsSpec.to_json) H
                   ltac:(discriminate) EncodingsSpec_roundtrip); clear H
    | H : optional None (model_validator LabelsSpec.validate) _ = Valid _ |- _ =>
        rewrite (opt_model_roundtrip (to_json := LabelsSpec.to_json) H
                   ltac:(discriminate) LabelsSpec_roundtrip); clear H
    | H : optional None (model_validator ColorsSpec.validate) _ = Valid _ |- _ =>
        rewrite (opt_model_roundtrip (to_json := ColorsSpec.to_json) H
                   ltac:(discriminate) ColorsSpec_roundtrip); clear H
    | H : optional None (model_validator LayoutSpec.validate) _ = Valid _ |- _ =>
        rewrite (opt_model_roundtrip (to_json := LayoutSpec.to_json) H
                   ltac:(discriminate) LayoutSpec_roundtrip); clear H
    | H : optional None (model_validator PlotlyJSConfig.validate) _ = Valid _ |- _ =>
        rewrite (opt_model_roundtrip (to_json := PlotlyJSConfig.to_json) H
                   ltac:(discriminate) PlotlyJSConfig_roundtrip); clear H
    end.

Lemma DataSpec_roundtrip raw d :
  DataSpec.validate raw = Valid d ->
  model_validator DataSpec.validate (DataSpec.to_json d) = Valid d.
Proof.
  unfold DataSpec.validate. intros H. split_fields H. subst.
  cbn [model_validator DataSpec.to_json DataSpec.validate].
  simpl assoc.
  cbn [DataSpec.frame_name DataSpec.x DataSpec.y DataSpec.z DataSpec.text
       DataSpec.name DataSpec.series DataSpec.axis DataSpec.encodings
       DataSpec.labels DataSpec.colors].
  match goal with
  | H : optional None (fun j => and_then _ DataSpec._unique_y_list) _
        = Valid _ |- _ => rewrite (opt_y_roundtrip H); clear H
  end.
  leaf_roundtrips. model_roundtrips. reflexivity.
Qed.

(** ** What a successful validation of the envelope establishes *)

Lemma required_model_Valid {M : Type} (validate : list (string * json) -> field M)
    (raw : option json) (m : M) :
  required (model_validator validate) raw = Valid m ->
  exists members, raw = Some (JObj members) /\ validate members = Valid m.
Proof.
  destruct raw as [ [ | | | | | | members ] | ]; try discriminate.
  simpl. intros H. now exists members.
Qed.

Lemma validate_Ok (raw : list (string * json)) (m : VizSpec.t) :
  VizSpec.validate raw = Ok m ->
  VizSpec.field_chart raw = Valid (VizSpec.chart m)
  /\ VizSpec.field_data raw = Valid (VizSpec.data m)
  /\ VizSpec._semantic_checks (Some (VizSpec.chart m)) (Some (VizSpec.data m))
     = VizSpec.Passed
  /\ VizSpec.version m = "1.0"
  /\ optional None (model_validator LayoutSpec.validate) (assoc "layout" raw)
     = Valid (VizSpec.layout m)
  /\ optional None (model_validator PlotlyJSConfig.validate)
       (assoc "plotly_config" raw) = Valid (VizSpec.plotly_config m).
Proof.
  unfold VizSpec.validate.
  destruct (VizSpec._semantic_checks _ _) eqn:Hchk; try discriminate.
  match goal with
  | |- match ?fields with _ => _ end = _ -> _ => destruct fields as [model | es] eqn:Hf
  end; [ | discriminate ].
  simpl errors_of. simpl app.
  destruct (VizSpec.extra_errors raw); [ | discriminate ].
  intros H. injection H as ->.
  split_fields Hf. subst. cbn [VizSpec.chart VizSpec.data VizSpec.version
    VizSpec.layout VizSpec.plotly_config].
  repeat match goal with
         | H : VizSpec.field_chart _ = Valid _ |- _ =>
             rewrite H in Hchk; simpl value_of in Hchk
         | H : VizSpec.field_data _ = Valid _ |- _ =>
             rewrite H in Hchk; simpl value_of in Hchk
         end.
  repeat split; try assumption.
  match goal with
  | H : with_default "1.0" VizSpec.version_validator _ = Valid ?s |- ?s = _ =>
      destruct (assoc "version" raw) as [j | ]; simpl in H;
      [ apply and_then_Valid in H; destruct H as (s' & _ & H);
        destruct (String.eqb_spec s' "1.0"); [ | discriminate ];
        injection H as <-; assumption
      | now injection H as <- ]
  end.
Qed.

Lemma VizSpec_roundtrip (raw : list (string * json)) (m : VizSpec.t) :
  VizSpec.validate raw = Ok m ->
  VizSpec.parse_obj (VizSpec.to_json m) = Ok m.
Proof.
  intros H. apply validate_Ok in H.
  destruct H as (Hc & Hd & Hchk & Hv & Hl & Hp).
  unfold VizSpec.field_chart in Hc. apply at_loc_Valid in Hc.
  apply required_model_Valid in Hc. destruct Hc as (rc & _ & Hc).
  unfold VizSpec.field_data in Hd. apply at_loc_Valid in Hd.
  apply required_model_Valid in Hd. destruct Hd as (rd & _ & Hd).
  apply ChartSpec_roundtrip in Hc. apply DataSpec_roundtrip in Hd.
  destruct m as [ver c d l p]. simpl in Hc, Hd, Hchk, Hv, Hl, Hp. subst ver.
  unfold VizSpec.parse_obj, VizSpec.to_json, VizSpec.validate,
    VizSpec.field_chart, VizSpec.field_data.
  simpl assoc.
  cbn [VizSpec.version VizSpec.chart VizSpec.data VizSpec.layout
       VizSpec.plotly_config].
  assert (Hc' : required (model_validator ChartSpec.validate)
                  (Some (ChartSpec.to_json c)) = Valid c) by exact Hc.
  assert (Hd' : required (model_validator DataSpec.validate)
                  (Some (DataSpec.to_json d)) = Valid d) by exact Hd.
  rewrite Hc', Hd'. model_roundtrips.
  cbn [at_loc value_of with_default]. rewrite Hchk. reflexivity.
Qed.

(** ** Frames and labels *)

Lemma String_compare_refl (s : string) : String.compare s s = Eq.
Proof.
  induction s as [ | c s IH ]; simpl.
  - reflexivity.
  - unfold Ascii.compare. now rewrite N.compare_refl.
Qed.

Lemma String_compare_Lt_trans (a b c : string) :
  String.compare a b = Lt -> String.compare b c = Lt -> String.compare a c = Lt.
Proof.
  revert b c. induction a as [ | x a IH ]; intros [ | y b] [ | z c]; simpl;
    try discriminate; try reflexivity.
  unfold Ascii.compare.
  destruct (N_of_ascii x ?= N_of_ascii y)%N eqn:Exy; try discriminate;
    destruct (N_of_ascii y ?= N_of_ascii z)%N eqn:Eyz; try discriminate;
    intros H1 H2.
  - apply N.compare_eq in Exy, Eyz. rewrite Exy, Eyz, N.compare_refl. eauto.
  - apply N.compare_eq in Exy. now rewrite Exy, Eyz.
  - apply N.compare_eq in Eyz. now rewrite <- Eyz, Exy.
  - apply N.compare_lt_iff in Exy, Eyz.
    assert (E : (N_of_ascii x ?= N_of_ascii z)%N = Lt).
    { apply N.compare_lt_iff. now transitivity (N_of_ascii y). }
    now rewrite E.
Qed.

Lemma Cell_compare_eq (a b : Pandas.Cell) :
  Pandas.compare a b = Eq <-> a = b.
Proof.
  split.
  - destruct a, b; simpl; try discriminate; try reflexivity; intros H.
    + apply Z.compare_eq in H. now subst.
    + apply String.compare_eq_iff in H. now subst.
    + apply String.compare_eq_iff in H. now subst.
  - intros <-. destruct a; simpl; try reflexivity.
    + apply Z.compare_refl.
    + apply String_compare_refl.
    + apply String_compare_refl.
Qed.

Lemma Cell_compare_antisym (a b : Pandas.Cell) :
  Pandas.compare b a = CompOpp (Pandas.compare a b).
Proof.
  destruct a, b; simpl; try reflexivity.
  - apply Z.compare_antisym.
  - apply String.compare_antisym.
  - apply String.compare_antisym.
Qed.

Lemma Cell_compare_Lt_trans (a b c : Pandas.Cell) :
  Pandas.compare a b = Lt -> Pandas.compare b c = Lt -> Pandas.compare a c = Lt.
Proof.
  destruct a, b, c; simpl; try discriminate; try reflexivity.
  - rewrite !Z.compare_lt_iff. lia.
  - apply String_compare_Lt_trans.
  - apply String_compare_Lt_trans.
Qed.

Lemma Cell_eqb_eq (a b : Pandas.Cell) : Pandas.eqb a b = true <-> a = b.
Proof.
  unfold Pandas.eqb. rewrite <- Cell_compare_eq.
  destruct (Pandas.compare a b); split; congruence.
Qed.

Lemma insert_In (k c : Pandas.Cell) (l : list Pandas.Cell) :
  In c (Pandas.insert k l) <-> c = k \/ In c l.
Proof.
  induction l as [ | d l IH ]; simpl.
  - intuition.
  - destruct (Pandas.compare k d) eqn:E; simpl.
    + apply Cell_compare_eq in E. subst d. intuition.
    + intuition.
    + rewrite IH. intuition.
Qed.

Lemma insert_sorted (k : Pandas.Cell) (l : list Pandas.Cell) :
  StronglySorted Cell_lt l -> StronglySorted Cell_lt (Pandas.insert k l).
Proof.
  induction 1 as [ | d l Hs IH Hd ]; simpl.
  - repeat constructor.
  - destruct (Pandas.compare k d) eqn:E.
    + now constructor.
    + constructor; [ now constructor | ].
      constructor; [ exact E | ].
      rewrite Forall_forall in Hd |- *. intros c Hc.
      eapply Cell_compare_Lt_trans; eauto. now apply Hd.
    + constructor; [ exact IH | ].
      rewrite Forall_forall in Hd |- *. intros c Hc.
      apply insert_In in Hc. destruct Hc as [-> | Hc]; [ | now apply Hd ].
      unfold Cell_lt. rewrite Cell_compare_antisym, E. reflexivity.
Qed.

(** [sort_unique] lists exactly the cells of its argument, in strictly
    ascending order (hence each once). *)
Lemma sort_unique_In (c : Pandas.Cell) (l : list Pandas.Cell) :
  In c (Pandas.sort_unique l) <-> In c l.
Proof.
  unfold Pandas.sort_unique. induction l as [ | d l IH ]; simpl.
  - reflexivity.
  - rewrite insert_In, IH. intuition.
Qed.

Lemma sort_unique_sorted (l : list Pandas.Cell) :
  StronglySorted Cell_lt (Pandas.sort_unique l).
Proof.
  unfold Pandas.sort_unique. induction l as [ | d l IH ]; simpl.
  - constructor.
  - now apply insert_sorted.
Qed.

(** ** The store *)

Lemma firstn_length_app {A : Type} (l ext : list A) :
  firstn (length l) (l ++ ext) = l.
Proof.
  induction l as [ | a l IH ]; simpl.
  - reflexivity.
  - now rewrite IH.
Qed.

Lemma firstn_write_beyond (st ext : Store) (k : nat) (d : Pandas.DataFrame) :
  firstn (length st) (write (st ++ ext) (length st + k)%nat d) = st.
Proof.
  induction st as [ | o st IH ]; simpl.
  - reflexivity.
  - now rewrite IH.
Qed.

Lemma deref_copy (st : Store) (r : ref) :
  deref (fst (copy st r)) (snd (copy st r)) = deref st r.
Proof.
  unfold copy, deref. simpl. rewrite app_nth2, Nat.sub_diag by lia. reflexivity.
Qed.

Lemma deref_write_new (st : Store) (d0 d : Pandas.DataFrame) :
  deref (write (st ++ [d0]) (length st) d) (length st) = d.
Proof.
  unfold deref. induction st as [ | o st IH ]; simpl; auto.
Qed.

Section StoreFrame.
Variable to_datetime : Pandas.Series -> option Pandas.Series.

(** The dtype block writes only the copy it made. *)
Lemma normalize_x_dtype_frame (st : Store) (df : ref) (x : option string) :
  firstn (length st) (fst (normalize_x_dtype to_datetime st df x)) = st.
Proof.
  unfold normalize_x_dtype.
  destruct x as [xc | ]; [ | apply firstn_all ].
  destruct (truthy_str xc); [ | apply firstn_all ].
  destruct (Pandas.getitem (deref st df) xc) as [s | e]; [ | apply firstn_all ].
  destruct (negb (Pandas.is_datetime64 (Pandas.dtype s))); [ | apply firstn_all ].
  unfold copy.
  destruct (to_datetime s) as [converted | ]; simpl;
    [ | apply firstn_length_app ].
  destruct (Pandas.setitem _ xc converted) as [updated | e]; simpl;
    [ | apply firstn_length_app ].
  rewrite <- (Nat.add_0_r (length st)) at 2. apply firstn_write_beyond.
Qed.

Lemma _add_scatter_family_frame (st : Store) (fig : Plotly.Figure) (df : ref)
    (spec : VizSpec.t) :
  firstn (length st) (fst (_add_scatter_family to_datetime st fig df spec)) = st.
Proof.
  unfold _add_scatter_family.
  pose proof (normalize_x_dtype_frame st df (DataSpec.x (VizSpec.data spec))) as H.
  destruct (normalize_x_dtype to_datetime st df _) as [st' [r | e]]; exact H.
Qed.

Lemma add_traces_frame (st : Store) (df : ref) (model : VizSpec.t) :
  firstn (length st) (fst (add_traces to_datetime st df model)) = st.
Proof.
  unfold add_traces.
  destruct (ChartSpec.type (VizSpec.chart model));
    try apply firstn_all; apply _add_scatter_family_frame.
Qed.

Lemma compile_figure_frame (st : Store) (df : ref) (spec : SpecInput) :
  firstn (length st) (fst (compile_figure to_datetime st df spec)) = st.
Proof.
  unfold compile_figure.
  destruct (parse_viz_spec spec) as [model | e]; [ | apply firstn_all ].
  destruct (_ensure_columns _ _) as [ [] | e]; [ | apply firstn_all ].
  pose proof (add_traces_frame st df model) as H.
  now destruct (add_traces to_datetime st df model).
Qed.

Lemma compile_payload_frame (st : Store) (df : ref) (spec : SpecInput) :
  firstn (length st) (fst (compile_payload to_datetime st df spec)) = st.
Proof.
  unfold compile_payload.
  destruct (parse_viz_spec spec) as [model | e]; [ | apply firstn_all ].
  pose proof (compile_figure_frame st df (Model model)) as H.
  destruct (compile_figure to_datetime st df (Model model)) as [st' [fig | e]];
    [ | exact H ].
  now destruct (serializable _).
Qed.
End StoreFrame.

(** ** Groups *)





(** The cosmetic steps leave the data of a trace alone. *)
Lemma _apply_common_core (tr : Plotly.Trace) (name_key : string) (spec : VizSpec.t) :
  trace_core (_apply_common tr name_key spec) = trace_core tr.
Proof.
  unfold _apply_common.
  repeat match goal with
         | |- context [match ?e with _ => _ end] => destruct e
         end; reflexivity.
Qed.

Lemma _route_axis_core (tr : Plotly.Trace) (ycol : option string) (spec : VizSpec.t) :
  trace_core (_route_axis tr ycol spec) = trace_core tr.
Proof.
  unfold _route_axis.
  repeat match goal with
         | |- context [match ?e with _ => _ end] => destruct e
         end; reflexivity.
Qed.


(** ** The shape of a compilation *)

Section Compilation.
Variable to_datetime : Pandas.Series -> option Pandas.Series.

Lemma compile_figure_Model (st : Store) (df : ref) (model : VizSpec.t) :
  snd (compile_figure to_datetime st df (Model model))
  = (_ <- _ensure_columns (deref st df) (bound_columns (VizSpec.data model)) ;;
     fig <- snd (add_traces to_datetime st df model) ;;
     let fig :=
       match VizSpec.layout model with
       | Some l => apply_layout fig l (VizSpec.data model)
       | None => fig
       end in
     let fig :=
       match ChartSpec.type (VizSpec.chart model),
             ChartSpec.barmode (VizSpec.chart model) with
       | ChartType.bar, Some b => apply_barmode fig (BarMode.value b)
       | _, _ => fig
       end in
     _ <- _guard_traces fig 64 ;;
     Ok fig).
Proof.
  unfold compile_figure. simpl parse_viz_spec. cbv iota.
  destruct (_ensure_columns _ _) as [ [] | e]; [ | reflexivity ].
  simpl bind. now destruct (add_traces to_datetime st df model).
Qed.

(** A returned figure carries the traces of its builder, at most 64. *)
Lemma compile_figure_Ok (st : Store) (df : ref) (model : VizSpec.t)
    (fig : Plotly.Figure) :
  snd (compile_figure to_datetime st df (Model model)) = Ok fig ->
  exists fig0,
    _ensure_columns (deref st df) (bound_columns (VizSpec.data model)) = Ok tt
    /\ snd (add_traces to_datetime st df model) = Ok fig0
    /\ Plotly.data fig = Plotly.data fig0
    /\ (length (Plotly.data fig) <= 64)%nat.
Proof.
  rewrite compile_figure_Model.
  destruct (_ensure_columns _ _) as [ [] | e]; [ | discriminate ].
  destruct (snd (add_traces to_datetime st df model)) as [fig0 | e]; [ | discriminate ].
  simpl bind. unfold _guard_traces.
  match goal with
  | |- context [length (Plotly.data ?f)] =>
      assert (Hd : Plotly.data f = Plotly.data fig0)
        by (destruct (VizSpec.layout model),
              (ChartSpec.type (VizSpec.chart model)),
              (ChartSpec.barmode (VizSpec.chart model)); reflexivity);
      rewrite Hd
  end.
  destruct (64 <? length (Plotly.data fig0))%nat eqn:E; [ discriminate | ].
  simpl. intros H. injection H as <-. exists fig0.
  apply Nat.ltb_ge in E. rewrite Hd. auto.
Qed.
End Compilation.

(** ** Parsing *)

Lemma translate_errors_Ok (attempt : result VizSpec.t) (m : VizSpec.t) :
  translate_errors attempt = Ok m -> attempt = Ok m.
Proof.
  destruct attempt as [a | [ | | | [ | | | | | ] ] ]; simpl; congruence.
Qed.

Lemma parse_raw_input_Ok (spec : SpecInput) (m : VizSpec.t) :
  is_raw_input spec = true ->
  parse_viz_spec spec = Ok m ->
  exists raw, VizSpec.validate raw = Ok m.
Proof.
  destruct spec as [decoded | raw | model]; simpl; try discriminate;
    intros _ H; apply translate_errors_Ok in H.
  - destruct decoded as [ [ | | | | | | raw ] | ]; try discriminate.
    now exists raw.
  - now exists raw.
Qed.



(** A heatmap spec that passed the root validator has [x], [y] and [z]. *)
Lemma heatmap_bindings (c : ChartSpec.t) (d : DataSpec.t) :
  VizSpec._semantic_checks (Some c) (Some d) = VizSpec.Passed ->
  ChartSpec.type c = ChartType.heatmap ->
  exists x y z,
    DataSpec.x d = Some x /\ DataSpec.y d = Some y /\ DataSpec.z d = Some z.
Proof.
  unfold VizSpec._semantic_checks. intros H Ht. rewrite Ht in H.
  simpl ChartType.eqb in H. cbv iota in H.
  unfold VizSpec.heatmap_missing in H.
  destruct (DataSpec.x d) as [x | ], (DataSpec.y d) as [y | ],
    (DataSpec.z d) as [z | ]; try discriminate H.
  now exists x, y, z.
Qed.

(** ** Columns, duplicates and the pivot *)

Lemma mem_str_assoc {A : Type} (c : string) (m : list (string * A)) :
  mem_str c (map fst m) = true -> exists a, assoc c m = Some a.
Proof.
  unfold mem_str. induction m as [ | [k a] m IH ]; simpl.
  - discriminate.
  - destruct (c =? k)%string; simpl; eauto.
Qed.

Lemma _ensure_columns_getitem (df : Pandas.DataFrame) (cols : list string)
    (c : string) :
  _ensure_columns df cols = Ok tt ->
  In c cols ->
  exists s, Pandas.getitem df c = Ok s.
Proof.
  unfold _ensure_columns. intros H Hin.
  destruct (filter _ cols) as [ | c0 rest] eqn:E; [ | discriminate ].
  destruct (mem_str c (Pandas.columns df)) eqn:Hm.
  - apply mem_str_assoc in Hm. destruct Hm as (s & Hs).
    exists s. unfold Pandas.getitem. now rewrite Hs.
  - assert (Hc : In c (filter (fun c => negb (mem_str c (Pandas.columns df))) cols)).
    { apply filter_In. now rewrite Hm. }
    rewrite E in Hc. contradiction.
Qed.

Lemma any_duplicated_iff (pairs : list (Pandas.Cell * Pandas.Cell)) :
  Pandas.any_duplicated pairs = true <-> shares_pair pairs.
Proof.
  unfold shares_pair. induction pairs as [ | p rest IH ]; simpl.
  - split; [ discriminate | ].
    intros (i & j & q & _ & Hi & _). now destruct i.
  - rewrite orb_true_iff, IH, existsb_exists. split.
    + intros [ (q & Hq & Heq) | (i & j & q & Hlt & Hi & Hj) ].
      * apply andb_true_iff in Heq. destruct Heq as [H1 H2].
        apply Cell_eqb_eq in H1, H2.
        assert (q = p) as -> by (destruct p, q; simpl in *; congruence).
        apply In_nth_error in Hq. destruct Hq as (j & Hj).
        exists 0%nat, (S j), p. repeat split; auto. lia.
      * exists (S i), (S j), q. repeat split; auto. lia.
    + intros (i & j & q & Hlt & Hi & Hj).
      destruct j as [ | j]; [ lia | ]. simpl in Hj.
      destruct i as [ | i]; simpl in Hi.
      * injection Hi as ->. left. exists q. split.
        -- eapply nth_error_In; eauto.
        -- apply andb_true_iff. split; now apply Cell_eqb_eq.
      * right. exists i, j, q. repeat split; auto. lia.
Qed.

Lemma nth_error_combine {A B : Type} (l : list A) (l' : list B) (i : nat)
    (a : A) (b : B) :
  nth_error (combine l l') i = Some (a, b)
  <-> nth_error l i = Some a /\ nth_error l' i = Some b.
Proof.
  revert l' i. induction l as [ | x l IH ]; intros [ | y l'] [ | i]; simpl;
    try (split; [ discriminate | intros [H1 H2]; discriminate ]).
  - split; [ intros H; injection H as -> -> | intros [H1 H2]; congruence ]; auto.
  - apply IH.
Qed.

Lemma shares_pair_swap {xs ys : list Pandas.Cell} :
  shares_pair (combine xs ys) -> shares_pair (combine ys xs).
Proof.
  intros (i & j & [a b] & Hlt & Hi & Hj).
  apply nth_error_combine in Hi, Hj.
  exists i, j, (b, a). repeat split; auto; apply nth_error_combine; tauto.
Qed.

Lemma any_duplicated_swap (xs ys : list Pandas.Cell) :
  Pandas.any_duplicated (combine ys xs) = Pandas.any_duplicated (combine xs ys).
Proof.
  destruct (Pandas.any_duplicated (combine xs ys)) eqn:E.
  - apply any_duplicated_iff, shares_pair_swap, any_duplicated_iff, E.
  - destruct (Pandas.any_duplicated (combine ys xs)) eqn:E'; [ | reflexivity ].
    apply any_duplicated_iff, shares_pair_swap, any_duplicated_iff in E'.
    congruence.
Qed.

(** With no repeated pair, the matrix holds at (row label, column label) the
    value of the one row that carries the pair. *)
Lemma cell_at_row (rows : list (Pandas.Cell * Pandas.Cell * Pandas.Cell))
    (i : nat) (r c v : Pandas.Cell) :
  ~ shares_pair (map fst rows) ->
  nth_error rows i = Some (r, c, v) ->
  Pandas.cell_at rows r c = v.
Proof.
  unfold Pandas.cell_at. revert i.
  induction rows as [ | [[r0 c0] v0] rows IH ]; intros i Hno Hi.
  - now destruct i.
  - simpl. destruct (Pandas.eqb r0 r && Pandas.eqb c0 c) eqn:E.
    + apply andb_true_iff in E. destruct E as [E1 E2].
      apply Cell_eqb_eq in E1, E2. subst r0 c0.
      destruct i as [ | i]; simpl in Hi; [ now injection Hi | ].
      exfalso. apply Hno. exists 0%nat, (S i), (r, c).
      repeat split; [ lia | ]. simpl.
      rewrite nth_error_map, Hi. reflexivity.
    + destruct i as [ | i]; simpl in Hi.
      * injection Hi as -> -> ->.
        rewrite (proj2 (Cell_eqb_eq r r) eq_refl),
          (proj2 (Cell_eqb_eq c c) eq_refl) in E. discriminate.
      * apply (IH i); [ | exact Hi ].
        intros (a & b & p & Hlt & Ha & Hb). apply Hno.
        exists (S a), (S b), p. repeat split; auto. lia.
Qed.

Lemma shares_pair_combine_fst {A : Type} (pairs : list (Pandas.Cell * Pandas.Cell))
    (vs : list A) :
  shares_pair (map fst (combine pairs vs)) -> shares_pair pairs.
Proof.
  assert (Hnth : forall i p,
            nth_error (map fst (combine pairs vs)) i = Some p ->
            nth_error pairs i = Some p).
  { intros i p. rewrite nth_error_map.
    destruct (nth_error (combine pairs vs) i) as [[q v] | ] eqn:E;
      [ | discriminate ].
    simpl. intros H. injection H as <-.
    now apply nth_error_combine in E. }
  intros (i & j & p & Hlt & Hi & Hj). exists i, j, p. auto.
Qed.

Lemma truthy_str_true (s : string) : s <> "" -> truthy_str s = true.
Proof.
  unfold truthy_str. intros H.
  destruct (String.eqb_spec s ""); [ contradiction | reflexivity ].
Qed.

Lemma not_shares_pair (pairs : list (Pandas.Cell * Pandas.Cell)) :
  ~ shares_pair pairs -> Pandas.any_duplicated pairs = false.
Proof.
  intros H. destruct (Pandas.any_duplicated pairs) eqn:E; [ | reflexivity ].
  apply any_duplicated_iff in E. contradiction.
Qed.

(** ** Traces split by [series.by] *)




(** A loop each of whose steps adds one trace that suits its item. *)
Lemma for_each_Forall2 {A : Type} (P : A -> Plotly.Trace -> Prop)
    (body : Plotly.Figure -> A -> result Plotly.Figure) (items : list A) :
  (forall f a f', body f a = Ok f' ->
     exists tr, f' = Plotly.add_trace f tr /\ P a tr) ->
  forall fig fig',
    for_each items body fig = Ok fig' ->
    exists trs, Forall2 P items trs /\ Plotly.data fig' = Plotly.data fig ++ trs.
Proof.
  intros Hbody. induction items as [ | a items IH ]; intros fig fig'; simpl.
  - intros H. injection H as <-. exists []. rewrite app_nil_r. auto.
  - destruct (body fig a) as [f1 | e] eqn:E; simpl; [ | discriminate ].
    apply Hbody in E. destruct E as (tr & -> & Htr).
    intros H. apply IH in H. destruct H as (trs & Hall & Hd).
    exists (tr :: trs). simpl in Hd. rewrite <- app_assoc in Hd. auto.
Qed.

Lemma cosmetics_keep_data (tr : Plotly.Trace) (name_key : string)
    (ycol : option string) (spec : VizSpec.t) :
  let tr' := _route_axis (_apply_common tr name_key spec) ycol spec in
  Plotly.x tr' = Plotly.x tr /\ Plotly.y tr' = Plotly.y tr
  /\ Plotly.text tr' = Plotly.text tr /\ Plotly.name tr' = Plotly.name tr.
Proof.
  intros tr'.
  assert (H : trace_core tr' = trace_core tr).
  { unfold tr'. now rewrite _route_axis_core, _apply_common_core. }
  unfold trace_core in H. injection H. auto.
Qed.

Lemma series_by_truthy (d : DataSpec.t) (g : string) :
  series_by d = Some g -> truthy_opt_str (series_by d) = true.
Proof.
  unfold series_by. destruct (DataSpec.series d) as [s | ]; [ | discriminate ].
  destruct (truthy_opt_str (SeriesSpec.by_ s)) eqn:E; [ | discriminate ].
  intros _. exact E.
Qed.

Lemma next_Passed (c1 c2 : VizSpec.check) :
  VizSpec.next c1 c2 = VizSpec.Passed -> c1 = VizSpec.Passed /\ c2 = VizSpec.Passed.
Proof.
  destruct c1; simpl; try discriminate. auto.
Qed.



Ltac bind_Ok H :=
  match type of H with
  | bind ?r _ = Ok _ =>
      let E := fresh "E" in
      destruct r eqn:E; cbn [bind] in H; [ | discriminate H ]
  end.




Lemma replace_column_other (df : Pandas.DataFrame) (col c : string)
    (s : Pandas.Series) :
  c <> col -> assoc c (Pandas.replace_column df col s) = assoc c df.
Proof.
  intros Hne. induction df as [ | [k old] df IH ]; simpl.
  - destruct (String.eqb_spec c col); [ contradiction | reflexivity ].
  - destruct (String.eqb_spec col k) as [-> | Hk]; simpl.
    + destruct (String.eqb_spec c k); [ contradiction | reflexivity ].
    + destruct (c =? k)%string; [ reflexivity | exact IH ].
Qed.

Lemma setitem_other (df updated : Pandas.DataFrame) (col c : string)
    (s : Pandas.Series) :
  Pandas.setitem df col s = Ok updated ->
  c <> col ->
  Pandas.getitem updated c = Pandas.getitem df c.
Proof.
  unfold Pandas.setitem, Pandas.getitem. intros H Hne.
  destruct df as [ | [k old] df].
  - injection H as <-. simpl.
    destruct (String.eqb_spec c col); [ contradiction | reflexivity ].
  - destruct (_ =? _)%nat; [ | discriminate ]. injection H as <-.
    pose proof (@replace_column_other ((k, old) :: df) col c s Hne) as R.
    simpl in R. simpl. now rewrite R.
Qed.

Section WorkingFrame.
Variable to_datetime : Pandas.Series -> option Pandas.Series.

(** The frame the scatter builder reads differs from the caller's in the
    [x] column at most. *)
Lemma normalize_x_dtype_other (st st' : Store) (df r : ref) (x : option string) :
  normalize_x_dtype to_datetime st df x = (st', Ok r) ->
  forall c, x <> Some c ->
    Pandas.getitem (deref st' r) c = Pandas.getitem (deref st df) c.
Proof.
  unfold normalize_x_dtype. intros H c Hc.
  destruct x as [xc | ]; [ | now injection H as <- <- ].
  destruct (truthy_str xc); [ | now injection H as <- <- ].
  destruct (Pandas.getitem (deref st df) xc) as [s | e]; [ | discriminate ].
  destruct (negb (Pandas.is_datetime64 (Pandas.dtype s)));
    [ | now injection H as <- <- ].
  pose proof (deref_copy st df) as Hcopy. unfold copy in H, Hcopy.
  simpl in Hcopy.
  destruct (to_datetime s) as [converted | ].
  - destruct (Pandas.setitem _ xc converted) as [updated | e] eqn:Hset.
    + injection H as <- <-. rewrite deref_write_new.
      rewrite Hcopy in Hset. apply (setitem_other _ _ Hset). congruence.
    + injection H as <- <-. now rewrite Hcopy.
  - injection H as <- <-. now rewrite Hcopy.
Qed.

End WorkingFrame.

(** * The statements of the specification *)







(** C3, as the code has it.  For a heatmap whose [x], [y], [z] name columns
    of the table: when two rows share an (x, y) pair, [compile_figure] fails
    with the ambiguous-aggregation [CompileError]; otherwise the builder adds
    one heatmap trace whose rows are the distinct [y] values and whose
    columns are the distinct [x] values, both in ascending sorted order (the
    order [DataFrame.pivot] gives, not first-seen order), the matrix holding
    at each (y, x) position the [z] of the row that carries the pair. *)
Theorem heatmap_long_form_is_unique_and_sorted
    (to_datetime : Pandas.Series -> option Pandas.Series)
    (st : Store) (df : ref) (m : VizSpec.t) (x y z : string) :
  ChartSpec.type (VizSpec.chart m) = ChartType.heatmap ->
  DataSpec.x (VizSpec.data m) = Some x ->
  DataSpec.y (VizSpec.data m) = Some (YCol y) ->
  DataSpec.z (VizSpec.data m) = Some z ->
  x <> "" -> y <> "" -> z <> "" ->
  _ensure_columns (deref st df) (bound_columns (VizSpec.data m)) = Ok tt ->
  exists sx sy sz,
    Pandas.getitem (deref st df) x = Ok sx
    /\ Pandas.getitem (deref st df) y = Ok sy
    /\ Pandas.getitem (deref st df) z = Ok sz
    /\ (shares_pair (combine (Pandas.values sx) (Pandas.values sy)) ->
        snd (compile_figure to_datetime st df (Model m))
        = Err (CompileError AmbiguousAggregation))
    /\ (~ shares_pair (combine (Pandas.values sx) (Pandas.values sy)) ->
        let rows := Pandas.sort_unique (Pandas.values sy) in
        let cols := Pandas.sort_unique (Pandas.values sx) in
        let cells :=
          combine (combine (Pandas.values sy) (Pandas.values sx))
                  (Pandas.values sz) in
        snd (add_traces to_datetime st df m)
        = Ok (Plotly.add_trace Plotly.empty_figure
                (go_Heatmap (Some (astype_str cols)) (Some (astype_str rows))
                   (map (fun r => map (fun c => Pandas.cell_at cells r c) cols)
                        rows)))
        /\ StronglySorted Cell_lt rows
        /\ (forall c, In c rows <-> In c (Pandas.values sy))
        /\ StronglySorted Cell_lt cols
        /\ (forall c, In c cols <-> In c (Pandas.values sx))
        /\ (forall i xi yi zi,
              nth_error (Pandas.values sx) i = Some xi ->
              nth_error (Pandas.values sy) i = Some yi ->
              nth_error (Pandas.values sz) i = Some zi ->
              Pandas.cell_at cells yi xi = zi)).
Proof.
  intros Ht Hx Hy Hz Nx Ny Nz Hcols.
  apply truthy_str_true in Nx, Ny, Nz.
  assert (Hin : forall c, In c [x; y; z] ->
                  exists s, Pandas.getitem (deref st df) c = Ok s).
  { intros c Hc. apply (_ensure_columns_getitem _ _ _ Hcols).
    unfold bound_columns. rewrite Hx, Hy, Hz. apply filter_In. simpl in Hc |- *.
    destruct Hc as [<- | [<- | [<- | []]]]; rewrite ?in_app_iff; simpl; tauto. }
  destruct (Hin x) as (sx & Hsx); [ simpl; tauto | ].
  destruct (Hin y) as (sy & Hsy); [ simpl; tauto | ].
  destruct (Hin z) as (sz & Hsz); [ simpl; tauto | ].
  exists sx, sy, sz. repeat (split; [ assumption | ]).
  assert (Hadd : snd (add_traces to_datetime st df m)
                 = heatmap_long_form Plotly.empty_figure (deref st df) x (YCol y) z).
  { unfold add_traces, _add_heatmap. rewrite Ht, Hx, Hy, Hz. simpl.
    now rewrite Nx, Ny, Nz. }
  split.
  - intros Hdup. apply any_duplicated_iff in Hdup.
    rewrite compile_figure_Model, Hcols, Hadd. simpl.
    unfold Pandas.duplicated_any. rewrite Hsx, Hsy. simpl. now rewrite Hdup.
  - intros Hno rows cols cells. split.
    + rewrite Hadd. simpl.
      unfold Pandas.duplicated_any, Pandas.pivot. rewrite Hsx, Hsy, Hsz. simpl.
      rewrite (not_shares_pair Hno).
      rewrite (any_duplicated_swap (Pandas.values sx) (Pandas.values sy)).
      rewrite (not_shares_pair Hno). reflexivity.
    + repeat split; try apply sort_unique_sorted; try apply sort_unique_In.
      intros i xi yi zi Hxi Hyi Hzi. apply (@cell_at_row cells i).
      * intros Hs. apply shares_pair_combine_fst, shares_pair_swap in Hs.
        contradiction.
      * apply nth_error_combine. split; [ | assumption ].
        apply nth_error_combine. auto.
Qed.

Lemma heatmap_long_form_is_unique_and_sorted_witness :
  snd (compile_figure Examples.to_datetime_unchanged [Examples.counts_twice] 0%nat
         (Model Examples.heatmap_model))
  = Err (CompileError AmbiguousAggregation).
Proof.
  destruct (@heatmap_long_form_is_unique_and_sorted
              Examples.to_datetime_unchanged [Examples.counts_twice] 0%nat
              Examples.heatmap_model "week" "store" "count"
              eq_refl eq_refl eq_refl eq_refl
              ltac:(discriminate) ltac:(discriminate) ltac:(discriminate) eq_refl)
    as (sx & sy & sz & Hx & Hy & _ & Hdup & _).
  apply Hdup. vm_compute in Hx, Hy. injection Hx as <-. injection Hy as <-.
  exists 0%nat, 1%nat, (Pandas.Str "w1", Pandas.Str "p").
  repeat split. constructor.
Defined.

(** C3 fails as stated: on a table whose first row carries the greater
    labels, the heatmap's axes come out sorted, not in first-seen order. *)
Lemma heatmap_axes_are_sorted_not_first_seen :
  parse_viz_spec (Dict Examples.heatmap_spec) = Ok Examples.heatmap_model
  /\ ok_map (fun fig => map (fun tr => (Plotly.x tr, Plotly.y tr, Plotly.z tr))
                          (Plotly.data fig))
       (snd (compile_figure Examples.to_datetime_unchanged [Examples.counts] 0%nat
               (Dict Examples.heatmap_spec)))
     = Some [(Some (Plotly.Column [Pandas.Str "w1"; Pandas.Str "w2"]),
              Some (Plotly.Column [Pandas.Str "p"; Pandas.Str "q"]),
              Some [[Pandas.Int 2; Pandas.NaN]; [Pandas.NaN; Pandas.Int 1]])]
  /\ ok_map (fun s => first_seen (Pandas.values s))
       (Pandas.getitem Examples.counts "week")
     = Some [Pandas.Str "w2"; Pandas.Str "w1"]
  /\ ok_map (fun s => first_seen (Pandas.values s))
       (Pandas.getitem Examples.counts "store")
     = Some [Pandas.Str "q"; Pandas.Str "p"].
Proof.
  repeat split; vm_compute; reflexivity.
Qed.

(** C4, on the code: a text that is not well-formed JSON is reported as a
    [SpecValidationError] (pydantic wraps the decoder's error), and a
    well-formed heatmap request without its [data] section is reported as a
    [SpecParseError] (the root validator reads the missing section and raises
    an [AttributeError]). *)
Theorem parse_error_classes_are_mixed :
  parse_viz_spec (Text None)
  = Err (SpecValidationError [(["__root__"], "Expecting value")])
  /\ parse_viz_spec (Dict Examples.heatmap_no_data) = Err SpecParseError.
Proof.
  split; vm_compute; reflexivity.
Qed.

(** C5, on the code: a trace routed to [y2] with no layout section gets no
    secondary axis, and a layout section with a [y2_for] that names no
    plotted column gets one although no trace uses it. *)
Theorem secondary_axis_follows_the_spec_not_the_traces :
  ok_map (fun fig => (map Plotly.yaxis (Plotly.data fig),
                      Plotly.yaxis2 (Plotly.layout fig)))
    (snd (compile_figure Examples.to_datetime_unchanged [Examples.readings] 0%nat
            (Dict Examples.y2_without_layout)))
  = Some ([Some "y2"], None)
  /\ ok_map (fun fig => (map Plotly.yaxis (Plotly.data fig),
                         Plotly.yaxis2 (Plotly.layout fig)))
       (snd (compile_figure Examples.to_datetime_unchanged [Examples.readings] 0%nat
               (Dict Examples.y2_unused_with_layout)))
     = Some ([None], Some (Plotly.mkYAxis2 None "y" "right")).
Proof.
  split; vm_compute; reflexivity.
Qed.




(** C7: validation is idempotent.  A VizSpec obtained by parsing a text or a
    dict goes through the parser unchanged when its own serialization
    ([.json()]) is parsed again: mode defaulting, the resets of orientation
    and histnorm, the numeric defaults and every check are fixed points on
    validated specs. *)
Theorem revalidation_is_identity (spec : SpecInput) (m : VizSpec.t) :
  is_raw_input spec = true ->
  parse_viz_spec spec = Ok m ->
  parse_viz_spec (Text (Some (VizSpec.to_json m))) = Ok m.
Proof.
  intros Hraw H. destruct (parse_raw_input_Ok _ Hraw H) as (raw & Hv).
  unfold parse_viz_spec, VizSpec.parse_raw.
  now rewrite (VizSpec_roundtrip _ Hv).
Qed.

Lemma revalidation_is_identity_witness :
  exists m,
    parse_viz_spec (Dict Examples.full_spec) = Ok m
    /\ parse_viz_spec (Text (Some (VizSpec.to_json m))) = Ok m.
Proof.
  eexists. split.
  - vm_compute. reflexivity.
  - apply (@revalidation_is_identity (Dict Examples.full_spec)).
    + reflexivity.
    + vm_compute. reflexivity.
Defined.

(** C8: the compiler does not mutate its inputs.  After [compile_figure] and
    after [compile_payload], whether they return or raise, every frame object
    that existed before the call (the caller's table among them) holds the
    columns, cells and dtypes it held before: the store has only grown.  The
    date conversion of the [x] column is written to a copy made inside the
    call. *)
Theorem compiler_leaves_frames_unchanged
    (to_datetime : Pandas.Series -> option Pandas.Series)
    (st : Store) (df : ref) (spec : SpecInput) :
  firstn (length st) (fst (compile_figure to_datetime st df spec)) = st
  /\ firstn (length st) (fst (compile_payload to_datetime st df spec)) = st.
Proof.
  split.
  - apply compile_figure_frame.
  - apply compile_payload_frame.
Qed.

(** The conversion does take place, on the copy: with a converter that reads
    every text as a date, the store ends with the caller's frame as it was
    and a second frame whose [x] column is a datetime column. *)
Lemma date_conversion_is_written_to_a_copy :
  map (fun d => ok_map Pandas.dtype (Pandas.getitem d "store"))
    (fst (compile_figure Examples.to_datetime_all [Examples.sales] 0%nat
            (Dict Examples.line_by_region)))
  = [Some Pandas.object_; Some Pandas.datetime64]
  /\ nth_error
       (fst (compile_figure Examples.to_datetime_all [Examples.sales] 0%nat
               (Dict Examples.line_by_region))) 0
     = Some Examples.sales.
Proof.
  split; vm_compute; reflexivity.
Qed.

(** C9, as the code has it: no text is rejected as a colour.  Every entry of
    [color_map] and of [colorway] passes [_valid_color], the empty text
    included, and both validators hand back the value they were given. *)
Theorem color_validators_accept_every_text
    (color_map : list (string * string)) (colorway : list string) (c : string) :
  _valid_color c = true
  /\ ColorsSpec._validate_colors color_map = Valid color_map
  /\ LayoutSpec._validate_colorway colorway = Valid colorway.
Proof.
  split; [ apply _valid_color_true | ].
  split; [ apply _validate_colors_accepts | apply _validate_colorway_accepts ].
Qed.

(** C9 fails as stated: the empty text is neither a hex colour nor a
    non-empty text, yet it is accepted in [color_map] and in [colorway]. *)
Lemma empty_color_is_accepted :
  spec_valid_color "" = false
  /\ ColorsSpec.validate [("color_map", JObj [("sales", JStr "")])]
     = Valid (ColorsSpec.Build (Some [("sales", "")]))
  /\ ok_map (fun m => option_map LayoutSpec.colorway (VizSpec.layout m))
       (parse_viz_spec
          (Dict [("chart", JObj [("type", JStr "line")]);
                 ("data", JObj []);
                 ("layout", JObj [("colorway", JArr [JStr ""])])]))
     = Some (Some (Some [""])).
Proof.
  repeat split; vm_compute; reflexivity.
Qed.




(** * Further properties of the schema and the compiler *)

(** ** Columns *)

Lemma mem_str_In (s : string) (l : list string) :
  mem_str s l = true <-> In s l.
Proof.
  unfold mem_str. rewrite existsb_exists. split.
  - intros (x & Hx & E). apply String.eqb_eq in E. now subst.
  - intros H. exists s. split; [ assumption | apply String.eqb_refl ].
Qed.

Lemma assoc_mem_str {A : Type} (c : string) (m : list (string * A)) (a : A) :
  assoc c m = Some a -> mem_str c (map fst m) = true.
Proof.
  unfold mem_str. induction m as [ | [k v] m IH ]; simpl.
  - discriminate.
  - destruct (c =? k)%string; simpl; auto.
Qed.

Lemma unreadable_columns (df : Pandas.DataFrame) (c : string) :
  unreadable df c = negb (mem_str c (Pandas.columns df)).
Proof.
  unfold unreadable, Pandas.getitem, Pandas.columns.
  destruct (assoc c df) as [s | ] eqn:E.
  - now rewrite (assoc_mem_str _ _ E).
  - destruct (mem_str c (map fst df)) eqn:Hm; [ | reflexivity ].
    apply mem_str_assoc in Hm. destruct Hm as (a & Ha). congruence.
Qed.

Lemma _ensure_columns_unreadable (df : Pandas.DataFrame) (cols : list string) :
  _ensure_columns df cols
  = match filter (unreadable df) cols with
    | [] => Ok tt
    | missing => Err (CompileError (MissingColumns missing))
    end.
Proof.
  unfold _ensure_columns.
  rewrite (filter_ext _ _ (fun c => eq_sym (unreadable_columns df c))).
  now destruct (filter (unreadable df) cols).
Qed.

(** X1.  [_ensure_columns] succeeds exactly when the frame can give every
    requested column; when it fails, the [CompileError] lists every requested
    column the frame cannot give, in the order of the request, not only the
    first one. *)
Theorem _ensure_columns_reports_all_missing (df : Pandas.DataFrame)
    (cols : list string) :
  match _ensure_columns df cols with
  | Ok _ => forall c, In c cols -> exists s, Pandas.getitem df c = Ok s
  | Err e =>
      exists c0 rest,
        filter (unreadable df) cols = c0 :: rest
        /\ e = CompileError (MissingColumns (c0 :: rest))
  end.
Proof.
  rewrite _ensure_columns_unreadable.
  destruct (filter (unreadable df) cols) as [ | c0 rest] eqn:E.
  - intros c Hin. destruct (Pandas.getitem df c) as [s | e] eqn:Hg; [ eauto | ].
    assert (Hc : In c (filter (unreadable df) cols)).
    { apply filter_In. split; [ assumption | ]. unfold unreadable. now rewrite Hg. }
    rewrite E in Hc. contradiction.
  - now exists c0, rest.
Qed.

Lemma compile_figure_parsed
    (to_datetime : Pandas.Series -> option Pandas.Series) (st : Store) (df : ref) (spec : SpecInput)
    (model : VizSpec.t) :
  parse_viz_spec spec = Ok model ->
  compile_figure to_datetime st df spec
  = compile_figure to_datetime st df (Model model).
Proof.
  intros H. unfold compile_figure. rewrite H. reflexivity.
Qed.

(** X2.  The columns a spec binds ([x], every [y], [z], [text], empty names
    apart) are checked before any trace is built: when the table lacks one
    of them, [compile_figure] raises the [CompileError] that lists all the
    missing ones, whatever the chart type, and the store of frames is left
    exactly as it was (no copy is made). *)
Theorem missing_column_stops_compilation
    (to_datetime : Pandas.Series -> option Pandas.Series) (st : Store) (df : ref)
    (spec : SpecInput) (model : VizSpec.t) (c : string) :
  parse_viz_spec spec = Ok model ->
  In c (bound_columns (VizSpec.data model)) ->
  Pandas.getitem (deref st df) c = Err (PyRaise KeyError) ->
  exists missing,
    compile_figure to_datetime st df spec
    = (st, Err (CompileError (MissingColumns missing)))
    /\ In c missing
    /\ missing = filter (unreadable (deref st df))
                   (bound_columns (VizSpec.data model)).
Proof.
  intros Hp Hin Hg.
  assert (Hc : In c (filter (unreadable (deref st df))
                       (bound_columns (VizSpec.data model)))).
  { apply filter_In. split; [ assumption | ]. unfold unreadable. now rewrite Hg. }
  unfold compile_figure. rewrite Hp, _ensure_columns_unreadable.
  destruct (filter _ _) as [ | c0 rest]; [ contradiction | ].
  exists (c0 :: rest). auto.
Qed.

(** X3.  Whatever the input, a figure that [compile_figure] returns has at
    most 64 traces. *)
Theorem returned_figure_has_at_most_64_traces
    (to_datetime : Pandas.Series -> option Pandas.Series) (st : Store) (df : ref)
    (spec : SpecInput) (fig : Plotly.Figure) :
  snd (compile_figure to_datetime st df spec) = Ok fig ->
  (length (Plotly.data fig) <= 64)%nat.
Proof.
  intros H.
  destruct (parse_viz_spec spec) as [model | e] eqn:Hp.
  - rewrite (compile_figure_parsed to_datetime st df _ Hp) in H.
    apply compile_figure_Ok in H. now destruct H as (fig0 & _ & _ & _ & Hlen).
  - unfold compile_figure in H. rewrite Hp in H. discriminate H.
Qed.

Lemma missing_column_stops_compilation_witness :
  exists missing,
    compile_figure Examples.to_datetime_unchanged [Examples.sales] 0%nat
      (Model Examples.line_of_missing_model)
    = ([Examples.sales], Err (CompileError (MissingColumns missing)))
    /\ In "profit" missing.
Proof.
  destruct (@missing_column_stops_compilation Examples.to_datetime_unchanged
              [Examples.sales] 0%nat (Model Examples.line_of_missing_model)
              Examples.line_of_missing_model "profit" eq_refl)
    as (missing & H & Hin & _).
  - vm_compute. auto.
  - vm_compute. reflexivity.
  - exists missing. auto.
Defined.

Lemma returned_figure_has_at_most_64_traces_witness :
  exists fig,
    snd (compile_figure Examples.to_datetime_unchanged [Examples.sales] 0%nat
           (Dict Examples.bar_by_region)) = Ok fig
    /\ (length (Plotly.data fig) <= 64)%nat.
Proof.
  eexists. split.
  - vm_compute. reflexivity.
  - apply (@returned_figure_has_at_most_64_traces Examples.to_datetime_unchanged
             [Examples.sales] 0%nat (Dict Examples.bar_by_region)).
    vm_compute. reflexivity.
Defined.

(** ** One trace per [y] column *)

Lemma _apply_common_yaxis (tr : Plotly.Trace) (name_key : string) (spec : VizSpec.t) :
  Plotly.yaxis (_apply_common tr name_key spec) = Plotly.yaxis tr.
Proof.
  unfold _apply_common.
  repeat match goal with
         | |- context [match ?e with _ => _ end] => destruct e
         end; reflexivity.
Qed.

Lemma _route_axis_yaxis (tr : Plotly.Trace) (yc : string) (spec : VizSpec.t) :
  Plotly.yaxis (_route_axis tr (Some yc) spec)
  = match y2_for_of (VizSpec.data spec) with
    | Some y2 => if mem_str yc y2 then Some "y2" else Plotly.yaxis tr
    | None => Plotly.yaxis tr
    end.
Proof.
  unfold _route_axis. destruct (y2_for_of (VizSpec.data spec)) as [y2 | ].
  - now destruct (mem_str yc y2).
  - reflexivity.
Qed.

Lemma _apply_common_style (tr : Plotly.Trace) (name_key : string) (spec : VizSpec.t) :
  trace_style (_apply_common tr name_key spec) = trace_style tr.
Proof.
  unfold _apply_common.
  repeat match goal with
         | |- context [match ?e with _ => _ end] => destruct e
         end; reflexivity.
Qed.

Lemma _route_axis_style (tr : Plotly.Trace) (ycol : option string) (spec : VizSpec.t) :
  trace_style (_route_axis tr ycol spec) = trace_style tr.
Proof.
  unfold _route_axis.
  repeat match goal with
         | |- context [match ?e with _ => _ end] => destruct e
         end; reflexivity.
Qed.

Ltac keep_data spec :=
  match goal with
  | |- context [_route_axis (_apply_common ?t ?k spec) ?yc spec] =>
      let Hx := fresh "Hx" in
      let Hy := fresh "Hy" in
      let Ht := fresh "Ht" in
      let Hn := fresh "Hn" in
      destruct (cosmetics_keep_data t k yc spec) as (Hx & Hy & Ht & Hn);
      rewrite ?Hx, ?Hy, ?Ht, ?Hn;
      rewrite ?_route_axis_yaxis, ?_apply_common_yaxis
  end.

Lemma scatter_traces_list_y (fig0 fig1 : Plotly.Figure) (df : Pandas.DataFrame)
    (spec : VizSpec.t) (ys : list string) :
  ChartType.eqb (ChartSpec.type (VizSpec.chart spec)) ChartType.bar = false ->
  DataSpec.y (VizSpec.data spec) = Some (YList ys) ->
  series_by (VizSpec.data spec) = None ->
  scatter_traces fig0 df spec = Ok fig1 ->
  exists trs,
    Forall2 (shows_column spec df) ys trs
    /\ Plotly.data fig1 = Plotly.data fig0 ++ trs.
Proof.
  intros Hty Hy Hby H. unfold scatter_traces in H. rewrite Hy, Hby in H.
  bind_Ok H.
  refine (@for_each_Forall2 _ (shows_column spec df) _ _ _ _ _ H).
  intros f yc f' Hstep. cbv beta in Hstep. repeat bind_Ok Hstep.
  injection Hstep as <-. eexists. split; [ reflexivity | ].
  unfold shows_column, value_array.
  destruct (ChartSpec.type (VizSpec.chart spec)); try discriminate Hty;
    keep_data spec; simpl;
    (split; [ reflexivity | ]); (split; [ eauto | ]);
    now destruct (y2_for_of (VizSpec.data spec)).
Qed.

Lemma _add_bar_list_y (fig0 fig1 : Plotly.Figure) (df : Pandas.DataFrame)
    (spec : VizSpec.t) (ys : list string) :
  ChartSpec.type (VizSpec.chart spec) = ChartType.bar ->
  DataSpec.y (VizSpec.data spec) = Some (YList ys) ->
  series_by (VizSpec.data spec) = None ->
  _add_bar fig0 df spec = Ok fig1 ->
  exists trs,
    Forall2 (shows_column spec df) ys trs
    /\ Plotly.data fig1 = Plotly.data fig0 ++ trs.
Proof.
  intros Hty Hy Hby H. unfold _add_bar in H. rewrite Hy, Hby in H.
  cbv zeta in H. bind_Ok H.
  refine (@for_each_Forall2 _ (shows_column spec df) _ _ _ _ _ H).
  intros f yc f' Hstep. cbv beta in Hstep. bind_Ok Hstep.
  injection Hstep as <-. eexists. split; [ reflexivity | ].
  unfold shows_column, value_array. rewrite Hty.
  keep_data spec.
  destruct (ChartSpec.orientation (VizSpec.chart spec)) as [[ | ] | ];
    repeat bind_Ok E0; injection E0 as <-; simpl;
    (split; [ reflexivity | ]); (split; [ eauto | ]);
    now destruct (y2_for_of (VizSpec.data spec)).
Qed.

(** X4.  A list [y] without [series.by], in the line, scatter, area and bar
    families: whenever [compile_figure] returns a figure, it has exactly one
    trace per [y] column, in the order of the list; the k-th trace is named
    by the label of the k-th column (the column name when no label is
    given), carries all cells of that column, and sits on the secondary axis
    exactly when the column is listed in [y2_for]. *)
Theorem list_y_gives_one_trace_per_column
    (to_datetime : Pandas.Series -> option Pandas.Series)
    (st : Store) (df : ref) (m : VizSpec.t) (ys : list string)
    (fig : Plotly.Figure) :
  series_family (ChartSpec.type (VizSpec.chart m)) = true ->
  DataSpec.y (VizSpec.data m) = Some (YList ys) ->
  series_by (VizSpec.data m) = None ->
  snd (compile_figure to_datetime st df (Model m)) = Ok fig ->
  exists working : Pandas.DataFrame,
    (forall c, DataSpec.x (VizSpec.data m) <> Some c ->
       Pandas.getitem working c = Pandas.getitem (deref st df) c)
    /\ length (Plotly.data fig) = length ys
    /\ Forall2 (shows_column m working) ys (Plotly.data fig).
Proof.
  intros Hfam Hy Hby Hfig.
  apply compile_figure_Ok in Hfig.
  destruct Hfig as (fig0 & _ & Hbuilt & Hdata & _).
  assert (Hshape : exists working,
            (forall c, DataSpec.x (VizSpec.data m) <> Some c ->
               Pandas.getitem working c = Pandas.getitem (deref st df) c)
            /\ Forall2 (shows_column m working) ys (Plotly.data fig0)).
  { unfold add_traces in Hbuilt.
    destruct (ChartSpec.type (VizSpec.chart m)) eqn:Hty; try discriminate Hfam.
    1, 2, 4:
      unfold _add_scatter_family in Hbuilt;
      destruct (normalize_x_dtype to_datetime st df _) as [st' [r | e]] eqn:Hn;
      simpl in Hbuilt; [ | discriminate Hbuilt ];
      assert (Hnb : ChartType.eqb (ChartSpec.type (VizSpec.chart m)) ChartType.bar
                    = false) by (now rewrite Hty);
      apply (@scatter_traces_list_y _ _ _ _ _ Hnb Hy Hby) in Hbuilt;
      destruct Hbuilt as (trs & Hall & Hd);
      exists (deref st' r); split;
      [ intros c Hc; eapply normalize_x_dtype_other; eassumption
      | now rewrite Hd ].
    simpl in Hbuilt.
    apply (@_add_bar_list_y _ _ _ _ _ Hty Hy Hby) in Hbuilt.
    destruct Hbuilt as (trs & Hall & Hd).
    exists (deref st df). split; [ reflexivity | now rewrite Hd ]. }
  destruct Hshape as (working & Hother & Hall).
  exists working. rewrite Hdata. repeat split; auto.
  symmetry. eapply Forall2_length. eassumption.
Qed.

Lemma list_y_gives_one_trace_per_column_witness :
  exists fig working,
    snd (compile_figure Examples.to_datetime_unchanged [Examples.readings] 0%nat
           (Model Examples.two_lines_model)) = Ok fig
    /\ Forall2 (shows_column Examples.two_lines_model working) ["a"; "b"]
         (Plotly.data fig).
Proof.
  assert (Hfig : exists fig,
            snd (compile_figure Examples.to_datetime_unchanged [Examples.readings]
                   0%nat (Model Examples.two_lines_model)) = Ok fig)
    by (eexists; vm_compute; reflexivity).
  destruct Hfig as (fig & Hfig).
  destruct (@list_y_gives_one_trace_per_column
              Examples.to_datetime_unchanged [Examples.readings] 0%nat
              Examples.two_lines_model ["a"; "b"] fig
              eq_refl eq_refl eq_refl Hfig)
    as (working & _ & _ & Hall).
  exists fig, working. auto.
Defined.

(** ** What the builders add *)

Ltac run H :=
  cbv zeta in H;
  repeat first
    [ bind_Ok H
    | match type of H with
      | (match ?e with _ => _ end) = Ok _ => destruct e eqn:?; try discriminate H
      end ].

Lemma for_each_layout {A : Type}
    (body : Plotly.Figure -> A -> result Plotly.Figure) (items : list A) :
  (forall f a f', body f a = Ok f' -> Plotly.layout f' = Plotly.layout f) ->
  forall fig fig',
    for_each items body fig = Ok fig' -> Plotly.layout fig' = Plotly.layout fig.
Proof.
  intros Hbody. induction items as [ | a items IH ]; intros fig fig'; simpl.
  - intros H. now injection H as <-.
  - destruct (body fig a) as [f1 | e] eqn:E; simpl; [ | discriminate ].
    intros H. apply IH in H. rewrite H. eapply Hbody. eassumption.
Qed.

Ltac layout_kept H :=
  run H;
  first
    [ injection H as <-; reflexivity
    | apply for_each_layout in H;
      [ exact H
      | let Hs := fresh "Hs" in
        intros ? ? ? Hs; cbv beta iota in Hs; run Hs;
        injection Hs as <-; reflexivity ] ].

(** The builders add traces; the layout of the figure is not theirs. *)
Lemma add_traces_layout (to_datetime : Pandas.Series -> option Pandas.Series)
    (st : Store) (df : ref) (m : VizSpec.t) (fig0 : Plotly.Figure) :
  snd (add_traces to_datetime st df m) = Ok fig0 ->
  Plotly.layout fig0 = Plotly.layout Plotly.empty_figure.
Proof.
  unfold add_traces. intros H.
  destruct (ChartSpec.type (VizSpec.chart m)).
  1, 2, 8:
    unfold _add_scatter_family in H;
    destruct (normalize_x_dtype to_datetime st df _) as [st' [r | e]];
    simpl in H; [ | discriminate H ];
    unfold scatter_traces in H; layout_kept H.
  - simpl in H. unfold _add_bar in H. layout_kept H.
  - simpl in H. unfold _add_histogram in H. layout_kept H.
  - simpl in H. unfold _add_box in H. layout_kept H.
  - simpl in H. unfold _add_heatmap, heatmap_long_form, heatmap_fallback in H.
    layout_kept H.
  - simpl in H. unfold _add_pie in H. layout_kept H.
Qed.

Ltac one_trace H :=
  run H; injection H as <-; eexists; reflexivity.

Lemma add_traces_one (to_datetime : Pandas.Series -> option Pandas.Series)
    (st : Store) (df : ref) (m : VizSpec.t) (fig0 : Plotly.Figure) :
  series_family (ChartSpec.type (VizSpec.chart m)) = false
  \/ (is_y_list (DataSpec.y (VizSpec.data m)) = false
      /\ series_by (VizSpec.data m) = None) ->
  snd (add_traces to_datetime st df m) = Ok fig0 ->
  exists tr, Plotly.data fig0 = [tr].
Proof.
  unfold add_traces. intros Hcase H.
  destruct (ChartSpec.type (VizSpec.chart m)).
  1, 2, 8:
    destruct Hcase as [Hf | [Hl Hby]]; [ discriminate Hf | ];
    unfold _add_scatter_family in H;
    destruct (normalize_x_dtype to_datetime st df _) as [st' [r | e]];
    simpl in H; [ | discriminate H ];
    unfold scatter_traces in H; rewrite Hby in H;
    destruct (DataSpec.y (VizSpec.data m)) as [[c | l] | ];
    try discriminate Hl; one_trace H.
  - destruct Hcase as [Hf | [Hl Hby]]; [ discriminate Hf | ].
    simpl in H. unfold _add_bar in H. rewrite Hby in H.
    destruct (DataSpec.y (VizSpec.data m)) as [[c | l] | ];
      try discriminate Hl; one_trace H.
  - simpl in H. unfold _add_histogram in H. one_trace H.
  - simpl in H. unfold _add_box in H. one_trace H.
  - simpl in H. unfold _add_heatmap, heatmap_long_form, heatmap_fallback in H.
    one_trace H.
  - simpl in H. unfold _add_pie in H. one_trace H.
Qed.

(** X5.  Outside the two multi-trace strategies the figure has exactly one
    trace: a histogram, box, heatmap or pie chart always, and a line,
    scatter, area or bar chart whenever [y] is no list and [series.by] is
    not set. *)
Theorem single_strategy_gives_one_trace
    (to_datetime : Pandas.Series -> option Pandas.Series)
    (st : Store) (df : ref) (m : VizSpec.t) (fig : Plotly.Figure) :
  series_family (ChartSpec.type (VizSpec.chart m)) = false
  \/ (is_y_list (DataSpec.y (VizSpec.data m)) = false
      /\ series_by (VizSpec.data m) = None) ->
  snd (compile_figure to_datetime st df (Model m)) = Ok fig ->
  length (Plotly.data fig) = 1%nat.
Proof.
  intros Hcase Hfig. apply compile_figure_Ok in Hfig.
  destruct Hfig as (fig0 & _ & Hbuilt & Hdata & _).
  destruct (add_traces_one _ _ _ _ Hcase Hbuilt) as (tr & Htr).
  now rewrite Hdata, Htr.
Qed.

Lemma single_strategy_gives_one_trace_witness :
  exists fig,
    snd (compile_figure Examples.to_datetime_unchanged [Examples.counts] 0%nat
           (Model Examples.heatmap_model)) = Ok fig
    /\ length (Plotly.data fig) = 1%nat.
Proof.
  eexists. split.
  - vm_compute. reflexivity.
  - apply (@single_strategy_gives_one_trace Examples.to_datetime_unchanged
             [Examples.counts] 0%nat Examples.heatmap_model).
    + left. reflexivity.
    + vm_compute. reflexivity.
Defined.

(** ** The histogram *)

(** X6.  A histogram reads one column: [x] when it is set and not empty,
    the first [y] otherwise.  Whenever [compile_figure] returns a figure for
    a histogram spec, its only trace is a histogram of all cells of that
    column, with the [histnorm] of the chart section. *)
Theorem histogram_reads_x_else_first_y
    (to_datetime : Pandas.Series -> option Pandas.Series)
    (st : Store) (df : ref) (m : VizSpec.t) (fig : Plotly.Figure) :
  ChartSpec.type (VizSpec.chart m) = ChartType.histogram ->
  snd (compile_figure to_datetime st df (Model m)) = Ok fig ->
  exists col s tr,
    (if truthy_opt_str (DataSpec.x (VizSpec.data m))
     then DataSpec.x (VizSpec.data m) = Some col
     else first_y_or_none (DataSpec.y (VizSpec.data m)) = Ok (Some col))
    /\ Pandas.getitem (deref st df) col = Ok s
    /\ Plotly.data fig = [tr]
    /\ Plotly.type_ tr = Plotly.Histogram
    /\ Plotly.x tr = Some (Plotly.Column (Pandas.values s))
    /\ Plotly.histnorm tr
       = option_map HistNorm.value (ChartSpec.histnorm (VizSpec.chart m)).
Proof.
  intros Hty Hfig. apply compile_figure_Ok in Hfig.
  destruct Hfig as (fig0 & _ & Hbuilt & Hdata & _).
  unfold add_traces in Hbuilt. rewrite Hty in Hbuilt. simpl in Hbuilt.
  unfold _add_histogram in Hbuilt. cbv zeta in Hbuilt.
  bind_Ok Hbuilt. bind_Ok Hbuilt. injection Hbuilt as <-.
  destruct a as [col | ]; [ | discriminate E0 ].
  simpl in E0. destruct (Pandas.getitem (deref st df) col) as [s | e] eqn:Hs;
    [ | discriminate E0 ].
  injection E0 as <-.
  eexists col, s, _. rewrite Hdata.
  split.
  { destruct (truthy_opt_str (DataSpec.x (VizSpec.data m)));
      [ now injection E as -> | exact E ]. }
  split; [ exact Hs | ]. split; [ reflexivity | ].
  match goal with
  | |- context [_apply_common ?t ?k m] =>
      pose proof (_apply_common_core t k m) as Hcore;
      pose proof (_apply_common_style t k m) as Hstyle
  end.
  unfold trace_core in Hcore. injection Hcore as Hty' Hx _ _ _ _ _ _.
  unfold trace_style in Hstyle. injection Hstyle as _ _ _ _ Hh.
  rewrite Hx, Hty', Hh. auto.
Qed.

Lemma histogram_reads_x_else_first_y_witness :
  exists fig tr,
    snd (compile_figure Examples.to_datetime_unchanged [Examples.readings] 0%nat
           (Model Examples.histogram_model)) = Ok fig
    /\ Plotly.data fig = [tr]
    /\ Plotly.histnorm tr = Some "percent".
Proof.
  assert (Hfig : exists fig,
            snd (compile_figure Examples.to_datetime_unchanged [Examples.readings]
                   0%nat (Model Examples.histogram_model)) = Ok fig)
    by (eexists; vm_compute; reflexivity).
  destruct Hfig as (fig & Hfig).
  destruct (@histogram_reads_x_else_first_y
              Examples.to_datetime_unchanged [Examples.readings] 0%nat
              Examples.histogram_model fig eq_refl Hfig)
    as (col & s & tr & _ & _ & Hd & _ & _ & Hh).
  exists fig, tr. auto.
Defined.

(** ** Bars *)

(** X7.  A horizontal bar chart of one [y] column without [series.by]: the
    builder swaps the bindings before it reads them, so whenever
    [compile_figure] returns a figure, its only trace carries the cells of
    the [y] column on both axes, and no cell of the [x] column. *)
Theorem horizontal_bar_reads_only_y
    (to_datetime : Pandas.Series -> option Pandas.Series)
    (st : Store) (df : ref) (m : VizSpec.t) (yc : string)
    (fig : Plotly.Figure) :
  ChartSpec.type (VizSpec.chart m) = ChartType.bar ->
  ChartSpec.orientation (VizSpec.chart m) = Some Orientation.h ->
  DataSpec.y (VizSpec.data m) = Some (YCol yc) ->
  series_by (VizSpec.data m) = None ->
  snd (compile_figure to_datetime st df (Model m)) = Ok fig ->
  exists s tr,
    Pandas.getitem (deref st df) yc = Ok s
    /\ Plotly.data fig = [tr]
    /\ Plotly.x tr = Some (Plotly.Column (Pandas.values s))
    /\ Plotly.y tr = Some (Plotly.Column (Pandas.values s)).
Proof.
  intros Hty Hor Hy Hby Hfig. apply compile_figure_Ok in Hfig.
  destruct Hfig as (fig0 & _ & Hbuilt & Hdata & _).
  unfold add_traces in Hbuilt. rewrite Hty in Hbuilt. simpl in Hbuilt.
  unfold _add_bar in Hbuilt. rewrite Hy, Hby, Hor in Hbuilt.
  cbv zeta iota beta in Hbuilt. simpl first_y in Hbuilt.
  cbn [bind] in Hbuilt. simpl getitem_key in Hbuilt.
  bind_Ok Hbuilt. destruct (Pandas.getitem (deref st df) yc) as [s | e] eqn:Hs;
    [ | discriminate Hbuilt ].
  cbn [bind] in Hbuilt. injection Hbuilt as <-.
  exists s. eexists. rewrite Hdata.
  split; [ reflexivity | ]. split; [ reflexivity | ].
  keep_data m. simpl. auto.
Qed.

Lemma horizontal_bar_reads_only_y_witness :
  exists fig tr,
    snd (compile_figure Examples.to_datetime_unchanged [Examples.sales] 0%nat
           (Model Examples.horizontal_bar_model)) = Ok fig
    /\ Plotly.data fig = [tr]
    /\ Plotly.x tr = Plotly.y tr.
Proof.
  assert (Hfig : exists fig,
            snd (compile_figure Examples.to_datetime_unchanged [Examples.sales]
                   0%nat (Model Examples.horizontal_bar_model)) = Ok fig)
    by (eexists; vm_compute; reflexivity).
  destruct Hfig as (fig & Hfig).
  destruct (@horizontal_bar_reads_only_y
              Examples.to_datetime_unchanged [Examples.sales] 0%nat
              Examples.horizontal_bar_model "sales" fig
              eq_refl eq_refl eq_refl eq_refl Hfig)
    as (s & tr & _ & Hd & Hx & Hy).
  exists fig, tr. repeat split; auto. congruence.
Defined.

(** ** The layout *)

(** X8.  The layout of a returned figure is a function of the spec alone:
    the builders leave it empty, the layout section is copied field by
    field (and nothing but [barmode] is set when there is none), and
    [barmode] is set exactly for a bar chart that names one, however many
    traces the figure has. *)
Theorem layout_depends_on_the_spec_only
    (to_datetime : Pandas.Series -> option Pandas.Series)
    (st : Store) (df : ref) (m : VizSpec.t) (fig : Plotly.Figure) :
  snd (compile_figure to_datetime st df (Model m)) = Ok fig ->
  Plotly.barmode (Plotly.layout fig)
  = match ChartSpec.type (VizSpec.chart m), ChartSpec.barmode (VizSpec.chart m) with
    | ChartType.bar, Some b => Some (BarMode.value b)
    | _, _ => None
    end
  /\ match VizSpec.layout m with
     | Some l =>
         Plotly.title (Plotly.layout fig) = LayoutSpec.title l
         /\ Plotly.xaxis_title (Plotly.layout fig) = LayoutSpec.xaxis_title l
         /\ Plotly.yaxis_title (Plotly.layout fig) = LayoutSpec.yaxis_title l
         /\ Plotly.hovermode (Plotly.layout fig)
            = option_map HoverMode.value (LayoutSpec.hovermode l)
         /\ Plotly.template (Plotly.layout fig) = LayoutSpec.template l
         /\ Plotly.colorway (Plotly.layout fig) = LayoutSpec.colorway l
         /\ Plotly.legend (Plotly.layout fig) = LayoutSpec.legend l
         /\ Plotly.height (Plotly.layout fig) = LayoutSpec.height l
         /\ Plotly.width (Plotly.layout fig) = LayoutSpec.width l
     | None =>
         Plotly.layout fig
         = Plotly.mkLayout None None None None None None None None None None
             (Plotly.barmode (Plotly.layout fig))
     end.
Proof.
  rewrite compile_figure_Model.
  destruct (_ensure_columns _ _) as [ [] | e]; [ | discriminate ].
  destruct (snd (add_traces to_datetime st df m)) as [fig0 | e] eqn:Hbuilt;
    [ | discriminate ].
  apply add_traces_layout in Hbuilt.
  cbn [bind]. destruct (_guard_traces _ 64) as [ [] | e]; [ | discriminate ].
  cbn [bind]. intros H. injection H as <-.
  destruct fig0 as [trs lay]. simpl in Hbuilt. subst lay.
  destruct (VizSpec.layout m) as [l | ],
    (ChartSpec.type (VizSpec.chart m)),
    (ChartSpec.barmode (VizSpec.chart m)) as [b | ];
    simpl; repeat split; reflexivity.
Qed.

Lemma layout_depends_on_the_spec_only_witness :
  exists fig,
    snd (compile_figure Examples.to_datetime_unchanged [Examples.sales] 0%nat
           (Model Examples.horizontal_bar_model)) = Ok fig
    /\ Plotly.barmode (Plotly.layout fig) = Some "stack".
Proof.
  eexists. split.
  - vm_compute. reflexivity.
  - apply (@layout_depends_on_the_spec_only Examples.to_datetime_unchanged
             [Examples.sales] 0%nat Examples.horizontal_bar_model).
    vm_compute. reflexivity.
Defined.

(** ** The pie *)

(** X9.  A pie chart needs a non-empty [x] (labels) and a non-empty [y]
    (values).  The schema does not ask for them; when one is absent and the
    bound columns exist, [compile_figure] raises the [CompileError] for the
    missing binding and leaves the store as it was. *)
Theorem pie_without_binding_is_a_compile_error
    (to_datetime : Pandas.Series -> option Pandas.Series)
    (st : Store) (df : ref) (m : VizSpec.t) (val_col : option string) :
  ChartSpec.type (VizSpec.chart m) = ChartType.pie ->
  first_y_or_none (DataSpec.y (VizSpec.data m)) = Ok val_col ->
  some_if_truthy (DataSpec.x (VizSpec.data m)) = None
  \/ some_if_truthy val_col = None ->
  _ensure_columns (deref st df) (bound_columns (VizSpec.data m)) = Ok tt ->
  compile_figure to_datetime st df (Model m)
  = (st, Err (CompileError MissingBinding)).
Proof.
  intros Hty Hy Hmiss Hcols.
  unfold compile_figure. simpl parse_viz_spec. cbv iota zeta. rewrite Hcols.
  unfold add_traces. rewrite Hty. unfold _add_pie. rewrite Hy. cbn [bind].
  destruct Hmiss as [Hx | Hv].
  - now rewrite Hx.
  - rewrite Hv. now destruct (some_if_truthy (DataSpec.x (VizSpec.data m))).
Qed.

Lemma pie_without_binding_is_a_compile_error_witness :
  VizSpec.validate Examples.pie_without_values
  = Ok Examples.pie_without_values_model
  /\ compile_figure Examples.to_datetime_unchanged [Examples.sales] 0%nat
       (Model Examples.pie_without_values_model)
     = ([Examples.sales], Err (CompileError MissingBinding)).
Proof.
  split.
  - vm_compute. reflexivity.
  - apply (@pie_without_binding_is_a_compile_error Examples.to_datetime_unchanged
             [Examples.sales] 0%nat Examples.pie_without_values_model None).
    + reflexivity.
    + reflexivity.
    + right. reflexivity.
    + vm_compute. reflexivity.
Defined.

(** ** What a validated spec guarantees *)

Lemma validated_sections (raw : list (string * json)) (m : VizSpec.t) :
  VizSpec.validate raw = Ok m ->
  exists rc rd,
    ChartSpec.validate rc = Valid (VizSpec.chart m)
    /\ DataSpec.validate rd = Valid (VizSpec.data m).
Proof.
  intros H. apply validate_Ok in H. destruct H as (Hc & Hd & _).
  unfold VizSpec.field_chart in Hc. apply at_loc_Valid in Hc.
  apply required_model_Valid in Hc. destruct Hc as (rc & _ & Hc).
  unfold VizSpec.field_data in Hd. apply at_loc_Valid in Hd.
  apply required_model_Valid in Hd. destruct Hd as (rd & _ & Hd).
  now exists rc, rd.
Qed.

Lemma ChartSpec_validate_normalized (rc : list (string * json)) (c : ChartSpec.t) :
  ChartSpec.validate rc = Valid c ->
  exists values, c = ChartSpec._defaults_and_semantics values.
Proof.
  unfold ChartSpec.validate. intros H. apply and_then_Valid in H.
  destruct H as (values & _ & H). injection H as <-. now exists values.
Qed.

(** X10.  The chart section of a validated spec is normalised: a line or
    area chart always has a mode (lines when none was given), an area chart
    never has the mode markers, an orientation is kept for bar charts only
    and a histogram normalisation for histograms only. *)
Theorem validated_chart_is_normalized (raw : list (string * json))
    (m : VizSpec.t) :
  VizSpec.validate raw = Ok m ->
  (is_line_or_area (ChartSpec.type (VizSpec.chart m)) = true ->
     exists mode, ChartSpec.mode (VizSpec.chart m) = Some mode)
  /\ (ChartSpec.type (VizSpec.chart m) = ChartType.area ->
        ChartSpec.mode (VizSpec.chart m) = Some Mode.lines
        \/ ChartSpec.mode (VizSpec.chart m) = Some Mode.lines_markers)
  /\ (ChartType.eqb (ChartSpec.type (VizSpec.chart m)) ChartType.bar = false ->
        ChartSpec.orientation (VizSpec.chart m) = None)
  /\ (ChartType.eqb (ChartSpec.type (VizSpec.chart m)) ChartType.histogram = false ->
        ChartSpec.histnorm (VizSpec.chart m) = None).
Proof.
  intros H. destruct (@validated_sections raw m H) as (rc & rd & Hc & _).
  apply validate_Ok in H. destruct H as (_ & _ & Hchk & _).
  apply ChartSpec_validate_normalized in Hc. destruct Hc as (values & Hc).
  unfold VizSpec._semantic_checks in Hchk.
  repeat (apply next_Passed in Hchk; destruct Hchk as (_ & Hchk)).
  rewrite Hc in *. clear Hc.
  destruct values as [ty mo ori bm hn].
  unfold ChartSpec._defaults_and_semantics in *.
  cbn [ChartSpec.type ChartSpec.mode ChartSpec.orientation ChartSpec.histnorm] in *.
  repeat split.
  - intros Hla. unfold is_line_or_area in Hla. rewrite Hla.
    destruct mo; eauto.
  - intros ->. simpl in *. destruct mo as [[ | | ] | ]; auto; discriminate Hchk.
  - intros ->. reflexivity.
  - intros ->. reflexivity.
Qed.

Lemma validated_chart_is_normalized_witness :
  exists m,
    VizSpec.validate Examples.full_spec = Ok m
    /\ ChartSpec.mode (VizSpec.chart m) = Some Mode.lines
    /\ ChartSpec.orientation (VizSpec.chart m) = None
    /\ ChartSpec.histnorm (VizSpec.chart m) = None.
Proof.
  assert (Hm : exists m, VizSpec.validate Examples.full_spec = Ok m)
    by (eexists; vm_compute; reflexivity).
  destruct Hm as (m & Hm). exists m.
  destruct (@validated_chart_is_normalized Examples.full_spec m Hm)
    as (_ & _ & Ho & Hh).
  assert (Hty : ChartSpec.type (VizSpec.chart m) = ChartType.area
                /\ ChartSpec.mode (VizSpec.chart m) = Some Mode.lines).
  { revert Hm. vm_compute. intros Hm. now injection Hm as <-. }
  destruct Hty as (Hty & Hmo).
  repeat split; auto.
  - apply Ho. now rewrite Hty.
  - apply Hh. now rewrite Hty.
Defined.

Lemma optional_Some {A : Type} (default : option A) (validate : json -> field A)
    (raw : option json) (a : A) :
  optional default validate raw = Valid (Some a) ->
  (raw = None /\ default = Some a) \/ exists j, raw = Some j /\ validate j = Valid a.
Proof.
  destruct raw as [j | ]; simpl.
  - intros H. right. exists j. split; [ reflexivity | ].
    destruct j; try discriminate H;
      apply and_then_Valid in H; destruct H as (a' & Hv & Ha);
      injection Ha as <-; exact Hv.
  - intros H. injection H as ->. now left.
Qed.

Lemma model_validator_Valid {M : Type}
    (validate : list (string * json) -> field M) (j : json) (m : M) :
  model_validator validate j = Valid m ->
  exists members, j = JObj members /\ validate members = Valid m.
Proof.
  destruct j; try discriminate. simpl. intros H. eauto.
Qed.

Lemma int_between_range (lo hi : Z) (j : json) (z : Z) :
  int_between lo hi j = Valid z -> lo <= z <= hi.
Proof.
  unfold int_between. intros H. apply and_then_Valid in H.
  destruct H as (z' & _ & H).
  destruct (Z.ltb_spec z' lo); [ discriminate | ].
  destruct (Z.ltb_spec hi z'); [ discriminate | ].
  injection H as <-. lia.
Qed.

Lemma float_between_range (lo hi : float) (j : json) (f : float) :
  float_between lo hi j = Valid f ->
  PrimFloat.leb lo f = true /\ PrimFloat.leb f hi = true.
Proof.
  unfold float_between. intros H. apply and_then_Valid in H.
  destruct H as (f' & _ & H).
  destruct (PrimFloat.leb lo f') eqn:E1; simpl in H; [ | discriminate H ].
  destruct (PrimFloat.leb f' hi) eqn:E2; simpl in H; [ | discriminate H ].
  injection H as <-. auto.
Qed.

Lemma DataSpec_validate_fields (rd : list (string * json)) (d : DataSpec.t) :
  DataSpec.validate rd = Valid d ->
  optional None (fun j => and_then (DataSpec.y_validator j) DataSpec._unique_y_list)
    (assoc "y" rd) = Valid (DataSpec.y d)
  /\ optional None (model_validator EncodingsSpec.validate) (assoc "encodings" rd)
     = Valid (DataSpec.encodings d).
Proof.
  intros H. unfold DataSpec.validate in H. split_fields H. subst.
  cbn [DataSpec.y DataSpec.encodings]. split; assumption.
Qed.

Lemma EncodingsSpec_validate_fields (re : list (string * json)) (e : EncodingsSpec.t) :
  EncodingsSpec.validate re = Valid e ->
  optional (Some 6) (int_between 1 64) (assoc "marker_size" re)
  = Valid (EncodingsSpec.marker_size e)
  /\ optional (Some 0x1.ccccccccccccdp-1%float) (float_between 0%float 1%float)
       (assoc "opacity" re) = Valid (EncodingsSpec.opacity e).
Proof.
  intros H. unfold EncodingsSpec.validate in H. split_fields H. subst.
  cbn [EncodingsSpec.marker_size EncodingsSpec.opacity]. split; assumption.
Qed.

Lemma LayoutSpec_validate_fields (rl : list (string * json)) (l : LayoutSpec.t) :
  LayoutSpec.validate rl = Valid l ->
  optional (Some 450) (int_between 200 2000) (assoc "height" rl)
  = Valid (LayoutSpec.height l)
  /\ optional None (int_between 200 4000) (assoc "width" rl)
     = Valid (LayoutSpec.width l).
Proof.
  intros H. unfold LayoutSpec.validate in H. split_fields H. subst.
  cbn [LayoutSpec.height LayoutSpec.width]. split; assumption.
Qed.

(** X11.  The numbers of a validated spec are within their bounds, given or
    defaulted: a marker size between 1 and 64, an opacity between 0 and 1, a
    height between 200 and 2000 and a width between 200 and 4000. *)
Theorem validated_numbers_are_in_range (raw : list (string * json))
    (m : VizSpec.t) :
  VizSpec.validate raw = Ok m ->
  (forall e, DataSpec.encodings (VizSpec.data m) = Some e ->
     (forall z, EncodingsSpec.marker_size e = Some z -> 1 <= z <= 64)
     /\ (forall f, EncodingsSpec.opacity e = Some f ->
           PrimFloat.leb 0 f = true /\ PrimFloat.leb f 1 = true))
  /\ (forall l, VizSpec.layout m = Some l ->
        (forall h, LayoutSpec.height l = Some h -> 200 <= h <= 2000)
        /\ (forall w, LayoutSpec.width l = Some w -> 200 <= w <= 4000)).
Proof.
  intros H. destruct (@validated_sections raw m H) as (rc & rd & _ & Hd).
  apply validate_Ok in H. destruct H as (_ & _ & _ & _ & Hl & _).
  split.
  - intros e He. apply DataSpec_validate_fields in Hd. destruct Hd as (_ & H).
    rewrite He in H. apply optional_Some in H.
    destruct H as [[_ H] | (j & _ & H)]; [ discriminate H | ].
    apply model_validator_Valid in H. destruct H as (re & _ & H).
    apply EncodingsSpec_validate_fields in H. destruct H as (Hms & Hop).
    split.
    + intros z Hz. rewrite Hz in Hms. apply optional_Some in Hms.
      destruct Hms as [[_ Hms] | (j' & _ & Hms)];
        [ injection Hms as <-; lia | now apply int_between_range in Hms ].
    + intros f Hf. rewrite Hf in Hop. apply optional_Some in Hop.
      destruct Hop as [[_ Hop] | (j' & _ & Hop)];
        [ injection Hop as <-; split; reflexivity
        | now apply float_between_range in Hop ].
  - intros l Hlay. rewrite Hlay in Hl. apply optional_Some in Hl.
    destruct Hl as [[_ Hl] | (j & _ & Hl)]; [ discriminate Hl | ].
    apply model_validator_Valid in Hl. destruct Hl as (rl & _ & Hl).
    apply LayoutSpec_validate_fields in Hl. destruct Hl as (Hh & Hw).
    split.
    + intros h Hh'. rewrite Hh' in Hh. apply optional_Some in Hh.
      destruct Hh as [[_ Hh] | (j' & _ & Hh)];
        [ injection Hh as <-; lia | now apply int_between_range in Hh ].
    + intros w Hw'. rewrite Hw' in Hw. apply optional_Some in Hw.
      destruct Hw as [[_ Hw] | (j' & _ & Hw)];
        [ discriminate Hw | now apply int_between_range in Hw ].
Qed.

Lemma validated_numbers_are_in_range_witness :
  exists m e z,
    VizSpec.validate Examples.full_spec = Ok m
    /\ DataSpec.encodings (VizSpec.data m) = Some e
    /\ EncodingsSpec.marker_size e = Some z
    /\ 1 <= z <= 64.
Proof.
  assert (Hm : exists m, VizSpec.validate Examples.full_spec = Ok m)
    by (eexists; vm_compute; reflexivity).
  destruct Hm as (m & Hm).
  assert (He : exists e, DataSpec.encodings (VizSpec.data m) = Some e
                         /\ EncodingsSpec.marker_size e = Some 6).
  { revert Hm. vm_compute. intros Hm. injection Hm as <-.
    eexists. split; reflexivity. }
  destruct He as (e & He & Hz).
  exists m, e, 6.
  split; [ exact Hm | ]. split; [ exact He | ]. split; [ exact Hz | ].
  destruct (@validated_numbers_are_in_range Examples.full_spec m Hm) as (Henc & _).
  destruct (Henc e He) as (Hr & _). exact (Hr 6 Hz).
Defined.

Lemma has_dup_NoDup (l : list string) : has_dup l = false <-> NoDup l.
Proof.
  induction l as [ | s l IH ]; simpl.
  - split; [ constructor | reflexivity ].
  - rewrite orb_false_iff, IH. split.
    + intros [Hm Hn]. constructor; [ | assumption ].
      intros Hin. apply mem_str_In in Hin. congruence.
    + intros Hn. inversion Hn as [ | ? ? Hnot Hrest ]; subst. split; [ | assumption ].
      destruct (mem_str s l) eqn:E; [ | reflexivity ].
      apply mem_str_In in E. contradiction.
Qed.

Lemma set_minus_nil (a b : list string) :
  truthy_list (set_minus a b) = false -> incl a b.
Proof.
  unfold set_minus. intros H c Hc.
  destruct (mem_str c b) eqn:E; [ now apply mem_str_In | ].
  assert (Hin : In c (filter (fun s => negb (mem_str s b)) a)).
  { apply filter_In. now rewrite E. }
  destruct (filter _ a); [ contradiction | discriminate ].
Qed.

(** X12.  A validated spec whose [y] is a list plots distinct columns: the
    list is not empty and names no column twice, [series.by] is not in
    force, and every column routed to the secondary axis by [y2_for] is one
    of the list. *)
Theorem validated_y_list_is_consistent (raw : list (string * json))
    (m : VizSpec.t) (ys : list string) :
  VizSpec.validate raw = Ok m ->
  DataSpec.y (VizSpec.data m) = Some (YList ys) ->
  (exists y0 rest, ys = y0 :: rest)
  /\ NoDup ys
  /\ series_by (VizSpec.data m) = None
  /\ (forall y2, y2_for_of (VizSpec.data m) = Some y2 -> incl y2 ys).
Proof.
  intros H Hy. destruct (@validated_sections raw m H) as (rc & rd & _ & Hd).
  apply validate_Ok in H. destruct H as (_ & _ & Hchk & _).
  apply DataSpec_validate_fields in Hd. destruct Hd as (Hyf & _).
  rewrite Hy in Hyf. apply optional_Some in Hyf.
  destruct Hyf as [[_ Hyf] | (j & _ & Hyf)]; [ discriminate Hyf | ].
  apply and_then_Valid in Hyf. destruct Hyf as (y0 & _ & Hu).
  assert (Hlist : truthy_list ys = true /\ has_dup ys = false).
  { unfold DataSpec._unique_y_list in Hu. destruct y0 as [c | l].
    - discriminate Hu.
    - destruct (truthy_list l) eqn:E1; simpl in Hu; [ | discriminate Hu ].
      destruct (has_dup l) eqn:E2; [ discriminate Hu | ].
      injection Hu as <-. auto. }
  destruct Hlist as (Hne & Hnd).
  unfold VizSpec._semantic_checks in Hchk.
  apply next_Passed in Hchk. destruct Hchk as (_ & Hchk).
  apply next_Passed in Hchk. destruct Hchk as (Hy2 & Hchk).
  apply next_Passed in Hchk. destruct Hchk as (Hby & _).
  rewrite Hy in Hy2, Hby. simpl is_y_list in Hby. simpl andb in Hby.
  split; [ destruct ys; [ discriminate Hne | eauto ] | ].
  split; [ now apply has_dup_NoDup | ].
  split.
  - destruct (series_by (VizSpec.data m)) as [g | ] eqn:Hg; [ | reflexivity ].
    rewrite <- Hg in Hby. rewrite (series_by_truthy _ Hg) in Hby. discriminate Hby.
  - intros y2 Hy2for. rewrite Hy2for in Hy2. apply set_minus_nil.
    now destruct (truthy_list (set_minus y2 ys)).
Qed.

Lemma validated_y_list_is_consistent_witness :
  VizSpec.validate Examples.two_lines = Ok Examples.two_lines_model
  /\ NoDup ["a"; "b"]
  /\ incl ["b"] ["a"; "b"].
Proof.
  assert (Hm : VizSpec.validate Examples.two_lines = Ok Examples.two_lines_model)
    by (vm_compute; reflexivity).
  destruct (@validated_y_list_is_consistent Examples.two_lines
              Examples.two_lines_model ["a"; "b"] Hm eq_refl)
    as (_ & Hnd & _ & Hy2).
  split; [ exact Hm | ]. split; [ exact Hnd | ]. apply Hy2. reflexivity.
Defined.

(** X13.  A validated spec has the bindings its chart type cannot do
    without at validation time: a heatmap has [x], [y] and [z], and a
    histogram has a non-empty [x] or a non-empty [y]. *)
Theorem validated_spec_has_required_bindings (raw : list (string * json))
    (m : VizSpec.t) :
  VizSpec.validate raw = Ok m ->
  (ChartSpec.type (VizSpec.chart m) = ChartType.heatmap ->
     exists x y z,
       DataSpec.x (VizSpec.data m) = Some x
       /\ DataSpec.y (VizSpec.data m) = Some y
       /\ DataSpec.z (VizSpec.data m) = Some z)
  /\ (ChartSpec.type (VizSpec.chart m) = ChartType.histogram ->
        truthy_opt_str (DataSpec.x (VizSpec.data m)) = true
        \/ truthy_y (DataSpec.y (VizSpec.data m)) = true).
Proof.
  intros H. apply validate_Ok in H. destruct H as (_ & _ & Hchk & _).
  split.
  - intros Hty. now apply (heatmap_bindings _ _ Hchk).
  - intros Hty. unfold VizSpec._semantic_checks in Hchk.
    do 3 (apply next_Passed in Hchk; destruct Hchk as (_ & Hchk)).
    apply next_Passed in Hchk. destruct Hchk as (Hh & _).
    rewrite Hty in Hh. simpl ChartType.eqb in Hh. cbv iota in Hh.
    destruct (truthy_opt_str (DataSpec.x (VizSpec.data m))); [ now left | ].
    destruct (truthy_y (DataSpec.y (VizSpec.data m))); [ now right | ].
    discriminate Hh.
Qed.

Lemma validated_spec_has_required_bindings_witness :
  VizSpec.validate Examples.heatmap_spec = Ok Examples.heatmap_model
  /\ exists x y z,
       DataSpec.x (VizSpec.data Examples.heatmap_model) = Some x
       /\ DataSpec.y (VizSpec.data Examples.heatmap_model) = Some y
       /\ DataSpec.z (VizSpec.data Examples.heatmap_model) = Some z.
Proof.
  assert (Hm : VizSpec.validate Examples.heatmap_spec = Ok Examples.heatmap_model)
    by (vm_compute; reflexivity).
  split; [ exact Hm | ].
  apply (@validated_spec_has_required_bindings Examples.heatmap_spec
           Examples.heatmap_model Hm).
  reflexivity.
Defined.

(** ** How a rejected input is reported *)


















(** ** Style of the scatter family *)

Lemma Forall2_Forall_right {A B : Type} (P : B -> Prop) (l : list A) (l' : list B) :
  Forall2 (fun _ b => P b) l l' -> Forall P l'.
Proof.
  induction 1; constructor; auto.
Qed.

Lemma for_each_Forall {A : Type} (P : Plotly.Trace -> Prop)
    (body : Plotly.Figure -> A -> result Plotly.Figure) (items : list A) :
  (forall f a f', body f a = Ok f' ->
     exists tr, f' = Plotly.add_trace f tr /\ P tr) ->
  forall fig fig',
    for_each items body fig = Ok fig' ->
    exists trs, Forall P trs /\ Plotly.data fig' = Plotly.data fig ++ trs.
Proof.
  intros Hbody fig fig' H.
  destruct (@for_each_Forall2 A (fun _ tr => P tr) body items Hbody fig fig' H)
    as (trs & Hall & Hd).
  exists trs. split; [ | assumption ]. eapply Forall2_Forall_right. eassumption.
Qed.

Lemma cosmetics_keep_style (tr : Plotly.Trace) (name_key : string)
    (ycol : option string) (spec : VizSpec.t) :
  let tr' := _route_axis (_apply_common tr name_key spec) ycol spec in
  Plotly.type_ tr' = Plotly.type_ tr /\ trace_style tr' = trace_style tr.
Proof.
  intros tr'. unfold tr'. split.
  - assert (H : trace_core (_route_axis (_apply_common tr name_key spec) ycol spec)
                = trace_core tr)
      by now rewrite _route_axis_core, _apply_common_core.
    unfold trace_core in H. now injection H.
  - now rewrite _route_axis_style, _apply_common_style.
Qed.

Lemma scatter_traces_style (fig0 fig1 : Plotly.Figure) (df : Pandas.DataFrame)
    (spec : VizSpec.t) :
  scatter_traces fig0 df spec = Ok fig1 ->
  exists trs,
    Forall (fun tr =>
              Plotly.type_ tr = Plotly.Scatter
              /\ trace_style tr
                 = trace_style
                     (go_Scatter None None
                        (match ChartSpec.mode (VizSpec.chart spec) with
                         | Some m => Mode.value m
                         | None =>
                             if is_line_or_area (ChartSpec.type (VizSpec.chart spec))
                             then Mode.value Mode.lines
                             else Mode.value Mode.markers
                         end) "" None
                        (if ChartType.eqb (ChartSpec.type (VizSpec.chart spec))
                              ChartType.area
                         then Some "tozeroy" else None)
                        (if ChartType.eqb (ChartSpec.type (VizSpec.chart spec))
                              ChartType.area
                         then match DataSpec.axis (VizSpec.data spec) with
                              | Some a => some_if_truthy (AxisSpec.area_stackgroup a)
                              | None => None
                              end
                         else None))) trs
    /\ Plotly.data fig1 = Plotly.data fig0 ++ trs.
Proof.
  intros H. unfold scatter_traces in H. cbv zeta in H.
  set (mode := match ChartSpec.mode (VizSpec.chart spec) with
               | Some m => Mode.value m
               | None =>
                   if is_line_or_area (ChartSpec.type (VizSpec.chart spec))
                   then Mode.value Mode.lines
                   else Mode.value Mode.markers
               end) in *.
  set (fill := if ChartType.eqb (ChartSpec.type (VizSpec.chart spec)) ChartType.area
               then Some "tozeroy" else None) in *.
  set (stackgroup :=
         if ChartType.eqb (ChartSpec.type (VizSpec.chart spec)) ChartType.area
         then match DataSpec.axis (VizSpec.data spec) with
              | Some a => some_if_truthy (AxisSpec.area_stackgroup a)
              | None => None
              end
         else None) in *.
  bind_Ok H.
  assert (Hloop :
    (exists tr, fig1 = Plotly.add_trace fig0 tr
                /\ Plotly.type_ tr = Plotly.Scatter
                /\ trace_style tr
                   = trace_style (go_Scatter None None mode "" None fill stackgroup))
    \/ exists (A : Type) (items : list A) body,
         for_each items body fig0 = Ok fig1
         /\ forall f a f', body f a = Ok f' ->
              exists tr, f' = Plotly.add_trace f tr
                /\ Plotly.type_ tr = Plotly.Scatter
                /\ trace_style tr
                   = trace_style (go_Scatter None None mode "" None fill stackgroup)).
  { destruct (DataSpec.y (VizSpec.data spec)) as [[c | l] | ],
      (series_by (VizSpec.data spec)) as [g | ]; cbv beta iota in H;
    first
      [ (* a loop *)
        right; repeat bind_Ok H;
        eexists _, _, _; split; [ exact H | ];
        let Hs := fresh "Hs" in
        intros ? ? ? Hs; cbv beta iota in Hs;
        repeat first [ bind_Ok Hs
                     | match type of Hs with
                       | (let (_, _) := ?kg in _) = Ok _ => destruct kg
                       end ];
        injection Hs as <-; eexists; split; [ reflexivity | ];
        match goal with
        | |- context [_route_axis (_apply_common ?t ?k spec) ?yc spec] =>
            destruct (cosmetics_keep_style t k yc spec) as (Hk1 & Hk2);
            rewrite Hk1, Hk2
        end; split; reflexivity
      | (* one trace *)
        left; repeat bind_Ok H; injection H as <-;
        eexists; split; [ reflexivity | ];
        match goal with
        | |- context [_route_axis (_apply_common ?t ?k spec) ?yc spec] =>
            destruct (cosmetics_keep_style t k yc spec) as (Hk1 & Hk2);
            rewrite Hk1, Hk2
        end; split; reflexivity ]. }
  destruct Hloop as [(tr & -> & Hty & Hst) | (A & items & body & Hfor & Hstep)].
  - exists [tr]. split; [ | reflexivity ]. constructor; auto.
  - eapply for_each_Forall in Hfor; [ exact Hfor | ].
    intros f item f' Hb. destruct (Hstep f item f' Hb) as (tr & Hf & Hty & Hst).
    exists tr. auto.
Qed.

Lemma validated_line_or_area_has_mode (raw : list (string * json)) (m : VizSpec.t) :
  VizSpec.validate raw = Ok m ->
  is_line_or_area (ChartSpec.type (VizSpec.chart m)) = true ->
  exists mode, ChartSpec.mode (VizSpec.chart m) = Some mode.
Proof.
  intros H Hla. destruct (@validated_sections raw m H) as (rc & rd & Hc & _).
  apply ChartSpec_validate_normalized in Hc. destruct Hc as (values & Hc).
  rewrite Hc in *. unfold ChartSpec._defaults_and_semantics in *.
  cbn [ChartSpec.type ChartSpec.mode] in *.
  unfold is_line_or_area in Hla. rewrite Hla.
  destruct (ChartSpec.mode values); eauto.
Qed.

(** X19.  Line, scatter and area charts are all drawn as scatter traces
    that differ in style only.  For a validated spec, every trace of a
    returned figure has the mode of the chart section (markers when a
    scatter chart names none; a line or area chart always has one after
    validation), is filled to zero exactly for an area chart, and belongs to
    a stack group only for an area chart with a non-empty
    [axis.area_stackgroup]. *)
Theorem scatter_family_traces_share_one_style
    (to_datetime : Pandas.Series -> option Pandas.Series)
    (st : Store) (df : ref) (raw : list (string * json)) (m : VizSpec.t)
    (fig : Plotly.Figure) :
  VizSpec.validate raw = Ok m ->
  In (ChartSpec.type (VizSpec.chart m))
     [ChartType.line; ChartType.scatter; ChartType.area] ->
  snd (compile_figure to_datetime st df (Model m)) = Ok fig ->
  Forall (fun tr =>
            Plotly.type_ tr = Plotly.Scatter
            /\ Plotly.mode tr
               = Some (match ChartSpec.mode (VizSpec.chart m) with
                       | Some mode => Mode.value mode
                       | None => "markers"
                       end)
            /\ Plotly.fill tr
               = (if ChartType.eqb (ChartSpec.type (VizSpec.chart m)) ChartType.area
                  then Some "tozeroy" else None)
            /\ Plotly.stackgroup tr
               = (if ChartType.eqb (ChartSpec.type (VizSpec.chart m)) ChartType.area
                  then match DataSpec.axis (VizSpec.data m) with
                       | Some a => some_if_truthy (AxisSpec.area_stackgroup a)
                       | None => None
                       end
                  else None))
         (Plotly.data fig).
Proof.
  intros Hvalid Hty Hfig.
  pose proof (@validated_line_or_area_has_mode raw m Hvalid) as Hmode.
  apply compile_figure_Ok in Hfig.
  destruct Hfig as (fig0 & _ & Hbuilt & Hdata & _).
  rewrite Hdata. clear Hdata.
  assert (Hst : exists st' r,
            scatter_traces Plotly.empty_figure (deref st' r) m = Ok fig0).
  { unfold add_traces in Hbuilt.
    destruct (ChartSpec.type (VizSpec.chart m));
      try (exfalso; simpl in Hty; intuition discriminate);
      unfold _add_scatter_family in Hbuilt;
      destruct (normalize_x_dtype to_datetime st df _) as [st' [r | e]];
      simpl in Hbuilt; [ eauto | discriminate Hbuilt
                       | eauto | discriminate Hbuilt
                       | eauto | discriminate Hbuilt ]. }
  destruct Hst as (st' & r & Hst).
  apply scatter_traces_style in Hst. destruct Hst as (trs & Hall & Hd).
  simpl in Hd. rewrite Hd. revert Hall. apply Forall_impl.
  intros tr (Htr & Hstyle). unfold trace_style in Hstyle. simpl in Hstyle.
  injection Hstyle as Hmo Hfill Hsg _ _.
  repeat split; try assumption.
  rewrite Hmo. f_equal.
  destruct (ChartSpec.mode (VizSpec.chart m)) as [mode | ] eqn:E; [ reflexivity | ].
  destruct (is_line_or_area (ChartSpec.type (VizSpec.chart m))) eqn:Hla;
    [ | reflexivity ].
  destruct (Hmode eq_refl) as (mode & Hsome). discriminate Hsome.
Qed.

Lemma scatter_family_traces_share_one_style_witness :
  exists fig,
    snd (compile_figure Examples.to_datetime_unchanged [Examples.readings] 0%nat
           (Model Examples.two_lines_model)) = Ok fig
    /\ Forall (fun tr => Plotly.mode tr = Some "lines" /\ Plotly.fill tr = None)
         (Plotly.data fig).
Proof.
  assert (Hfig : exists fig,
            snd (compile_figure Examples.to_datetime_unchanged [Examples.readings]
                   0%nat (Model Examples.two_lines_model)) = Ok fig)
    by (eexists; vm_compute; reflexivity).
  destruct Hfig as (fig & Hfig). exists fig. split; [ exact Hfig | ].
  assert (Hvalid : VizSpec.validate Examples.two_lines = Ok Examples.two_lines_model)
    by (vm_compute; reflexivity).
  assert (Hty : In (ChartSpec.type (VizSpec.chart Examples.two_lines_model))
                  [ChartType.line; ChartType.scatter; ChartType.area])
    by (simpl; auto).
  pose proof (@scatter_family_traces_share_one_style
                Examples.to_datetime_unchanged [Examples.readings] 0%nat
                Examples.two_lines Examples.two_lines_model fig
                Hvalid Hty Hfig) as Hall.
  revert Hall. apply Forall_impl. intros tr (_ & Hmo & Hfill & _). auto.
Defined.

(** ** The injected resolvers *)

(** X20.  The resolvers that [_deps_from_spec] builds for [compile_viz]
    compute what the helper functions of [viz_engine.py] compute from the
    spec itself: the same trace names, the same routing to the secondary
    axis, and the colour that [_apply_common] gives the marker of a trace
    that has none yet. *)
Theorem default_resolvers_agree_with_the_engine (spec : VizSpec.t) :
  (forall ycol key,
     viz_compile.DefaultNameResolver.trace_name
       (viz_compile.names (viz_compile._deps_from_spec spec)) ycol key
     = _label_series spec key (_label_y spec ycol))
  /\ (forall tr ycol,
        viz_compile._route_axis tr ycol (viz_compile._deps_from_spec spec)
        = _route_axis tr ycol spec)
  /\ (forall tr name_key,
        Plotly.has_marker (Plotly.type_ tr) = true ->
        Plotly.marker_color tr = None ->
        Plotly.marker_color (_apply_common tr name_key spec)
        = match viz_compile.DefaultColorResolver.color_for
                  (viz_compile.colors (viz_compile._deps_from_spec spec))
                  name_key with
          | Some c => if truthy_str name_key && truthy_str c then Some c else None
          | None => None
          end).
Proof.
  destruct spec as [ver chart [fn x y z text name series ax enc labels cols] lay cfg].
  split; [ | split ].
  - intros ycol key.
    unfold viz_compile.DefaultNameResolver.trace_name, viz_compile._deps_from_spec,
      _label_series, _label_y.
    cbn [viz_compile.names viz_compile.DefaultNameResolver.labels_y
         viz_compile.DefaultNameResolver.labels_series
         VizSpec.data DataSpec.labels].
    destruct labels as [[ly ls] | ]; cbn [LabelsSpec.y LabelsSpec.series].
    + destruct key as [k | ], ycol as [c | ],
        ly as [[ | ? ?] | ], ls as [[ | ? ?] | ]; reflexivity.
    + destruct key as [k | ], ycol as [c | ]; reflexivity.
  - intros tr ycol.
    unfold viz_compile._route_axis, _route_axis,
      viz_compile.DefaultAxisRouter.route_yaxis, viz_compile._deps_from_spec,
      y2_for_of.
    cbn [viz_compile.axis viz_compile.DefaultAxisRouter.y2_for VizSpec.data
         DataSpec.axis].
    destruct ax as [[y2 sg] | ]; cbn [AxisSpec.y2_for]; [ | reflexivity ].
    destruct y2 as [[ | c0 rest] | ]; cbn [truthy_opt_list truthy_list];
      try reflexivity.
    destruct ycol as [c | ]; [ | reflexivity ].
    cbn [andb]. now destruct (mem_str c (c0 :: rest)).
  - intros tr name_key Hmark Hnone.
    unfold _apply_common, viz_compile.DefaultColorResolver.color_for,
      viz_compile._deps_from_spec.
    cbn [viz_compile.colors viz_compile.DefaultColorResolver.color_map
         VizSpec.data DataSpec.colors
         DataSpec.encodings].
    destruct tr as [ty tx ty' tz tl tv tmo tn tt tf tsg tb th top tms tmc tls tlc tya].
    cbn [Plotly.marker_color Plotly.type_] in Hmark, Hnone. subst tmc.
    destruct cols as [[[[ | kv rest] | ]] | ];
      cbn [ColorsSpec.color_map truthy_opt_list truthy_list assoc];
      repeat match goal with
             | |- context [match ?e with _ => _ end] => destruct e eqn:?
             end;
      simpl in *; try reflexivity; try discriminate; try congruence.
Qed.

(** ** The payload *)


(** ** Bindings the schema does not ask for *)

Lemma column_if_ensured (df : Pandas.DataFrame) (d : DataSpec.t) :
  _ensure_columns df (bound_columns d) = Ok tt ->
  exists a, column_if df (DataSpec.text d) = Ok a.
Proof.
  intros H. unfold column_if.
  destruct (DataSpec.text d) as [t | ] eqn:Ht; [ | eauto ].
  destruct (truthy_str t) eqn:E; [ | eauto ].
  destruct (@_ensure_columns_getitem df (bound_columns d) t H) as (s & Hs).
  - unfold bound_columns. apply filter_In. split; [ | exact E ].
    rewrite Ht. repeat (apply in_or_app; right). simpl. now left.
  - rewrite Hs. simpl. eauto.
Qed.

(** X22.  The schema lets a bar or box chart go without [y]; the builders
    do not.  For a spec without [y] whose bound columns exist,
    [compile_figure] raises no [CompileError]: the bar builder subscripts
    [None] (a [TypeError]), the box builder asks the table for the column
    [None] (a [KeyError]); the store is left as it was. *)
Theorem bar_and_box_without_y_raise
    (to_datetime : Pandas.Series -> option Pandas.Series)
    (st : Store) (df : ref) (m : VizSpec.t) :
  DataSpec.y (VizSpec.data m) = None ->
  _ensure_columns (deref st df) (bound_columns (VizSpec.data m)) = Ok tt ->
  (ChartSpec.type (VizSpec.chart m) = ChartType.bar ->
     compile_figure to_datetime st df (Model m) = (st, Err (PyRaise TypeError)))
  /\ (ChartSpec.type (VizSpec.chart m) = ChartType.box ->
        compile_figure to_datetime st df (Model m) = (st, Err (PyRaise KeyError))).
Proof.
  intros Hy Hcols. destruct (column_if_ensured _ _ Hcols) as (a & Ha).
  unfold compile_figure. simpl parse_viz_spec. cbv iota zeta. rewrite Hcols.
  unfold add_traces. split; intros ->.
  - unfold _add_bar. cbv zeta. rewrite Ha, Hy. cbn [bind].
    now destruct (series_by (VizSpec.data m)).
  - unfold _add_box. cbv zeta. rewrite Hy.
    now destruct (truthy_opt_str (DataSpec.x (VizSpec.data m))),
      (DataSpec.x (VizSpec.data m)).
Qed.

Lemma bar_and_box_without_y_raise_witness :
  VizSpec.validate Examples.bar_without_y = Ok Examples.bar_without_y_model
  /\ compile_figure Examples.to_datetime_unchanged [Examples.sales] 0%nat
       (Model Examples.bar_without_y_model)
     = ([Examples.sales], Err (PyRaise TypeError)).
Proof.
  split.
  - vm_compute. reflexivity.
  - apply (@bar_and_box_without_y_raise Examples.to_datetime_unchanged
             [Examples.sales] 0%nat Examples.bar_without_y_model).
    + reflexivity.
    + vm_compute. reflexivity.
    + reflexivity.
Defined.

(** X23.  Only the line, scatter, area and bar families plot a list [y]
    column by column.  A box plot or a pie chart given a list plots its
    first column and no other: whenever [compile_figure] returns a figure,
    its only trace carries the cells of the first column of the list (as
    [y] of the box, as [values] of the pie), and the box has no [x]. *)
Theorem box_and_pie_plot_the_first_y_only
    (to_datetime : Pandas.Series -> option Pandas.Series)
    (st : Store) (df : ref) (m : VizSpec.t) (y0 : string) (rest : list string)
    (fig : Plotly.Figure) :
  DataSpec.y (VizSpec.data m) = Some (YList (y0 :: rest)) ->
  snd (compile_figure to_datetime st df (Model m)) = Ok fig ->
  (ChartSpec.type (VizSpec.chart m) = ChartType.box ->
     exists s tr,
       Pandas.getitem (deref st df) y0 = Ok s
       /\ Plotly.data fig = [tr]
       /\ Plotly.x tr = None
       /\ Plotly.y tr = Some (Plotly.Column (Pandas.values s)))
  /\ (ChartSpec.type (VizSpec.chart m) = ChartType.pie ->
        exists s tr,
          Pandas.getitem (deref st df) y0 = Ok s
          /\ Plotly.data fig = [tr]
          /\ Plotly.values tr = Some (Plotly.Column (Pandas.values s))).
Proof.
  intros Hy Hfig. apply compile_figure_Ok in Hfig.
  destruct Hfig as (fig0 & _ & Hbuilt & Hdata & _).
  rewrite Hdata. clear Hdata. unfold add_traces in Hbuilt.
  split; intros Hty; rewrite Hty in Hbuilt; simpl in Hbuilt.
  - unfold _add_box in Hbuilt. cbv zeta in Hbuilt. rewrite Hy in Hbuilt.
    assert (H : (ycol <- first_y_or_none (Some (YList (y0 :: rest))) ;;
                 ys <- getitem_key (deref st df) (option_map YCol ycol) ;;
                 text <- column_if (deref st df) (DataSpec.text (VizSpec.data m)) ;;
                 let tr := go_Box None ys (_label_y m ycol) text in
                 let tr :=
                   _apply_common tr (match some_if_truthy ycol with
                                     | Some c => c
                                     | None => ""
                                     end) m in
                 Ok (Plotly.add_trace Plotly.empty_figure tr)) = Ok fig0).
    { now destruct (truthy_opt_str (DataSpec.x (VizSpec.data m))),
        (DataSpec.x (VizSpec.data m)). }
    clear Hbuilt. simpl first_y_or_none in H. cbn [bind option_map getitem_key] in H.
    destruct (Pandas.getitem (deref st df) y0) as [s | e] eqn:Hs;
      [ | discriminate H ].
    cbn [bind] in H. bind_Ok H. cbv zeta in H. injection H as <-.
    exists s. eexists. split; [ reflexivity | ]. split; [ reflexivity | ].
    match goal with
    | |- context [_apply_common ?t ?k m] =>
        pose proof (_apply_common_core t k m) as Hcore
    end.
    unfold trace_core in Hcore. injection Hcore as _ Hx Hyv _ _ _ _ _.
    rewrite Hx, Hyv. auto.
  - unfold _add_pie in Hbuilt. cbv zeta in Hbuilt. rewrite Hy in Hbuilt.
    simpl first_y_or_none in Hbuilt. cbn [bind] in Hbuilt.
    destruct (some_if_truthy (DataSpec.x (VizSpec.data m))) as [xc | ];
      [ | discriminate Hbuilt ].
    unfold some_if_truthy at 1 in Hbuilt. cbn [truthy_opt_str] in Hbuilt.
    destruct (truthy_str y0); [ | discriminate Hbuilt ].
    bind_Ok Hbuilt.
    destruct (Pandas.getitem (deref st df) y0) as [s | e] eqn:Hs;
      [ | discriminate Hbuilt ].
    cbn [bind] in Hbuilt. bind_Ok Hbuilt. cbv zeta in Hbuilt.
    injection Hbuilt as <-.
    exists s. eexists. split; [ reflexivity | ]. split; [ reflexivity | ].
    match goal with
    | |- context [_apply_common ?t ?k m] =>
        pose proof (_apply_common_core t k m) as Hcore
    end.
    unfold trace_core in Hcore. injection Hcore as _ _ _ _ _ _ _ Hv.
    rewrite Hv. reflexivity.
Qed.

Lemma box_and_pie_plot_the_first_y_only_witness :
  exists fig tr,
    snd (compile_figure Examples.to_datetime_unchanged [Examples.readings] 0%nat
           (Model Examples.box_of_two_model)) = Ok fig
    /\ Plotly.data fig = [tr]
    /\ Plotly.y tr = Some (Plotly.Column [Pandas.Int 1; Pandas.Int 2]).
Proof.
  assert (Hfig : exists fig,
            snd (compile_figure Examples.to_datetime_unchanged [Examples.readings]
                   0%nat (Model Examples.box_of_two_model)) = Ok fig)
    by (eexists; vm_compute; reflexivity).
  destruct Hfig as (fig & Hfig).
  destruct (@box_and_pie_plot_the_first_y_only
              Examples.to_datetime_unchanged [Examples.readings] 0%nat
              Examples.box_of_two_model "a" ["b"] fig eq_refl Hfig)
    as (Hbox & _).
  destruct (Hbox eq_refl) as (s & tr & Hs & Hd & _ & Hyv).
  exists fig, tr. split; [ exact Hfig | ]. split; [ exact Hd | ].
  rewrite Hyv. revert Hs. vm_compute. intros Hs. now injection Hs as <-.
Defined.

(** ** Encodings *)

Lemma _apply_common_encoded (tr : Plotly.Trace) (name_key : string)
    (spec : VizSpec.t) :
  Plotly.opacity tr = None ->
  Plotly.marker_size tr = None ->
  Plotly.line_shape tr = None ->
  encoded spec (_apply_common tr name_key spec).
Proof.
  destruct tr as [ty tx ty' tz tl tv tmo tn tt tf tsg tb th top tms tmc tls tlc tya].
  simpl. intros -> -> ->. unfold encoded, _apply_common.
  destruct (DataSpec.encodings (VizSpec.data spec)) as [[ms op ls] | ];
    cbn [EncodingsSpec.opacity EncodingsSpec.marker_size EncodingsSpec.line_shape];
    repeat match goal with
           | |- context [match ?e with _ => _ end] => destruct e eqn:?
           end;
    simpl in *; repeat split; congruence.
Qed.

Lemma _route_axis_encoded (tr : Plotly.Trace) (ycol : option string)
    (spec : VizSpec.t) :
  encoded spec tr -> encoded spec (_route_axis tr ycol spec).
Proof.
  unfold _route_axis.
  destruct (y2_for_of (VizSpec.data spec)) as [y2 | ], ycol as [c | ]; auto.
  destruct (mem_str c y2); auto.
Qed.

Ltac bind_all :=
  repeat match goal with
         | H : bind ?r _ = Ok _ |- _ =>
             let E := fresh "E" in
             destruct r eqn:E; cbn [bind] in H; [ | discriminate H ]
         | H : Ok _ = Ok ?a |- _ =>
             is_var a;
             lazymatch type of a with
             | Plotly.Figure => fail
             | _ => injection H as <-
             end
         | H : (let (_, _) := ?kg in _) = Ok _ |- _ => destruct kg
         end.

Ltac encoded_trace :=
  first [ apply _route_axis_encoded; apply _apply_common_encoded; reflexivity
        | apply _apply_common_encoded; reflexivity ].

Ltac encoded_builder H :=
  first
    [ (* one trace *)
      bind_all; injection H as <-;
      eexists [_]; split; [ | reflexivity ];
      constructor; [ encoded_trace | constructor ]
    | (* a loop *)
      bind_all;
      eapply for_each_Forall in H; [ exact H | ];
      let Hs := fresh "Hs" in
      intros ? ? ? Hs; cbv beta iota in Hs; bind_all; injection Hs as <-;
      eexists; split; [ reflexivity | encoded_trace ] ].

(** Every trace builder but the heatmap's hands each trace it makes to
    [_apply_common]. *)
Lemma add_traces_encoded (to_datetime : Pandas.Series -> option Pandas.Series)
    (st : Store) (df : ref) (m : VizSpec.t) (fig0 : Plotly.Figure) :
  ChartType.eqb (ChartSpec.type (VizSpec.chart m)) ChartType.heatmap = false ->
  snd (add_traces to_datetime st df m) = Ok fig0 ->
  exists trs, Forall (encoded m) trs /\ Plotly.data fig0 = [] ++ trs.
Proof.
  unfold add_traces. intros Hty H.
  destruct (ChartSpec.type (VizSpec.chart m)); try discriminate Hty.
  1, 2, 7:
    unfold _add_scatter_family in H;
    destruct (normalize_x_dtype to_datetime st df _) as [st' [r | e]];
    simpl in H; [ | discriminate H ];
    unfold scatter_traces in H; cbv zeta in H;
    destruct (DataSpec.y (VizSpec.data m)) as [[c | l] | ],
      (series_by (VizSpec.data m)) as [g | ];
    cbv beta iota in H; encoded_builder H.
  - simpl in H. unfold _add_bar in H. cbv zeta in H.
    destruct (ChartSpec.orientation (VizSpec.chart m)) as [[ | ] | ],
      (DataSpec.y (VizSpec.data m)) as [[c | l] | ],
      (series_by (VizSpec.data m)) as [g | ];
      cbv beta iota in H; encoded_builder H.
  - simpl in H. unfold _add_histogram in H. cbv zeta in H. encoded_builder H.
  - simpl in H. unfold _add_box in H. cbv zeta in H.
    destruct (truthy_opt_str (DataSpec.x (VizSpec.data m))),
      (DataSpec.x (VizSpec.data m)) as [xc | ],
      (DataSpec.y (VizSpec.data m)) as [[c | l] | ];
      cbv beta iota in H; encoded_builder H.
  - simpl in H. unfold _add_pie in H. cbv zeta in H. bind_all.
    destruct (some_if_truthy (DataSpec.x (VizSpec.data m))) as [xc | ];
      [ | discriminate H ].
    match type of H with
    | match ?e with _ => _ end = _ => destruct e as [vc | ]; [ | discriminate H ]
    end.
    encoded_builder H.
Qed.

(** X24.  The encodings of a spec are applied to every trace alike.  In a
    returned figure of any chart type but heatmap, each trace has the opacity
    of [data.encodings], its marker size when the trace type has markers,
    and its line shape when the trace type has a line (scatter and box);
    without an encodings section none of the three is set.  A heatmap trace
    gets no encoding at all. *)
Theorem encodings_apply_to_every_trace
    (to_datetime : Pandas.Series -> option Pandas.Series)
    (st : Store) (df : ref) (m : VizSpec.t) (fig : Plotly.Figure) :
  snd (compile_figure to_datetime st df (Model m)) = Ok fig ->
  if ChartType.eqb (ChartSpec.type (VizSpec.chart m)) ChartType.heatmap
  then Forall (fun tr => Plotly.opacity tr = None
                         /\ Plotly.marker_size tr = None
                         /\ Plotly.line_shape tr = None) (Plotly.data fig)
  else Forall (encoded m) (Plotly.data fig).
Proof.
  intros Hfig. apply compile_figure_Ok in Hfig.
  destruct Hfig as (fig0 & _ & Hbuilt & Hdata & _). rewrite Hdata. clear Hdata.
  destruct (ChartType.eqb (ChartSpec.type (VizSpec.chart m)) ChartType.heatmap)
    eqn:Hty.
  - unfold add_traces in Hbuilt.
    destruct (ChartSpec.type (VizSpec.chart m)); try discriminate Hty.
    simpl in Hbuilt.
    unfold _add_heatmap, heatmap_long_form, heatmap_fallback in Hbuilt.
    run Hbuilt; injection Hbuilt as <-; repeat constructor.
  - destruct (add_traces_encoded _ _ _ _ Hty Hbuilt) as (trs & Hall & Hd).
    now rewrite Hd.
Qed.

Lemma encodings_apply_to_every_trace_witness :
  exists fig,
    VizSpec.validate Examples.encoded_scatter = Ok Examples.encoded_scatter_model
    /\ snd (compile_figure Examples.to_datetime_unchanged [Examples.readings] 0%nat
              (Model Examples.encoded_scatter_model)) = Ok fig
    /\ Forall (fun tr => Plotly.opacity tr = Some 0x1.ccccccccccccdp-1%float)
         (Plotly.data fig).
Proof.
  assert (Hfig : exists fig,
            snd (compile_figure Examples.to_datetime_unchanged [Examples.readings]
                   0%nat (Model Examples.encoded_scatter_model)) = Ok fig)
    by (eexists; vm_compute; reflexivity).
  destruct Hfig as (fig & Hfig).
  exists fig. split; [ vm_compute; reflexivity | ]. split; [ exact Hfig | ].
  pose proof (@encodings_apply_to_every_trace Examples.to_datetime_unchanged
                [Examples.readings] 0%nat Examples.encoded_scatter_model fig Hfig)
    as Hall.
  simpl in Hall. revert Hall. apply Forall_impl.
  intros tr (Ho & _). exact Ho.
Defined.

(** ** The front-end config *)

Lemma PlotlyJSConfig_validate_fields_only (rc rc' : list (string * json)) :
  (forall name,
     In name ["responsive"; "displayModeBar"; "displaylogo"; "scrollZoom";
              "modeBarButtonsToRemove"] ->
     assoc name rc = assoc name rc') ->
  PlotlyJSConfig.validate rc = PlotlyJSConfig.validate rc'.
Proof.
  intros H. unfold PlotlyJSConfig.validate.
  rewrite (H "responsive"), (H "displayModeBar"), (H "displaylogo"),
    (H "scrollZoom"), (H "modeBarButtonsToRemove") by (simpl; tauto).
  reflexivity.
Qed.

(** X25.  Unlike the envelope, the front-end config ignores what it does not
    know.  Two inputs that differ only inside their [plotly_config] section,
    and there only in keys that are none of its five fields, validate alike:
    to the same model, or to the same error. *)
Theorem plotly_config_ignores_unknown_keys (raw raw' rc rc' : list (string * json)) :
  map fst raw = map fst raw' ->
  (forall name, name <> "plotly_config" -> assoc name raw = assoc name raw') ->
  assoc "plotly_config" raw = Some (JObj rc) ->
  assoc "plotly_config" raw' = Some (JObj rc') ->
  (forall name,
     In name ["responsive"; "displayModeBar"; "displaylogo"; "scrollZoom";
              "modeBarButtonsToRemove"] ->
     assoc name rc = assoc name rc') ->
  parse_viz_spec (Dict raw) = parse_viz_spec (Dict raw').
Proof.
  intros Hkeys Hother Hc Hc' Hsame.
  pose proof (PlotlyJSConfig_validate_fields_only _ _ Hsame) as Hcfg.
  unfold parse_viz_spec, VizSpec.parse_obj, VizSpec.validate,
    VizSpec.field_chart, VizSpec.field_data, VizSpec.extra_errors.
  rewrite Hkeys, Hc, Hc'.
  rewrite (Hother "version"), (Hother "chart"), (Hother "data"),
    (Hother "layout") by discriminate.
  cbn [optional model_validator]. rewrite Hcfg. reflexivity.
Qed.

Lemma plotly_config_ignores_unknown_keys_witness :
  parse_viz_spec (Dict Examples.config_with_unknown_key)
  = parse_viz_spec (Dict Examples.config_plain).
Proof.
  apply (@plotly_config_ignores_unknown_keys
           Examples.config_with_unknown_key Examples.config_plain
           [("editable", JBool true); ("scrollZoom", JBool true)]
           [("scrollZoom", JBool true)]).
  - reflexivity.
  - intros name Hne. simpl.
    destruct (String.eqb_spec name "chart"); [ reflexivity | ].
    destruct (String.eqb_spec name "data"); [ reflexivity | ].
    destruct (String.eqb_spec name "plotly_config"); [ contradiction | reflexivity ].
  - reflexivity.
  - reflexivity.
  - intros name [<- | [<- | [<- | [<- | [<- | []]]]]]; reflexivity.
Defined.
